(** * ReplyCraft: platform adapters, thread validation, text insertion, cache

    A shallow embedding of the TypeScript sources of the ReplyCraft browser
    extension (shared/storage.ts, shared/constants.ts,
    platform-adapters/*.ts, content/thread-extractor.ts,
    content/text-inserter.ts, shared/prompts/analyze-thread.ts) and the
    properties of its specification that concern them.

    Conventions.
    - A JavaScript string is the list of its UTF-16 code units, each a [Z].
    - A JavaScript number that the code only uses as an integer (lengths,
      epoch milliseconds, byte counts) is a [Z]; the two places where the
      code multiplies by a binary64 constant (0.2 and 0.7) go through
      [Binary64] below, which rounds as IEEE 754 does.
    - The DOM, the clock and chrome.storage are inputs: the DOM as the
      answers its queries give, the clock and the store as fields of a
      world record that the operations pass along. *)

From Stdlib Require Import ZArith List Bool Lia String Ascii Permutation Sorted.
From Stdlib Require PrimFloat Uint63 FloatOps.
From stdpp Require Import gmap list.
Import ListNotations.

Local Open Scope Z_scope.

(** ** JavaScript strings *)

Module JS.

Definition jsstring : Type := list Z.

(** A string literal of the source, as code units. *)
Definition js (s : string) : jsstring :=
  List.map (fun a => Z.of_N (N_of_ascii a)) (list_ascii_of_string s).

Definition len (s : jsstring) : Z := Z.of_nat (length s).

(** [s === ""] as a boolean; [!s] on a string is [isEmpty s]. *)
Definition isEmpty (s : jsstring) : bool :=
  match s with [] => true | _ => false end.

Definition eqb (a b : jsstring) : bool := bool_decide (a = b).

(** The relative index of String.prototype.slice: negative counts from the
    end, everything is clamped to [0, len]. *)
Definition clampIndex (n i : Z) : Z :=
  if i <? 0 then Z.max (n + i) 0 else Z.min i n.

(** String.prototype.slice(start, end). *)
Definition slice (s : jsstring) (start stop : Z) : jsstring :=
  let from := clampIndex (len s) start in
  let to := clampIndex (len s) stop in
  take (Z.to_nat (to - from)) (drop (Z.to_nat from) s).

(** String.prototype.slice(start). *)
Definition sliceFrom (s : jsstring) (start : Z) : jsstring :=
  drop (Z.to_nat (clampIndex (len s) start)) s.

(** String.prototype.startsWith(p). *)
Fixpoint startsWith (s p : jsstring) : bool :=
  match p, s with
  | [], _ => true
  | _ :: _, [] => false
  | c :: p', d :: s' => (c =? d) && startsWith s' p'
  end.

(** String.prototype.includes(p). *)
Fixpoint includes (s p : jsstring) : bool :=
  startsWith s p || match s with [] => false | _ :: s' => includes s' p end.

(** String.prototype.lastIndexOf(c) for a one-unit needle: the greatest
    index holding [c], or -1. *)
Fixpoint lastIndexOfFrom (s : jsstring) (c : Z) (i last : Z) : Z :=
  match s with
  | [] => last
  | d :: s' => lastIndexOfFrom s' c (i + 1) (if d =? c then i else last)
  end.

Definition lastIndexOf (s : jsstring) (c : Z) : Z := lastIndexOfFrom s c 0 (-1).

(** WhiteSpace and LineTerminator of ECMA-262, the code units that
    String.prototype.trim strips and that the regular expression class \s
    matches. *)
Definition isWhiteSpace (c : Z) : bool :=
  ((9 <=? c) && (c <=? 13)) || (c =? 32) || (c =? 160) || (c =? 5760)
  || ((8192 <=? c) && (c <=? 8202)) || (c =? 8232) || (c =? 8233)
  || (c =? 8239) || (c =? 8287) || (c =? 12288) || (c =? 65279).

Fixpoint trimStart (s : jsstring) : jsstring :=
  match s with
  | c :: s' => if isWhiteSpace c then trimStart s' else s
  | [] => []
  end.

Definition trimEnd (s : jsstring) : jsstring := rev (trimStart (rev s)).

(** String.prototype.trim. *)
Definition trim (s : jsstring) : jsstring := trimEnd (trimStart s).

(** [s.replace(/\s+/g, ' ')]: every maximal run of white space becomes one
    space. *)
Fixpoint collapseRuns (inRun : bool) (s : jsstring) : jsstring :=
  match s with
  | [] => []
  | c :: s' =>
      if isWhiteSpace c
      then (if inRun then [] else [32]) ++ collapseRuns true s'
      else c :: collapseRuns false s'
  end.

Definition collapseWhiteSpace (s : jsstring) : jsstring := collapseRuns false s.

(** String.prototype.toLowerCase on the code units A-Z; the other units are
    kept. The strings the properties below lower-case are ASCII, where this
    is the whole of the Unicode mapping. *)
Definition lowerUnit (c : Z) : Z :=
  if (65 <=? c) && (c <=? 90) then c + 32 else c.

Definition toLowerCase (s : jsstring) : jsstring := List.map lowerUnit s.

End JS.

Import JS.

(** ** Regular expressions of the adapters' URL patterns

    The patterns use literals, one negated class ([^/]), grouping,
    alternation, [?] and [+], and all start with [^]. [RegExp.test] on such
    a pattern (no flags) asks whether some prefix of the input is in the
    pattern's language. *)

Module RegExp.

Inductive regex : Type :=
  | Void
  | Eps
  | Chr (c : Z)
  | NotChr (c : Z)
  | Seq (r1 r2 : regex)
  | Alt (r1 r2 : regex)
  | Plus (r : regex).

Definition Opt (r : regex) : regex := Alt r Eps.

Fixpoint Lit (s : jsstring) : regex :=
  match s with
  | [] => Eps
  | c :: s' => Seq (Chr c) (Lit s')
  end.

(** The language of a pattern. *)
Inductive Matches : regex -> jsstring -> Prop :=
  | MEps : Matches Eps []
  | MChr c : Matches (Chr c) [c]
  | MNotChr c d : d <> c -> Matches (NotChr c) [d]
  | MSeq r1 r2 s1 s2 : Matches r1 s1 -> Matches r2 s2 -> Matches (Seq r1 r2) (s1 ++ s2)
  | MAltL r1 r2 s : Matches r1 s -> Matches (Alt r1 r2) s
  | MAltR r1 r2 s : Matches r2 s -> Matches (Alt r1 r2) s
  | MPlus1 r s : Matches r s -> Matches (Plus r) s
  | MPlusS r s1 s2 : Matches r s1 -> Matches (Plus r) s2 -> Matches (Plus r) (s1 ++ s2).

Fixpoint nullable (r : regex) : bool :=
  match r with
  | Void => false
  | Eps => true
  | Chr _ => false
  | NotChr _ => false
  | Seq r1 r2 => nullable r1 && nullable r2
  | Alt r1 r2 => nullable r1 || nullable r2
  | Plus r => nullable r
  end.

(** The derivative of a pattern by one code unit. *)
Fixpoint deriv (d : Z) (r : regex) : regex :=
  match r with
  | Void => Void
  | Eps => Void
  | Chr c => if d =? c then Eps else Void
  | NotChr c => if d =? c then Void else Eps
  | Seq r1 r2 =>
      if nullable r1
      then Alt (Seq (deriv d r1) r2) (deriv d r2)
      else Seq (deriv d r1) r2
  | Alt r1 r2 => Alt (deriv d r1) (deriv d r2)
  | Plus r => Seq (deriv d r) (Alt (Plus r) Eps)
  end.

(** Whether the whole of [s] is in the language of [r]. *)
Fixpoint matchAll (r : regex) (s : jsstring) : bool :=
  match s with
  | [] => nullable r
  | d :: s' => matchAll (deriv d r) s'
  end.

(** [/^r/.test(s)]: some prefix of [s] is in the language of [r]. *)
Fixpoint test (r : regex) (s : jsstring) : bool :=
  nullable r ||
  match s with
  | [] => false
  | d :: s' => test (deriv d r) s'
  end.

End RegExp.

(** ** shared/types.ts and shared/constants.ts *)

(** A JavaScript number that may be NaN (the result of [parseInt]). *)
Inductive number : Type :=
  | NaN
  | Int (z : Z).

(** [a > b] on numbers: false as soon as NaN is involved. *)
Definition num_gtb (a : number) (b : Z) : bool :=
  match a with
  | NaN => false
  | Int z => b <? z
  end.

Record Comment : Type := mkComment {
  id : jsstring;
  author : jsstring;
  text : jsstring;
  parentId : option jsstring;
  depth : number }.

(** [platform] is a string at run time; the type [Platform] of types.ts is
    the closed set that [isValidContext] checks it against. *)
Record ThreadContext : Type := mkThreadContext {
  platform : jsstring;
  url : jsstring;
  postTitle : jsstring;
  postBody : jsstring;
  postAuthor : option jsstring;
  comments : list Comment;
  extractedAt : Z }.

Module EXTRACTION_CONFIG.

Definition MAX_COMMENTS : Z := 50.
Definition MAX_COMMENT_DEPTH : Z := 3.
Definition MAX_POST_TITLE_LENGTH : Z := 500.
Definition MAX_POST_BODY_LENGTH : Z := 10000.

End EXTRACTION_CONFIG.

(** PRUNE_PERCENTAGE is the binary64 number written 0.2, [Binary64.c0_2]
    below. *)
Module CACHE_CONFIG.

Definition MAX_STORAGE_BYTES : Z := 8 * 1024 * 1024.
Definition MAX_ENTRY_SIZE_BYTES : Z := 100 * 1024.

End CACHE_CONFIG.

(** ** The DOM, as the answers it gives

    An element is what the adapters can observe of it: its attributes, its
    text content, the text nodes below it in document order (what a
    TreeWalker over SHOW_TEXT visits) and the elements a selector finds
    below it. *)

#[warnings="-register-all"]
Inductive Element : Type := mkElement {
  getAttribute : jsstring -> option jsstring;
  textContent : jsstring;
  textNodes : list jsstring;
  querySelectorAll : jsstring -> list Element }.

Definition querySelector (e : Element) (selector : jsstring) : option Element :=
  head (querySelectorAll e selector).

Record Document : Type := mkDocument {
  docQuerySelectorAll : jsstring -> list Element;
  docTitle : jsstring;
  location_href : jsstring;
  location_pathname : jsstring;
  Date_now : Z }.

Definition docQuerySelector (d : Document) (selector : jsstring) : option Element :=
  head (docQuerySelectorAll d selector).

(** [a || b] on strings: the first one that is not empty. *)
Definition orElse (a b : jsstring) : jsstring := if isEmpty a then b else a.

(** [a || b] where [a] may be null. *)
Definition orElseNull (a : option jsstring) (b : jsstring) : jsstring :=
  match a with
  | Some s => orElse s b
  | None => b
  end.

(** ** platform-adapters/adapter-interface.ts: BasePlatformAdapter *)

Module BasePlatformAdapter.

(** [canHandle]: some pattern of the adapter matches the url. *)
Definition canHandle (urlPatterns : list RegExp.regex) (url : jsstring) : bool :=
  existsb (fun pattern => RegExp.test pattern url) urlPatterns.

(** [queryFirst]: the first selector of the list that finds an element. *)
Fixpoint queryFirst (d : Document) (selectors : list jsstring) : option Element :=
  match selectors with
  | [] => None
  | selector :: rest =>
      match docQuerySelector d selector with
      | Some element => Some element
      | None => queryFirst d rest
      end
  end.

(** [queryAll]: all elements of the first selector that finds any. *)
Fixpoint queryAll (d : Document) (selectors : list jsstring) : list Element :=
  match selectors with
  | [] => []
  | selector :: rest =>
      match docQuerySelectorAll d selector with
      | [] => queryAll d rest
      | elements => elements
      end
  end.

Fixpoint queryFirstWithin (container : Element) (selectors : list jsstring)
  : option Element :=
  match selectors with
  | [] => None
  | selector :: rest =>
      match querySelector container selector with
      | Some element => Some element
      | None => queryFirstWithin container rest
      end
  end.

Definition getTextContent (element : option Element) : jsstring :=
  match element with
  | None => []
  | Some e => trim (textContent e)
  end.

Definition truncateText (text : jsstring) (maxLength : Z) : jsstring :=
  if len text <=? maxLength then text
  else slice text 0 (maxLength - 3) ++ js "...".

Section WithIds.

(** [generateCommentId] draws on the clock and on Math.random; the ids are
    taken as given, one per candidate element. *)
Variable generateCommentId : nat -> jsstring.

Definition extractCommentFromElement (textSelector authorSelector : list jsstring)
    (i : nat) (element : Element) : option Comment :=
  let textEl := queryFirstWithin element textSelector in
  let authorEl := queryFirstWithin element authorSelector in
  let text := getTextContent textEl in
  let author := orElse (getTextContent authorEl) (js "Anonymous") in
  if isEmpty text then None
  else Some {| id := generateCommentId i;
               author := author;
               text := truncateText text 2000;
               parentId := None;
               depth := Int 0 |}.

(** The loop runs over the first [min(elements.length, maxComments)]
    elements and pushes a comment for those with text. *)
Definition extractCommentsFromElements (elements : list Element)
    (textSelector authorSelector : list jsstring) (maxComments _maxDepth : Z)
  : list Comment :=
  omap (fun pushed => pushed)
    (imap (extractCommentFromElement textSelector authorSelector)
          (take (Z.to_nat maxComments) elements)).

End WithIds.

End BasePlatformAdapter.

(** ** Selectors and patterns shared by the three adapters *)

(** A selector with one quoted attribute test, [tag[attr op "value"]rest];
    34 is the code unit of the double quote. *)
Definition attrSel (tag attr op value rest : string) : jsstring :=
  js tag ++ js "[" ++ js attr ++ js op ++ [34] ++ js value ++ [34] ++ js "]" ++ js rest.

Definition cat (rs : list RegExp.regex) : RegExp.regex :=
  fold_right RegExp.Seq RegExp.Eps rs.

(** [^https?:\/\/] *)
Definition re_scheme : RegExp.regex :=
  cat [RegExp.Lit (js "http"); RegExp.Opt (RegExp.Lit (js "s")); RegExp.Lit (js "://")].

(** [(www\.)?] *)
Definition re_www : RegExp.regex := RegExp.Opt (RegExp.Lit (js "www.")).

(** [[^/]+] *)
Definition re_segment : RegExp.regex := RegExp.Plus (RegExp.NotChr 47).

(** [Array.prototype.join]. *)
Fixpoint join (sep : jsstring) (parts : list jsstring) : jsstring :=
  match parts with
  | [] => []
  | [p] => p
  | p :: rest => p ++ sep ++ join sep rest
  end.

Definition isDigit (c : Z) : bool := (48 <=? c) && (c <=? 57).

Fixpoint takeDigits (s : jsstring) : jsstring :=
  match s with
  | c :: s' => if isDigit c then c :: takeDigits s' else []
  | [] => []
  end.

(** The value of a run of decimal digits. *)
Definition digitsValue (ds : jsstring) : Z :=
  fold_left (fun acc c => 10 * acc + (c - 48)) ds 0.

(** [parseInt(s, 10)]: leading white space, an optional sign, then the
    longest run of digits; NaN when there is none. *)
Definition parseInt10 (s : jsstring) : number :=
  let t := trimStart s in
  let '(sign, u) :=
    match t with
    | 45 :: u => (-1, u)
    | 43 :: u => (1, u)
    | _ => (1, t)
    end in
  match takeDigits u with
  | [] => NaN
  | ds => Int (sign * digitsValue ds)
  end.

(** ** platform-adapters/reddit-adapter.ts *)

Module RedditAdapter.

Import BasePlatformAdapter.

Definition commentContainer : list jsstring :=
  [ js "shreddit-comment"; attrSel "" "data-testid" "=" "comment" "";
    js ".Comment"; js ".comment .entry"; js ".thing.comment" ].

Definition commentText : list jsstring :=
  [ attrSel "div" "slot" "=" "comment" "";
    attrSel "" "data-testid" "=" "comment-rtjson-content" "";
    js ".Comment .RichTextJSON-root"; js ".usertext-body .md"; js ".md" ].

Definition commentAuthor : list jsstring :=
  [ attrSel "a" "slot" "=" "authorName" "";
    attrSel "" "data-testid" "=" "comment_author_link" "";
    js ".Comment__author"; js ".author"; js "a.author" ].

Definition URL_PATTERNS : list RegExp.regex :=
  [ cat [re_scheme; re_www; RegExp.Lit (js "reddit.com/r/"); re_segment;
         RegExp.Lit (js "/comments/")];
    cat [re_scheme; RegExp.Lit (js "old.reddit.com/r/"); re_segment;
         RegExp.Lit (js "/comments/")];
    cat [re_scheme; re_www; RegExp.Lit (js "reddit.com/user/"); re_segment;
         RegExp.Lit (js "/comments/")] ].

Definition canHandle (url : jsstring) : bool :=
  BasePlatformAdapter.canHandle URL_PATTERNS url.

Section WithDom.

Variable generateCommentId : nat -> jsstring.

(** The title and body look-ups (five and two tiers of DOM queries) are
    taken as given: what follows holds whatever text they return. *)
Variable extractPostTitle : Document -> jsstring.
Variable extractPostBody : Document -> jsstring.

Definition extractShredditComment (i : nat) (element : Element) : option Comment :=
  let author := orElseNull (getAttribute element (js "author")) (js "[deleted]") in
  let depthStr := getAttribute element (js "depth") in
  let depth :=
    match depthStr with
    | Some s => if isEmpty s then Int 0 else parseInt10 s
    | None => Int 0
    end in
  if num_gtb depth EXTRACTION_CONFIG.MAX_COMMENT_DEPTH then None
  else
    let text0 :=
      match querySelector element (attrSel "" "slot" "=" "comment" "") with
      | Some commentSlot => getTextContent (Some commentSlot)
      | None => []
      end in
    let text1 :=
      if isEmpty text0
      then orElse
             (orElseNull (getAttribute element (js "comment-body"))
                         (orElseNull (getAttribute element (js "content")) []))
             text0
      else text0 in
    let text2 :=
      if isEmpty text1
      then match querySelectorAll element (js "p") with
           | [] => text1
           | paragraphs =>
               join [10]
                    (List.map (fun p => getTextContent (Some p)) paragraphs)
           end
      else text1 in
    if isEmpty text2 then None
    else Some {| id := orElseNull (getAttribute element (js "thingid"))
                                  (generateCommentId i);
                 author := author;
                 text := truncateText text2 2000;
                 parentId :=
                   match getAttribute element (js "parentid") with
                   | Some p => if isEmpty p then None else Some p
                   | None => None
                   end;
                 depth := depth |}.

Definition extractSingleComment (i : nat) (element : Element) (depth : Z)
  : option Comment :=
  if depth >? EXTRACTION_CONFIG.MAX_COMMENT_DEPTH then None
  else
    let textEl := queryFirstWithin element commentText in
    let authorEl := queryFirstWithin element commentAuthor in
    let text := getTextContent textEl in
    let author := orElse (getTextContent authorEl) (js "[deleted]") in
    if isEmpty text then None
    else Some {| id := generateCommentId i;
                 author := author;
                 text := truncateText text 2000;
                 parentId := None;
                 depth := Int depth |}.

Definition extractComments (d : Document) : list Comment :=
  match docQuerySelectorAll d (js "shreddit-comment") with
  | (_ :: _) as shredditComments =>
      omap (fun pushed => pushed)
        (imap extractShredditComment
           (take (Z.to_nat EXTRACTION_CONFIG.MAX_COMMENTS) shredditComments))
  | [] =>
      omap (fun pushed => pushed)
        (imap (fun i element => extractSingleComment i element 0)
           (take (Z.to_nat EXTRACTION_CONFIG.MAX_COMMENTS)
                 (queryAll d commentContainer)))
  end.

Definition extractThreadContext (d : Document) : option ThreadContext :=
  let postTitle := extractPostTitle d in
  let postBody := extractPostBody d in
  let comments := extractComments d in
  if isEmpty postTitle then None
  else Some {| platform := js "reddit";
               url := location_href d;
               postTitle := truncateText postTitle EXTRACTION_CONFIG.MAX_POST_TITLE_LENGTH;
               postBody := truncateText postBody EXTRACTION_CONFIG.MAX_POST_BODY_LENGTH;
               postAuthor := None;
               comments := comments;
               extractedAt := Date_now d |}.

End WithDom.

End RedditAdapter.

(** ** platform-adapters/twitter-adapter.ts

    The document is the page as it is once [waitForContent] has resolved;
    the polling itself (at most twenty rounds of 100 ms) is not part of
    the model. *)

Module TwitterAdapter.

Import BasePlatformAdapter.

Definition postBodySelectors : list jsstring :=
  [ attrSel "" "data-testid" "=" "tweetText" "";
    attrSel "article" "data-testid" "=" "tweet" " [lang]";
    attrSel "" "data-testid" "=" "tweet" " div[lang]" ].

Definition sel_tweet : jsstring := attrSel "article" "data-testid" "=" "tweet" "".
Definition sel_timeLink : jsstring := attrSel "a" "href" "*=" "/status/" "".
Definition sel_tweetText : jsstring := attrSel "" "data-testid" "=" "tweetText" "".
Definition sel_userName : jsstring := attrSel "" "data-testid" "=" "User-Name" " a".

(** [/^https?:\/\/(www\.)?(twitter|x)\.com\/[^/]+\/status\//] *)
Definition URL_PATTERNS : list RegExp.regex :=
  [ cat [re_scheme; re_www;
         RegExp.Alt (RegExp.Lit (js "twitter")) (RegExp.Lit (js "x"));
         RegExp.Lit (js ".com/"); re_segment; RegExp.Lit (js "/status/")] ].

Definition canHandle (url : jsstring) : bool :=
  BasePlatformAdapter.canHandle URL_PATTERNS url.

(** [pathname.match(/\/status\/(\d+)/)?.[1] ?? '']: the digits after the
    leftmost "/status/" that is followed by a digit. *)
Fixpoint getTweetIdFrom (pathname : jsstring) : jsstring :=
  match pathname with
  | [] => []
  | _ :: rest =>
      if startsWith pathname (js "/status/")
      then match takeDigits (drop 8 pathname) with
           | [] => getTweetIdFrom rest
           | ds => ds
           end
      else getTweetIdFrom rest
  end.

Definition getTweetIdFromUrl (d : Document) : jsstring :=
  getTweetIdFrom (location_pathname d).

Definition extractTwitterUsername (element : option Element) : jsstring :=
  match element with
  | None => js "Unknown"
  | Some e =>
      let href := getAttribute e (js "href") in
      match href with
      | Some h =>
          if negb (isEmpty h) && startsWith h (js "/")
          then js "@" ++ sliceFrom h 1
          else let text := getTextContent element in
               if startsWith text (js "@") then text else js "@" ++ text
      | None =>
          let text := getTextContent element in
          if startsWith text (js "@") then text else js "@" ++ text
      end
  end.

(** [timeLink && timeLink.getAttribute('href')?.includes(tweetId)] *)
Definition linksTo (tweet : Element) (tweetId : jsstring) : bool :=
  match querySelector tweet sel_timeLink with
  | Some timeLink =>
      match getAttribute timeLink (js "href") with
      | Some href => includes href tweetId
      | None => false
      end
  | None => false
  end.

Definition tweetTextAndAuthor (tweet : Element) : jsstring * jsstring :=
  (getTextContent (querySelector tweet sel_tweetText),
   extractTwitterUsername (querySelector tweet sel_userName)).

Definition extractMainTweet (d : Document) : jsstring * jsstring :=
  let tweetId := getTweetIdFromUrl d in
  let allTweets := docQuerySelectorAll d sel_tweet in
  match List.find (fun tweet => linksTo tweet tweetId) allTweets with
  | Some tweet => tweetTextAndAuthor tweet
  | None =>
      match allTweets with
      | firstTweet :: _ => tweetTextAndAuthor firstTweet
      | [] => (getTextContent (queryFirst d postBodySelectors), js "@unknown")
      end
  end.

Section WithDom.

Variable generateCommentId : nat -> jsstring.

(** The loop of [extractReplies] over the tweets that remain, with its
    three variables: [foundMainTweet], [replyCount] and the position [i] of
    the tweet in the document. *)
Fixpoint repliesLoop (mainTweetId : jsstring) (foundMainTweet : bool)
    (replyCount : Z) (i : nat) (tweets : list Element) : list Comment :=
  match tweets with
  | [] => []
  | tweet :: rest =>
      if linksTo tweet mainTweetId
      then repliesLoop mainTweetId true replyCount (S i) rest
      else if negb foundMainTweet
      then repliesLoop mainTweetId foundMainTweet replyCount (S i) rest
      else if replyCount >=? EXTRACTION_CONFIG.MAX_COMMENTS then []
      else
        let text := getTextContent (querySelector tweet sel_tweetText) in
        let author := extractTwitterUsername (querySelector tweet sel_userName) in
        if isEmpty text
        then repliesLoop mainTweetId foundMainTweet replyCount (S i) rest
        else {| id := generateCommentId i;
                author := author;
                text := truncateText text 2000;
                parentId := None;
                depth := Int 0 |}
             :: repliesLoop mainTweetId foundMainTweet (replyCount + 1) (S i) rest
  end.

Definition extractReplies (d : Document) : list Comment :=
  repliesLoop (getTweetIdFromUrl d) false 0 0 (docQuerySelectorAll d sel_tweet).

Definition extractThreadContext (d : Document) : option ThreadContext :=
  let '(mainTweet, postAuthor) := extractMainTweet d in
  let replies := extractReplies d in
  if isEmpty mainTweet then None
  else Some {| platform := js "twitter";
               url := location_href d;
               postTitle := [];
               postBody := truncateText mainTweet EXTRACTION_CONFIG.MAX_POST_BODY_LENGTH;
               postAuthor := Some postAuthor;
               comments := replies;
               extractedAt := Date_now d |}.

End WithDom.

End TwitterAdapter.

(** ** platform-adapters/facebook-adapter.ts

    As for Twitter, the document is the page after [waitForContent]. *)

Module FacebookAdapter.

Import BasePlatformAdapter.

Definition postBodySelectors : list jsstring :=
  [ attrSel "" "data-ad-preview" "=" "message" "";
    attrSel "" "data-ad-comet-preview" "=" "message" "";
    attrSel "div" "data-ad-preview" "=" "message" " span";
    attrSel "div" "dir" "=" "auto" (String "[" "style*=") ++ [34] ++ js "text-align" ++ [34] ++ js "]";
    js ".userContent" ].

Definition commentAuthor : list jsstring :=
  [ attrSel "a" "role" "=" "link" (String "[" "tabindex=") ++ [34] ++ js "0" ++ [34] ++ js "]";
    js ".UFICommentActorName"; js "span.fwb a" ].

Definition URL_PATTERNS : list RegExp.regex :=
  [ cat [re_scheme; re_www; RegExp.Lit (js "facebook.com/"); re_segment;
         RegExp.Lit (js "/posts/")];
    cat [re_scheme; re_www; RegExp.Lit (js "facebook.com/groups/"); re_segment;
         RegExp.Lit (js "/posts/")];
    cat [re_scheme; re_www; RegExp.Lit (js "facebook.com/permalink.php")];
    cat [re_scheme; re_www; RegExp.Lit (js "facebook.com/"); re_segment;
         RegExp.Lit (js "/photos/")];
    cat [re_scheme; re_www; RegExp.Lit (js "facebook.com/photo")] ].

Definition canHandle (url : jsstring) : bool :=
  BasePlatformAdapter.canHandle URL_PATTERNS url.

Section WithDom.

Variable generateCommentId : nat -> jsstring.

(** The two pattern tests on extracted text, [isEmoji] (a Unicode range
    class) and [isMetadataText] (four case-insensitive patterns), are taken
    as given. *)
Variable isEmoji : jsstring -> bool.
Variable isMetadataText : jsstring -> bool.

Definition keptTextNode (node : jsstring) : option jsstring :=
  let text := trim node in
  if negb (isEmpty text) && negb (isEmoji text) then Some text else None.

Definition extractTextFromFacebookElement (element : option Element) : jsstring :=
  match element with
  | None => []
  | Some e => trim (join (js " ") (omap keptTextNode (textNodes e)))
  end.

Definition substantialText (container : Element) : option jsstring :=
  let text := extractTextFromFacebookElement (Some container) in
  if negb (isEmpty text) && (20 <? len text) && negb (isMetadataText text)
  then Some text else None.

Definition extractPostBody (d : Document) : jsstring :=
  let strategy23 :=
    match omap substantialText
            (flat_map (fun article => querySelectorAll article (attrSel "div" "dir" "=" "auto" ""))
                      (docQuerySelectorAll d (attrSel "div" "role" "=" "article" ""))) with
    | text :: _ => text
    | [] => extractTextFromFacebookElement (queryFirst d postBodySelectors)
    end in
  match docQuerySelector d (attrSel "" "data-ad-preview" "=" "message" "") with
  | Some adPreview =>
      let text := extractTextFromFacebookElement (Some adPreview) in
      if isEmpty text then strategy23 else text
  | None => strategy23
  end.

Definition findCommentContainers (d : Document) : list Element :=
  docQuerySelectorAll d (attrSel "" "aria-label" "*=" "Comment" "")
  ++ docQuerySelectorAll d (js ".UFICommentContent").

(** The longest extracted text among the candidates, the first one among
    equals. *)
Definition longestText (textElements : list Element) : jsstring :=
  fold_left
    (fun text el =>
       let t := extractTextFromFacebookElement (Some el) in
       if negb (isEmpty t) && (len text <? len t) then t else text)
    textElements [].

Definition extractSingleComment (i : nat) (container : Element) : option Comment :=
  let text :=
    longestText
      (querySelectorAll container
         (attrSel "div" "dir" "=" "auto" " span, .UFICommentBody")) in
  if isEmpty text then None
  else
    let authorEl := queryFirstWithin container commentAuthor in
    let author := orElse (getTextContent authorEl) (js "Facebook User") in
    Some {| id := generateCommentId i;
            author := author;
            text := truncateText text 2000;
            parentId := None;
            depth := Int 0 |}.

Definition extractComments (d : Document) : list Comment :=
  omap (fun pushed => pushed)
    (imap extractSingleComment
       (take (Z.to_nat EXTRACTION_CONFIG.MAX_COMMENTS) (findCommentContainers d))).

Definition extractThreadContext (d : Document) : option ThreadContext :=
  let postBody := extractPostBody d in
  let comments := extractComments d in
  if isEmpty postBody then None
  else Some {| platform := js "facebook";
               url := location_href d;
               postTitle := [];
               postBody := truncateText postBody EXTRACTION_CONFIG.MAX_POST_BODY_LENGTH;
               postAuthor := None;
               comments := comments;
               extractedAt := Date_now d |}.

End WithDom.

End FacebookAdapter.

(** ** binary64 products of an integer and a constant

    [entries.length * 0.2] and [maxLength * 0.7] are products of an integer
    and a binary64 constant, rounded to nearest, ties to even. A finite
    binary64 number is kept as a pair [(m, e)] standing for [m * 2^e]; the
    products below stay far inside the exponent range, so neither overflow
    nor subnormal numbers arise. *)

Module Binary64.

Definition float : Type := (Z * Z)%type.

(** 0.2 is 0x3FC999999999999A and 0.7 is 0x3FE6666666666666. *)
Definition c0_2 : float := (7205759403792794, -55).
Definition c0_7 : float := (6305039478318694, -53).

(** [q / 2^s] for [q >= 0], rounded to the nearest integer, ties to even. *)
Definition roundNearestEven (q s : Z) : Z :=
  let d := 2 ^ s in
  let f := q / d in
  let r := q mod d in
  if 2 * r <? d then f
  else if d <? 2 * r then f + 1
  else if Z.even f then f else f + 1.

(** The binary64 number nearest to [q * 2^e]: a significand of more than
    53 bits is rounded to 53. *)
Definition round (q e : Z) : float :=
  let a := Z.abs q in
  let bits := if a =? 0 then 0 else Z.log2 a + 1 in
  if bits <=? 53 then (q, e)
  else let s := bits - 53 in (Z.sgn q * roundNearestEven a s, e + s).

(** [n * c] for an integer [n] below 2^53 in absolute value. *)
Definition mul_int (n : Z) (c : float) : float := round (n * fst c) (snd c).

(** [Math.ceil]. *)
Definition ceil (x : float) : Z :=
  let '(m, e) := x in
  if 0 <=? e then m * 2 ^ e else - ((- m) / 2 ^ (- e)).

(** [k > x] for an integer [k]. *)
Definition int_gtb (k : Z) (x : float) : bool :=
  let '(m, e) := x in
  if 0 <=? e then m * 2 ^ e <? k else m <? k * 2 ^ (- e).

(** The same number as a primitive float of the proof assistant, to
    compare the products above with the ones the hardware computes. *)
Definition toPrim (x : float) : PrimFloat.float :=
  FloatOps.Z.ldexp (PrimFloat.of_uint63 (Uint63.of_Z (fst x))) (snd x).

Definition agreesWithPrim (c : float) (n : Z) : bool :=
  PrimFloat.eqb (PrimFloat.mul (PrimFloat.of_uint63 (Uint63.of_Z n)) (toPrim c))
                (toPrim (mul_int n c)).

(** Lengths to compare on: every one up to 1200, then some up to the
    largest an array can have. *)
Definition sampleLengths : list Z :=
  List.map Z.of_nat (seq 0 1200)
  ++ [1999; 2000; 3000; 9999; 10000; 15000; 65535; 65536; 1000003; 16777215;
      16777216; 123456789; 2147483647; 2147483648; 4294967291; 4294967295].

End Binary64.

(** ** shared/prompts/analyze-thread.ts: truncateForPrompt *)

Definition truncateForPrompt (text : jsstring) (maxLength : Z) : jsstring :=
  if len text <=? maxLength then text
  else
    let truncated := slice text 0 maxLength in
    let lastPeriod := lastIndexOf truncated 46 in
    let lastNewline := lastIndexOf truncated 10 in
    let cutPoint := Z.max lastPeriod lastNewline in
    if Binary64.int_gtb cutPoint (Binary64.mul_int maxLength Binary64.c0_7)
    then slice truncated 0 (cutPoint + 1) ++ [10] ++ js "[Content truncated]"
    else truncated ++ js "... [Content truncated]".

(** ** Calls that may throw *)

Inductive result (E A : Type) : Type :=
  | Returns (a : A)
  | Throws (e : E).

Arguments Returns {E A} a.
Arguments Throws {E A} e.

(** ** content/thread-extractor.ts *)

Module ThreadExtractor.

Definition validPlatforms : list jsstring :=
  [js "reddit"; js "twitter"; js "facebook"].

Definition hasContent (context : ThreadContext) : bool :=
  (0 <? len (trim (postTitle context)))
  || (0 <? len (trim (postBody context)))
  || (0 <? Z.of_nat (length (comments context))).

Definition isValidContext (context : ThreadContext) : bool :=
  if isEmpty (url context) then false
  else if negb (hasContent context) then false
  else if negb (existsb (JS.eqb (platform context)) validPlatforms) then false
  else true.

(** [extractWithAdapter], given what the awaited
    [adapter.extractThreadContext()] came to: a context, null, or a
    rejection, which the catch clause turns into null. The warnings on
    the console are left out. *)
Definition extractWithAdapter {E : Type} (extracted : result E (option ThreadContext))
  : option ThreadContext :=
  match extracted with
  | Returns None => None
  | Returns (Some context) =>
      if negb (isValidContext context) then None else Some context
  | Throws _ => None
  end.

End ThreadExtractor.

(** ** content/text-inserter.ts

    The page is a state [Page] that the adapter reads and writes; a call
    returns or throws and leaves a page behind in both cases. What the
    functions write to the console is left out. *)

Module TextInserter.

Section WithPage.

Context {Page HTMLElement Error : Type}.

Definition M (A : Type) : Type := Page -> result Error A * Page.

Definition ret {A} (a : A) : M A := fun p => (Returns a, p).

Definition throw {A} (e : Error) : M A := fun p => (Throws e, p).

Definition bind {A B} (m : M A) (k : A -> M B) : M B :=
  fun p =>
    match m p with
    | (Returns a, p') => k a p'
    | (Throws e, p') => (Throws e, p')
    end.

(** [try { m } catch (error) { handler error }] *)
Definition try_catch {A} (m : M A) (handler : Error -> M A) : M A :=
  fun p =>
    match m p with
    | (Returns a, p') => (Returns a, p')
    | (Throws e, p') => handler e p'
    end.

(** The part of the PlatformAdapter interface that the inserter calls. *)
Record PlatformAdapter : Type := mkPlatformAdapter {
  getInputText : HTMLElement -> M jsstring;
  setInputText : HTMLElement -> jsstring -> bool -> M unit }.

(** [fallbackInsert] works on the DOM alone (focus, execCommand, value
    assignment, events); it is taken as a page transformer that may
    throw. *)
Variable fallbackInsert : HTMLElement -> jsstring -> M unit.

Local Notation "'let*' x ':=' m 'in' k" := (bind m (fun x => k))
  (at level 10, x binder, m at level 100, k at level 200).

Definition insertText (input : HTMLElement) (text : jsstring)
    (adapter : PlatformAdapter) : M unit :=
  let* originalText := getInputText adapter input in
  try_catch
    (let* _ := setInputText adapter input text false in
     let* newText := getInputText adapter input in
     let normalizedNew := collapseWhiteSpace (trim newText) in
     let normalizedExpected := collapseWhiteSpace (trim text) in
     if negb (includes normalizedNew normalizedExpected) && (len normalizedNew =? 0)
     then fallbackInsert input text
     else ret tt)
    (fun error =>
       let* _ := try_catch (setInputText adapter input originalText false)
                           (fun _ => ret tt) in
       throw error).

Definition appendText (input : HTMLElement) (text : jsstring)
    (adapter : PlatformAdapter) : M unit :=
  setInputText adapter input text true.

End WithPage.

End TextInserter.

(** ** Numbers as text *)

(** The digit [d] of a radix up to 36: 0-9, then a-z. *)
Definition digitChar (d : Z) : Z := if d <? 10 then 48 + d else 87 + d.

Fixpoint digitsOf (fuel : nat) (radix n : Z) (acc : jsstring) : jsstring :=
  match fuel with
  | O => acc
  | S fuel' =>
      let acc' := digitChar (n mod radix) :: acc in
      if n <? radix then acc' else digitsOf fuel' radix (n / radix) acc'
  end.

(** [n.toString(radix)] for an integer [n]; the fuel is more than the
    number of digits. *)
Definition toStringRadix (radix n : Z) : jsstring :=
  let a := Z.abs n in
  (if n <? 0 then [45] else []) ++ digitsOf (S (Z.to_nat (Z.log2 a))) radix a [].

(** ** The URL class, as far as the cache key needs it

    [URL.parse] models [new URL(url)] on a part of its domain and says so
    when the input is outside it ([Unmodelled]). Inside are: the strings
    that hold no colon, which the constructor rejects, and the http and
    https addresses [scheme://host/path?query#fragment] whose host is a
    plain ASCII name, whose path needs neither percent-encoding nor
    dot-segment removal and whose query decodes to ASCII. *)

Module URL.

Record t : Type := mk {
  scheme : jsstring;
  host : jsstring;
  pathname : jsstring;
  query : option jsstring;
  fragment : option jsstring;
  searchParams : list (jsstring * jsstring) }.

Inductive parsed : Type :=
  | Parsed (u : t)
  | TypeError
  | Unmodelled.

Definition isAlpha (c : Z) : bool :=
  ((65 <=? c) && (c <=? 90)) || ((97 <=? c) && (c <=? 122)).

Definition isAlnum (c : Z) : bool := isAlpha c || isDigit c.

Definition isHex (c : Z) : bool :=
  isDigit c || ((65 <=? c) && (c <=? 70)) || ((97 <=? c) && (c <=? 102)).

Definition hexValue (c : Z) : Z :=
  if isDigit c then c - 48 else if c <=? 70 then c - 55 else c - 87.

Definition inSet (cs : jsstring) (c : Z) : bool := existsb (Z.eqb c) cs.

(** The part of [s] before the first unit that satisfies [stop], and the
    rest, which starts with that unit. *)
Fixpoint break (stop : Z -> bool) (s : jsstring) : jsstring * jsstring :=
  match s with
  | [] => ([], [])
  | c :: s' =>
      if stop c then ([], s)
      else let '(a, b) := break stop s' in (c :: a, b)
  end.

(** [s] cut at every unit equal to [sep]. *)
Fixpoint split (sep : Z) (s : jsstring) : list jsstring :=
  match s with
  | [] => [[]]
  | c :: s' =>
      match split sep s' with
      | p :: ps => if c =? sep then [] :: p :: ps else (c :: p) :: ps
      | [] => [[c]]
      end
  end.

(** Percent-decoding, after [+] has been turned into a space. *)
Fixpoint percentDecode (s : jsstring) : jsstring :=
  match s with
  | [] => []
  | c :: s' =>
      match s' with
      | h1 :: h2 :: rest =>
          if (c =? 37) && isHex h1 && isHex h2
          then (16 * hexValue h1 + hexValue h2) :: percentDecode rest
          else c :: percentDecode s'
      | _ => c :: percentDecode s'
      end
  end.

Definition plusToSpace (s : jsstring) : jsstring :=
  List.map (fun c => if c =? 43 then 32 else c) s.

(** The application/x-www-form-urlencoded parser on a query. *)
Definition parseQuery (q : jsstring) : list (jsstring * jsstring) :=
  omap (fun seq =>
          if isEmpty seq then None
          else let '(name, rest) := break (Z.eqb 61) seq in
               let value := match rest with _ :: v => v | [] => [] end in
               Some (percentDecode (plusToSpace name), percentDecode (plusToSpace value)))
       (split 38 q).

(** The application/x-www-form-urlencoded serializer, on ASCII. *)
Definition encodeUnit (c : Z) : jsstring :=
  if isAlnum c || inSet (js "*-._") c then [c]
  else if c =? 32 then [43]
  else [37; Z.add (if c / 16 <? 10 then 48 else 55) (c / 16);
            Z.add (if c mod 16 <? 10 then 48 else 55) (c mod 16)].

Definition urlencode (s : jsstring) : jsstring := flat_map encodeUnit s.

Definition serializeQuery (l : list (jsstring * jsstring)) : jsstring :=
  join (js "&") (List.map (fun '(n, v) => urlencode n ++ js "=" ++ urlencode v) l).

(** [searchParams.delete(name)] and the update of the query that follows
    it: an empty list leaves no query at all. *)
Definition searchParams_delete (name : jsstring) (u : t) : t :=
  let l := List.filter (fun '(n, _) => negb (JS.eqb n name)) (searchParams u) in
  let q := serializeQuery l in
  {| scheme := scheme u; host := host u; pathname := pathname u;
     query := if isEmpty q then None else Some q;
     fragment := fragment u; searchParams := l |}.

(** [parsed.hash = value]: the empty string removes the fragment. *)
Definition set_hash (value : jsstring) (u : t) : t :=
  {| scheme := scheme u; host := host u; pathname := pathname u;
     query := query u;
     fragment :=
       if isEmpty value then None
       else Some (match value with 35 :: f => f | _ => value end);
     searchParams := searchParams u |}.

(** [parsed.toString()], the href. *)
Definition toString (u : t) : jsstring :=
  scheme u ++ js "://" ++ host u ++ pathname u
  ++ match query u with Some q => js "?" ++ q | None => [] end
  ++ match fragment u with Some f => js "#" ++ f | None => [] end.

Definition validScheme (s : jsstring) : bool :=
  match s with
  | [] => false
  | c :: s' => isAlpha c && forallb (fun d => isAlnum d || inSet (js "+-.") d) s'
  end.

Definition lastLabel (h : jsstring) : jsstring := List.last (split 46 h) [].

(** A host the model covers: letters, digits, [-] and [.], no punycode
    label, and a last label that starts with a letter (so that it is not
    read as an IPv4 address). *)
Definition plainHost (h : jsstring) : bool :=
  negb (isEmpty h)
  && forallb (fun c => isAlnum c || inSet (js "-.") c) h
  && negb (includes h (js "xn--"))
  && match lastLabel h with c :: _ => isAlpha c | [] => false end.

(** A path the model covers: units that the parser keeps as they are, and
    no segment [.] or [..]. *)
Definition plainPath (p : jsstring) : bool :=
  forallb (fun c => isAlnum c || inSet (js "-._~!$&'()*+,;=:@/") c) p
  && forallb (fun seg => negb (JS.eqb seg (js ".")) && negb (JS.eqb seg (js ".."))) (split 47 p).

(** A query the model covers: printable ASCII outside the query
    percent-encode set, decoding to ASCII. *)
Definition plainQuery (q : jsstring) : bool :=
  forallb (fun c => (33 <=? c) && (c <=? 126) && negb (inSet [34; 35; 60; 62; 39] c)) q
  && forallb (fun '(n, v) => forallb (fun c => c <? 128) (n ++ v)) (parseQuery q).

Definition parse (url : jsstring) : parsed :=
  if existsb (fun c => negb ((0 <=? c) && (c <? 128))) url then Unmodelled
  else if negb (inSet url 58) then TypeError
  else if existsb (fun c => (c <=? 32) || (c =? 127)) url then Unmodelled
  else
    let '(sch, rest) := break (Z.eqb 58) url in
    if negb (validScheme sch) then TypeError
    else
      let scheme := toLowerCase sch in
      if negb (JS.eqb scheme (js "http") || JS.eqb scheme (js "https")) then Unmodelled
      else
        match rest with
        | 58 :: 47 :: 47 :: rest1 =>
            let '(authority, rest2) := break (inSet (js "/?#\")) rest1 in
            let '(path, rest3) := break (inSet (js "?#")) rest2 in
            let '(q, rest4) :=
              match rest3 with
              | 63 :: r => let '(q, r') := break (Z.eqb 35) r in (Some q, r')
              | _ => (None, rest3)
              end in
            let f := match rest4 with 35 :: f => Some f | _ => None end in
            if plainHost (toLowerCase authority) && plainPath path
               && match q with Some q => plainQuery q | None => true end
            then Parsed {| scheme := scheme;
                           host := toLowerCase authority;
                           pathname := if isEmpty path then js "/" else path;
                           query := q;
                           fragment := f;
                           searchParams :=
                             match q with Some q => parseQuery q | None => [] end |}
            else Unmodelled
        | _ => Unmodelled
        end.

End URL.

(** ** shared/storage.ts: cache keys *)

Module Storage.

(** ToInt32: the value modulo 2^32, in [-2^31, 2^31). *)
Definition toInt32 (z : Z) : Z := (z + 2 ^ 31) mod 2 ^ 32 - 2 ^ 31.

(** One round of the loop of [hashString]:
    [hash = (hash << 5) - hash + char; hash = hash & hash]. *)
Definition hashStep (hash char : Z) : Z :=
  let hash1 := toInt32 (Z.shiftl (toInt32 hash) 5) - hash + char in
  toInt32 (Z.land (toInt32 hash1) (toInt32 hash1)).

Definition hash32 (str : jsstring) : Z := fold_left hashStep str 0.

Definition hashString (str : jsstring) : jsstring :=
  toStringRadix 36 (Z.abs (hash32 str)).

Definition trackingParameters : list jsstring :=
  [js "utm_source"; js "utm_medium"; js "utm_campaign"; js "ref"; js "context"].

(** [normalizeUrl]; [None] when the url is outside what [URL.parse]
    models. *)
Definition normalizeUrl (url : jsstring) : option jsstring :=
  match URL.parse url with
  | URL.Parsed parsed =>
      let parsed := fold_left (fun u name => URL.searchParams_delete name u)
                              trackingParameters parsed in
      let parsed := URL.set_hash [] parsed in
      Some (toLowerCase (URL.toString parsed))
  | URL.TypeError => Some (toLowerCase url)
  | URL.Unmodelled => None
  end.

Definition generateCacheKey (url tone : jsstring) : option jsstring :=
  match normalizeUrl url with
  | Some normalizedUrl => Some (hashString (normalizedUrl ++ js ":" ++ tone))
  | None => None
  end.

(** TONE_PRESETS of shared/constants.ts. *)
Definition TONE_PRESETS : list jsstring :=
  [js "friendly"; js "professional"; js "humorous"; js "concise"].

End Storage.

(** ** shared/storage.ts: the cache store *)

Record AISuggestion : Type := mkAISuggestion {
  suggestion_id : jsstring;
  suggestion_text : jsstring;
  suggestion_tone : jsstring;
  generatedAt : Z }.

Record CacheEntry : Type := mkCacheEntry {
  cacheKey : jsstring;
  threadUrl : jsstring;
  tone : jsstring;
  suggestions : list AISuggestion;
  threadSummary : jsstring;
  createdAt : Z;
  expiresAt : Z }.

Record CacheIndex : Type := mkCacheIndex {
  keys : list jsstring;
  totalSize : Z;
  lastPruned : Z }.

(** ** JSON.stringify and Blob size, for [estimateSize] *)

Module JSON.

Definition isHighSurrogate (c : Z) : bool := (55296 <=? c) && (c <=? 56319).
Definition isLowSurrogate (c : Z) : bool := (56320 <=? c) && (c <=? 57343).

Definition hex4 (c : Z) : jsstring :=
  [digitChar (c / 4096 mod 16); digitChar (c / 256 mod 16);
   digitChar (c / 16 mod 16); digitChar (c mod 16)].

(** QuoteJSONString, one code unit at a time; [paired] says that the unit
    is the second half of a surrogate pair. *)
Definition quoteUnit (paired : bool) (c : Z) (next : option Z) : jsstring :=
  if c =? 8 then js "\b"
  else if c =? 9 then js "\t"
  else if c =? 10 then js "\n"
  else if c =? 12 then js "\f"
  else if c =? 13 then js "\r"
  else if c =? 34 then [92; 34]
  else if c =? 92 then [92; 92]
  else if c <? 32 then js "\u" ++ hex4 c
  else if isHighSurrogate c
  then match next with
       | Some d => if isLowSurrogate d then [c] else js "\u" ++ hex4 c
       | None => js "\u" ++ hex4 c
       end
  else if isLowSurrogate c then (if paired then [c] else js "\u" ++ hex4 c)
  else [c].

Fixpoint quoteUnits (paired : bool) (s : jsstring) : jsstring :=
  match s with
  | [] => []
  | c :: s' =>
      quoteUnit paired c (head s')
      ++ quoteUnits (isHighSurrogate c && match s' with
                                          | d :: _ => isLowSurrogate d
                                          | [] => false
                                          end) s'
  end.

Definition quote (s : jsstring) : jsstring := [34] ++ quoteUnits false s ++ [34].

(** An integer below 10^21 in absolute value, as JSON prints it. *)
Definition number (n : Z) : jsstring := toStringRadix 10 n.

Definition member (name : string) (value : jsstring) : jsstring :=
  [34] ++ js name ++ [34] ++ js ":" ++ value.

Definition object (members : list jsstring) : jsstring :=
  js "{" ++ join (js ",") members ++ js "}".

Definition array (items : list jsstring) : jsstring :=
  js "[" ++ join (js ",") items ++ js "]".

Definition stringifySuggestion (s : AISuggestion) : jsstring :=
  object [ member "id" (quote (suggestion_id s));
           member "text" (quote (suggestion_text s));
           member "tone" (quote (suggestion_tone s));
           member "generatedAt" (number (generatedAt s)) ].

Definition stringify (e : CacheEntry) : jsstring :=
  object [ member "cacheKey" (quote (cacheKey e));
           member "threadUrl" (quote (threadUrl e));
           member "tone" (quote (tone e));
           member "suggestions" (array (List.map stringifySuggestion (suggestions e)));
           member "threadSummary" (quote (threadSummary e));
           member "createdAt" (number (createdAt e));
           member "expiresAt" (number (expiresAt e)) ].

(** The number of bytes of the UTF-8 encoding, which is [Blob.size]: a
    surrogate pair takes four bytes, two for each half. *)
Definition utf8Bytes (c : Z) : Z :=
  if c <? 128 then 1
  else if c <? 2048 then 2
  else if isHighSurrogate c || isLowSurrogate c then 2
  else 3.

Definition blobSize (s : jsstring) : Z :=
  fold_right (fun c n => utf8Bytes c + n) 0 s.

End JSON.

(** ** The cache operations

    chrome.storage.local holds the entries under ["cache_" + cacheKey] and
    the index under ["cacheIndex"]; the two families of keys are disjoint,
    so the world keeps them apart: a map from cache key to entry and an
    optional index. [now] is what [Date.now()] returns; it stands still
    during one operation (a clock that moves on leaves an expired entry
    expired).

    [getCacheEntry] and [removeCacheEntry] call each other, so every
    operation takes fuel, one unit per call of either; [OutOfFuel] stands
    for a call that has not returned after that many. *)

Module Cache.

Record World : Type := mkWorld {
  entries : gmap jsstring CacheEntry;
  cacheIndex : option CacheIndex;
  now : Z }.

Inductive outcome (A : Type) : Type :=
  | Done (a : A) (w : World)
  | Failed (message : jsstring) (w : World)
  | OutOfFuel.

Arguments Done {A} a w.
Arguments Failed {A} message w.
Arguments OutOfFuel {A}.

Definition C (A : Type) : Type := World -> outcome A.

Definition ret {A} (a : A) : C A := fun w => Done a w.

Definition throw {A} (message : jsstring) : C A := fun w => Failed message w.

Definition diverge {A} : C A := fun _ => OutOfFuel.

Definition bind {A B} (m : C A) (k : A -> C B) : C B :=
  fun w =>
    match m w with
    | Done a w' => k a w'
    | Failed message w' => Failed message w'
    | OutOfFuel => OutOfFuel
    end.

Notation "'let*' x ':=' m 'in' k" := (bind m (fun x => k))
  (at level 10, x binder, m at level 100, k at level 200).

(** [for (const x of l) await body(x)] *)
Fixpoint forEach {A} (l : list A) (body : A -> C unit) : C unit :=
  match l with
  | [] => ret tt
  | x :: rest => let* _ := body x in forEach rest body
  end.

(** The primitives: the clock and chrome.storage.local. *)
Definition Date_now : C Z := fun w => Done (now w) w.

Definition storage_get (cacheKey : jsstring) : C (option CacheEntry) :=
  fun w => Done (entries w !! cacheKey) w.

Definition storage_set (cacheKey : jsstring) (entry : CacheEntry) : C unit :=
  fun w => Done tt {| entries := <[cacheKey := entry]> (entries w);
                      cacheIndex := cacheIndex w; now := now w |}.

Definition storage_remove (cacheKey : jsstring) : C unit :=
  fun w => Done tt {| entries := delete cacheKey (entries w);
                      cacheIndex := cacheIndex w; now := now w |}.

Definition storage_getIndex : C (option CacheIndex) :=
  fun w => Done (cacheIndex w) w.

Definition estimateSize (entry : CacheEntry) : Z :=
  JSON.blobSize (JSON.stringify entry).

Definition getCacheIndex : C CacheIndex :=
  let* stored := storage_getIndex in
  match stored with
  | Some index => ret index
  | None =>
      let* t := Date_now in
      ret {| keys := []; totalSize := 0; lastPruned := t |}
  end.

Definition saveCacheIndex (index : CacheIndex) : C unit :=
  fun w => Done tt {| entries := entries w; cacheIndex := Some index; now := now w |}.

Fixpoint getCacheEntry (fuel : nat) (cacheKey : jsstring) : C (option CacheEntry) :=
  match fuel with
  | O => diverge
  | S fuel' =>
      let* stored := storage_get cacheKey in
      match stored with
      | None => ret None
      | Some entry =>
          let* t := Date_now in
          if expiresAt entry <? t
          then let* _ := removeCacheEntry fuel' cacheKey in ret None
          else ret (Some entry)
      end
  end
with removeCacheEntry (fuel : nat) (cacheKey : jsstring) : C unit :=
  match fuel with
  | O => diverge
  | S fuel' =>
      let* entry := getCacheEntry fuel' cacheKey in
      let entrySize := match entry with Some e => estimateSize e | None => 0 end in
      let* _ := storage_remove cacheKey in
      let* index := getCacheIndex in
      saveCacheIndex
        {| keys := List.filter (fun k => negb (JS.eqb k cacheKey)) (keys index);
           totalSize := Z.max 0 (totalSize index - entrySize);
           lastPruned := lastPruned index |}
  end.

(** The rows that [pruneCache] sorts. *)
Record PruneRow : Type := mkPruneRow {
  row_key : jsstring;
  row_createdAt : Z;
  row_size : Z }.

(** [entries.sort((a, b) => a.createdAt - b.createdAt)]: Array.prototype.sort
    is stable, as is insertion before the first row that is not older. *)
Fixpoint insertRow (x : PruneRow) (l : list PruneRow) : list PruneRow :=
  match l with
  | [] => [x]
  | y :: l' =>
      if row_createdAt x <=? row_createdAt y then x :: y :: l'
      else y :: insertRow x l'
  end.

Definition sortRows (l : list PruneRow) : list PruneRow :=
  fold_right insertRow [] l.

(** The rows of the keys of the index that the store holds. *)
Definition collectRows (ks : list jsstring) (w : World) : list PruneRow :=
  omap (fun cacheKey =>
          match entries w !! cacheKey with
          | Some entry => Some {| row_key := cacheKey;
                                  row_createdAt := createdAt entry;
                                  row_size := estimateSize entry |}
          | None => None
          end) ks.

(** [Math.ceil(entries.length * CACHE_CONFIG.PRUNE_PERCENTAGE)] *)
Definition removeCount (n : Z) : Z :=
  Binary64.ceil (Binary64.mul_int n Binary64.c0_2).

(** [Array.prototype.slice(0, stop)] *)
Definition sliceTo {A} (l : list A) (stop : Z) : list A :=
  take (Z.to_nat (clampIndex (Z.of_nat (length l)) stop)) l.

Definition pruneCache (fuel : nat) (index : option CacheIndex) : C unit :=
  let* currentIndex :=
    match index with
    | Some i => ret i
    | None => getCacheIndex
    end in
  let* rows := (fun w => Done (collectRows (keys currentIndex) w) w) in
  let sorted := sortRows rows in
  let toRemove := sliceTo sorted (removeCount (Z.of_nat (length sorted))) in
  let* _ := forEach toRemove (fun row => removeCacheEntry fuel (row_key row)) in
  let* newIndex := getCacheIndex in
  let* t := Date_now in
  saveCacheIndex {| keys := keys newIndex; totalSize := totalSize newIndex;
                    lastPruned := t |}.

Definition saveCacheEntry (fuel : nat) (entry : CacheEntry) : C unit :=
  let entrySize := estimateSize entry in
  if CACHE_CONFIG.MAX_ENTRY_SIZE_BYTES <? entrySize
  then throw (js "Cache entry exceeds maximum size of 102400 bytes")
  else
    let* index := getCacheIndex in
    let keys1 :=
      if existsb (JS.eqb (cacheKey entry)) (keys index) then keys index
      else keys index ++ [cacheKey entry] in
    let index1 := {| keys := keys1;
                     totalSize := totalSize index + entrySize;
                     lastPruned := lastPruned index |} in
    let* _ :=
      if CACHE_CONFIG.MAX_STORAGE_BYTES <? totalSize index1
      then pruneCache fuel (Some index1)
      else ret tt in
    let* _ := storage_set (cacheKey entry) entry in
    saveCacheIndex index1.

End Cache.
(** ** The adapters side by side, and the words of the properties *)

Inductive AdapterKind : Type := Reddit | Twitter | Facebook.

Section Dispatch.

Variable generateCommentId : nat -> jsstring.
Variable extractPostTitle extractPostBody : Document -> jsstring.
Variable isEmoji isMetadataText : jsstring -> bool.

(** [extractThreadContext] of the adapter of the given platform. *)
Definition extractThreadContextOf (k : AdapterKind) (d : Document)
  : option ThreadContext :=
  match k with
  | Reddit =>
      RedditAdapter.extractThreadContext generateCommentId extractPostTitle
        extractPostBody d
  | Twitter => TwitterAdapter.extractThreadContext generateCommentId d
  | Facebook =>
      FacebookAdapter.extractThreadContext generateCommentId isEmoji
        isMetadataText d
  end.

End Dispatch.

(** [stored] is [raw] capped at [cap] the hard way: kept when it fits, else
    its first [cap - 3] units and three dots. *)
Definition hardCut (cap : Z) (raw stored : jsstring) : Prop :=
  len stored <= cap
  /\ (len raw <= cap -> stored = raw)
  /\ (cap < len raw -> stored = take (Z.to_nat (cap - 3)) raw ++ js "...").

(** The truncation policy in the words of the specification: the text up to
    and including the last full stop or line feed among the first
    [maxLength] units, when that boundary lies past 70% of [maxLength]. *)
Definition boundaryCut (text : jsstring) (maxLength : Z) : option jsstring :=
  let truncated := slice text 0 maxLength in
  let cutPoint := Z.max (lastIndexOf truncated 46) (lastIndexOf truncated 10) in
  if 7 * maxLength <? 10 * cutPoint
  then Some (slice truncated 0 (cutPoint + 1))
  else None.

(** A truncation prefers the boundary when, for every text over the cap
    that has such a boundary, its result begins with the text up to that
    boundary. *)
Definition prefersBoundary (truncate : jsstring -> Z -> jsstring) : Prop :=
  forall text maxLength kept,
    maxLength < len text ->
    boundaryCut text maxLength = Some kept ->
    startsWith (truncate text maxLength) kept = true.

(** A comment with some text and some author. *)
Definition filled (c : Comment) : Prop := text c <> [] /\ author c <> [].

(** The placeholders that the specification lists for a missing author. *)
Definition listedPlaceholder (a : jsstring) : bool :=
  JS.eqb a (js "[deleted]") || JS.eqb a (js "Anonymous")
  || JS.eqb a (js "Facebook User") || startsWith a (js "@").

(** ** A small page, for the examples *)

Module Example.

Definition ids (i : nat) : jsstring := js "comment_" ++ toStringRadix 10 (Z.of_nat i).

Definition noAttribute : jsstring -> option jsstring := fun _ => None.

(** An element that holds text and nothing else. *)
Definition textElement (content : jsstring) : Element :=
  mkElement noAttribute content [content] (fun _ => []).

(** A link. *)
Definition anchor (href content : jsstring) : Element :=
  mkElement (fun name => if JS.eqb name (js "href") then Some href else None)
            content [content] (fun _ => []).

(** A tweet article: its permalink, its text and, when [user] is given,
    the link of its author. *)
Definition tweet (permalink content : jsstring) (user : option jsstring) : Element :=
  mkElement noAttribute content [content]
    (fun selector =>
       if JS.eqb selector TwitterAdapter.sel_timeLink then [anchor permalink []]
       else if JS.eqb selector TwitterAdapter.sel_tweetText then [textElement content]
       else if JS.eqb selector TwitterAdapter.sel_userName
       then match user with
            | Some u => [anchor (js "/" ++ u) u]
            | None => []
            end
       else []).

(** The page of a tweet with two replies, the second without author
    link. *)
Definition tweetPage : Document :=
  {| docQuerySelectorAll :=
       fun selector =>
         if JS.eqb selector TwitterAdapter.sel_tweet
         then [ tweet (js "/alice/status/123456789") (js "Main tweet") (Some (js "alice"));
                tweet (js "/bob/status/123456790") (js "A reply") (Some (js "bob"));
                tweet (js "/i/status/123456791") (js "Another reply") None ]
         else [];
     docTitle := js "Main tweet / X";
     location_href := js "https://x.com/alice/status/123456789";
     location_pathname := js "/alice/status/123456789";
     Date_now := 1700000000000 |}.

End Example.

(** A comment whose text is capped at 2000 units. *)
Definition capped (c : Comment) : Prop := exists raw, hardCut 2000 raw (text c).

(** A title of 502 units whose last full stop is at index 498. *)
Definition longTitle : jsstring := repeat 97 498 ++ js "." ++ js "bbb".

(** A context with a title and nothing else, as the Reddit adapter builds
    it for a post without body and comments. *)
Definition titledContext (platform url : jsstring) : ThreadContext :=
  {| platform := platform; url := url; postTitle := js "Test Post";
     postBody := []; postAuthor := None; comments := [];
     extractedAt := 1700000000000 |}.

(** A page that is one text box: an adapter that reads it, and writes it
    unless the text is "boom", in which case it leaves the box garbled and
    throws. *)
Definition boxAdapter : @TextInserter.PlatformAdapter jsstring unit jsstring :=
  {| TextInserter.getInputText := fun _ box => (Returns box, box);
     TextInserter.setInputText :=
       fun _ text _ box =>
         if JS.eqb text (js "boom")
         then (Throws (js "editor rejected the text"), js "bo")
         else (Returns tt, text) |}.

Definition boxFallback : unit -> jsstring -> @TextInserter.M jsstring jsstring unit :=
  fun _ text _ => (Returns tt, text).

(** The addresses of the cache key tests (tests/unit/cache-service.test.ts). *)
Definition testedUrls : list jsstring :=
  [ js "https://reddit.com/r/test/comments/123";
    js "https://reddit.com/r/test/comments/456";
    js "https://reddit.com/r/test" ].

(** The index as [getCacheIndex] reads it: the stored one, or an empty one
    stamped with the present time. *)
Definition currentIndex (w : Cache.World) : CacheIndex :=
  match Cache.cacheIndex w with
  | Some index => index
  | None => {| keys := []; totalSize := 0; lastPruned := Cache.now w |}
  end.

(** An entry of the store that has not expired. *)
Definition live (w : Cache.World) (cacheKey : jsstring) : Prop :=
  exists entry, Cache.entries w !! cacheKey = Some entry
                /\ Cache.now w <= expiresAt entry.

(** [createdAt] of the stored entry, when there is one. *)
Definition createdAtOf (w : Cache.World) (cacheKey : jsstring) : option Z :=
  createdAt <$> Cache.entries w !! cacheKey.

(** The index agrees with the store: it lists every stored key once and
    nothing else. *)
Definition consistent (w : Cache.World) : Prop :=
  NoDup (keys (currentIndex w))
  /\ forall k, In k (keys (currentIndex w)) <-> is_Some (Cache.entries w !! k).

(** The world that a call leaves behind when it returns. *)
Definition worldAfter {A} (o : Cache.outcome A) : option Cache.World :=
  match o with
  | Cache.Done _ w => Some w
  | _ => None
  end.

Module CacheExample.

Definition summary (n : nat) : jsstring := js "A thread about tests, " ++ repeat 46 n.

(** An analysis of the test thread, stored under [key]. *)
Definition entryAt (key : string) (n : nat) (created expires : Z) : CacheEntry :=
  {| cacheKey := js key;
     threadUrl := js "https://reddit.com/r/test/comments/123";
     tone := js "friendly";
     suggestions :=
       [ {| suggestion_id := js "s1"; suggestion_text := js "Thanks for sharing!";
            suggestion_tone := js "friendly"; generatedAt := created |} ];
     threadSummary := summary n;
     createdAt := created;
     expiresAt := expires |}.

Definition storeOf (l : list CacheEntry) : gmap jsstring CacheEntry :=
  list_to_map (List.map (fun e => (cacheKey e, e)) l).

Definition worldOf (l : list CacheEntry) (total t : Z) : Cache.World :=
  {| Cache.entries := storeOf l;
     Cache.cacheIndex := Some {| keys := List.map cacheKey l; totalSize := total;
                                 lastPruned := 1699990000000 |};
     Cache.now := t |}.

(** An entry that expired one millisecond ago. *)
Definition staleEntry : CacheEntry := entryAt "k53twj" 0 1699913600000 1699999999999.

Definition staleWorld : Cache.World :=
  worldOf [staleEntry] (Cache.estimateSize staleEntry) 1700000000000.

(** A fresh entry and a second analysis for the same key. *)
Definition firstEntry : CacheEntry := entryAt "k53twj" 0 1700000000000 1700086400000.
Definition secondEntry : CacheEntry := entryAt "k53twj" 7 1700000005000 1700086405000.

Definition freshWorld : Cache.World :=
  worldOf [firstEntry] (Cache.estimateSize firstEntry) 1700000005000.

(** Five entries created one second apart, the total at the budget. *)
Definition five : list CacheEntry :=
  [ entryAt "k3" 0 1700000003000 1700086403000;
    entryAt "k1" 0 1700000001000 1700086401000;
    entryAt "k5" 0 1700000005000 1700086405000;
    entryAt "k2" 0 1700000002000 1700086402000;
    entryAt "k4" 0 1700000004000 1700086404000 ].

Definition fullWorld : Cache.World :=
  worldOf five CACHE_CONFIG.MAX_STORAGE_BYTES 1700000010000.

Definition sixthEntry : CacheEntry := entryAt "k6" 0 1700000010000 1700086410000.

End CacheExample.

(** One row is no younger than another. *)
Definition older (a b : Cache.PruneRow) : Prop :=
  Cache.row_createdAt a <= Cache.row_createdAt b.

(** [k] is one of [ks], as a boolean. *)
Definition among (ks : list jsstring) (k : jsstring) : bool := existsb (JS.eqb k) ks.

(** What eviction is to achieve on a store [w] whose index lists [N] keys:
    [removed] holds the ceiling of [N / 5] of them, which is what
    [Math.ceil(N * 0.2)] computes; these and no others have left the store
    and the index, [N] less that many remain, and no removed entry was
    created after an entry that remains. *)
Definition evictsOldestFifth (w : Cache.World) (removed : list jsstring)
    (w' : Cache.World) : Prop :=
  let N := Z.of_nat (length (keys (currentIndex w))) in
  (N <= 5 * Z.of_nat (length removed) < N + 5)
  /\ Z.of_nat (length removed) = Cache.removeCount N
  /\ NoDup removed
  /\ (forall k, In k removed -> In k (keys (currentIndex w)))
  /\ (forall k, Cache.entries w' !! k
                = if among removed k then None else Cache.entries w !! k)
  /\ keys (currentIndex w')
     = List.filter (fun k => negb (among removed k)) (keys (currentIndex w))
  /\ Z.of_nat (length (keys (currentIndex w'))) = N - Z.of_nat (length removed)
  /\ (forall r k, In r removed -> In k (keys (currentIndex w')) ->
        exists cr ck, createdAtOf w r = Some cr /\ createdAtOf w k = Some ck
                      /\ cr <= ck).

(** ** The texts of a page before the cap *)

(** The text of a [shreddit-comment] element as [extractShredditComment]
    looks it up: the comment slot, else the attributes [comment-body] and
    [content], else the paragraphs, joined by line feeds. *)
Definition shredditCommentText (element : Element) : jsstring :=
  let text0 :=
    match querySelector element (attrSel "" "slot" "=" "comment" "") with
    | Some commentSlot => BasePlatformAdapter.getTextContent (Some commentSlot)
    | None => []
    end in
  let text1 :=
    if isEmpty text0
    then orElse
           (orElseNull (getAttribute element (js "comment-body"))
                       (orElseNull (getAttribute element (js "content")) []))
           text0
    else text0 in
  if isEmpty text1
  then match querySelectorAll element (js "p") with
       | [] => text1
       | paragraphs =>
           join [10]
                (List.map (fun p => BasePlatformAdapter.getTextContent (Some p)) paragraphs)
       end
  else text1.

Section RawTexts.

Variable extractPostTitle extractPostBody : Document -> jsstring.
Variable isEmoji isMetadataText : jsstring -> bool.

(** The title that the adapter of the platform finds on the page; Twitter
    and Facebook have none. *)
Definition rawTitle (k : AdapterKind) (d : Document) : jsstring :=
  match k with
  | Reddit => extractPostTitle d
  | Twitter => []
  | Facebook => []
  end.

(** The body that it finds. *)
Definition rawBody (k : AdapterKind) (d : Document) : jsstring :=
  match k with
  | Reddit => extractPostBody d
  | Twitter => fst (TwitterAdapter.extractMainTweet d)
  | Facebook => FacebookAdapter.extractPostBody isEmoji isMetadataText d
  end.

(** The texts of the candidate comment elements of the page, one for each
    element, in document order. *)
Definition rawCommentTexts (k : AdapterKind) (d : Document) : list jsstring :=
  match k with
  | Reddit =>
      match docQuerySelectorAll d (js "shreddit-comment") with
      | [] =>
          List.map
            (fun element =>
               BasePlatformAdapter.getTextContent
                 (BasePlatformAdapter.queryFirstWithin element RedditAdapter.commentText))
            (BasePlatformAdapter.queryAll d RedditAdapter.commentContainer)
      | shredditComments => List.map shredditCommentText shredditComments
      end
  | Twitter =>
      List.map
        (fun tweet =>
           BasePlatformAdapter.getTextContent
             (querySelector tweet TwitterAdapter.sel_tweetText))
        (docQuerySelectorAll d TwitterAdapter.sel_tweet)
  | Facebook =>
      List.map
        (fun container =>
           FacebookAdapter.longestText isEmoji
             (querySelectorAll container
                (attrSel "div" "dir" "=" "auto" " span, .UFICommentBody")))
        (FacebookAdapter.findCommentContainers d)
  end.

End RawTexts.

(** A comment of 2003 units, and a page of new Reddit with that comment
    and a short one. *)
Definition longComment : jsstring := repeat 98 2003.

Definition longCommentPage : Document :=
  {| docQuerySelectorAll :=
       fun selector =>
         if JS.eqb selector (js "shreddit-comment")
         then [ mkElement
                  (fun name => if JS.eqb name (js "comment-body") then Some longComment
                               else None)
                  [] [] (fun _ => []);
                mkElement
                  (fun name => if JS.eqb name (js "comment-body")
                               then Some (js "A short comment") else None)
                  [] [] (fun _ => []) ]
         else [];
     docTitle := js "Test Post : r/test";
     location_href := js "https://www.reddit.com/r/test/comments/abc123/test_post";
     location_pathname := js "/r/test/comments/abc123/test_post";
     Date_now := 1700000000000 |}.

(** ** shared/storage.ts: clearing the cache and its statistics *)

Module CacheAdmin.

Import Cache.

(** [chrome.storage.local.remove(keys)] for the storage keys of the given
    cache keys, and for the key of the index when [withIndex] holds. *)
Definition storage_removeAll (cacheKeys : list jsstring) (withIndex : bool) : C unit :=
  fun w => Done tt {| entries := fold_right delete (entries w) cacheKeys;
                      cacheIndex := if withIndex then None else cacheIndex w;
                      now := now w |}.

Definition clearCache : C unit :=
  let* index := getCacheIndex in
  storage_removeAll (keys index) true.

(** The first loop of [clearCacheForUrl]: the keys of the index whose
    entry, read through [getCacheEntry], is for [url]. *)
Fixpoint keysForUrl (fuel : nat) (url : jsstring) (cacheKeys : list jsstring)
  : C (list jsstring) :=
  match cacheKeys with
  | [] => ret []
  | cacheKey :: rest =>
      let* entry := getCacheEntry fuel cacheKey in
      let* more := keysForUrl fuel url rest in
      ret (match entry with
           | Some e => if JS.eqb (threadUrl e) url then cacheKey :: more else more
           | None => more
           end)
  end.

Definition clearCacheForUrl (fuel : nat) (url : jsstring) : C unit :=
  let* index := getCacheIndex in
  let* keysToRemove := keysForUrl fuel url (keys index) in
  forEach keysToRemove (removeCacheEntry fuel).

Record CacheStats : Type := mkCacheStats {
  entryCount : Z;
  totalSizeBytes : Z;
  oldestEntryAge : Z }.

(** The loop of [getCacheStats] over the keys that remain, with its
    variable [oldestCreatedAt]. *)
Fixpoint oldestLoop (fuel : nat) (cacheKeys : list jsstring) (oldestCreatedAt : Z)
  : C Z :=
  match cacheKeys with
  | [] => ret oldestCreatedAt
  | cacheKey :: rest =>
      let* entry := getCacheEntry fuel cacheKey in
      oldestLoop fuel rest
        (match entry with
         | Some e => if createdAt e <? oldestCreatedAt then createdAt e
                     else oldestCreatedAt
         | None => oldestCreatedAt
         end)
  end.

Definition getCacheStats (fuel : nat) : C CacheStats :=
  let* index := getCacheIndex in
  let* t0 := Date_now in
  let* oldestCreatedAt := oldestLoop fuel (keys index) t0 in
  let* t1 := Date_now in
  ret {| entryCount := Z.of_nat (length (keys index));
         totalSizeBytes := totalSize index;
         oldestEntryAge :=
           if 0 <? Z.of_nat (length (keys index)) then t1 - oldestCreatedAt else 0 |}.

End CacheAdmin.

(** ** background/cache-service.ts *)

Module CacheService.

Import Cache.

Definition DEFAULT_TTL_HOURS : Z := 24.
Definition PRUNE_INTERVAL_MINUTES : Z := 60.

(** [getCachedAnalysis]; [None] when the url is outside what [URL.parse]
    models, as for [generateCacheKey]. *)
Definition getCachedAnalysis (fuel : nat) (url tone : jsstring)
  : option (C (option CacheEntry)) :=
  match Storage.generateCacheKey url tone with
  | Some cacheKey => Some (getCacheEntry fuel cacheKey)
  | None => None
  end.

Definition cacheAnalysis (fuel : nat) (url tone : jsstring)
    (suggestions : list AISuggestion) (threadSummary : jsstring) (ttlHours : Z)
  : option (C unit) :=
  match Storage.generateCacheKey url tone with
  | Some cacheKey =>
      Some (let* t := Date_now in
            saveCacheEntry fuel
              {| cacheKey := cacheKey;
                 threadUrl := url;
                 tone := tone;
                 suggestions := suggestions;
                 threadSummary := threadSummary;
                 createdAt := t;
                 expiresAt := t + ttlHours * 60 * 60 * 1000 |})
  | None => None
  end.

(** [pruneExpiredEntries]: it reads every entry of the index through
    [getCacheEntry] and then stamps the index. *)
Definition pruneExpiredEntries (fuel : nat) : C unit :=
  let* index := getCacheIndex in
  let* t := Date_now in
  let* _ := forEach (keys index)
              (fun cacheKey => let* _ := getCacheEntry fuel cacheKey in ret tt) in
  let* updatedIndex := getCacheIndex in
  saveCacheIndex {| keys := keys updatedIndex;
                    totalSize := totalSize updatedIndex;
                    lastPruned := t |}.

Definition checkAndPruneCache (fuel : nat) : C unit :=
  let* index := getCacheIndex in
  if CACHE_CONFIG.MAX_STORAGE_BYTES <? totalSize index
  then pruneCache fuel (Some index)
  else
    let* t := Date_now in
    let timeSinceLastPrune := t - lastPruned index in
    let pruneIntervalMs := PRUNE_INTERVAL_MINUTES * 60 * 1000 in
    if pruneIntervalMs <? timeSinceLastPrune
    then pruneExpiredEntries fuel
    else ret tt.

End CacheService.

(** The same world at another time. *)
Definition atTime (t : Z) (w : Cache.World) : Cache.World :=
  {| Cache.entries := Cache.entries w; Cache.cacheIndex := Cache.cacheIndex w;
     Cache.now := t |}.

(** The size that [removeCacheEntry] takes off the total for a key. *)
Definition storedSize (w : Cache.World) (cacheKey : jsstring) : Z :=
  match Cache.entries w !! cacheKey with
  | Some e => Cache.estimateSize e
  | None => 0
  end.

(** An entry over the size cap: a summary of 102400 full stops. *)
Definition oversizedEntry : CacheEntry :=
  {| cacheKey := js "k53twj";
     threadUrl := js "https://reddit.com/r/test/comments/123";
     tone := js "friendly";
     suggestions := [];
     threadSummary := repeat 46 (Z.to_nat 102400);
     createdAt := 1700000000000;
     expiresAt := 1700086400000 |}.

(** The stored entry of a key is for [url]. *)
Definition storedFor (w : Cache.World) (url : jsstring) (cacheKey : jsstring) : bool :=
  match Cache.entries w !! cacheKey with
  | Some e => JS.eqb (threadUrl e) url
  | None => false
  end.

(** No entry that the index lists has expired. *)
Definition noneExpired (w : Cache.World) : Prop :=
  forall k e, In k (keys (currentIndex w)) -> Cache.entries w !! k = Some e ->
              Cache.now w <= expiresAt e.

(** A row for a key, to run the removal loop of [pruneCache] on keys. *)
Definition rowOf (cacheKey : jsstring) : Cache.PruneRow :=
  {| Cache.row_key := cacheKey; Cache.row_createdAt := 0; Cache.row_size := 0 |}.

(** The entry that [cacheAnalysis] builds at time [t]. *)
Definition analysisEntry (cacheKey url tone : jsstring) (suggestions : list AISuggestion)
    (threadSummary : jsstring) (t ttlHours : Z) : CacheEntry :=
  {| cacheKey := cacheKey; threadUrl := url; tone := tone;
     suggestions := suggestions; threadSummary := threadSummary;
     createdAt := t; expiresAt := t + ttlHours * 60 * 60 * 1000 |}.

(** The world with [lastPruned] of its index set to the clock. *)
Definition stamped (w : Cache.World) : Cache.World :=
  {| Cache.entries := Cache.entries w;
     Cache.cacheIndex := Some {| keys := keys (currentIndex w);
                                 totalSize := totalSize (currentIndex w);
                                 lastPruned := Cache.now w |};
     Cache.now := Cache.now w |}.

(** Two analyses of different threads. *)
Definition otherThread : CacheEntry :=
  {| cacheKey := js "k7";
     threadUrl := js "https://x.com/user/status/1";
     tone := js "friendly";
     suggestions := [];
     threadSummary := js "A tweet";
     createdAt := 1700000002000;
     expiresAt := 1700086402000 |}.

Definition twoThreads : Cache.World :=
  CacheExample.worldOf [CacheExample.firstEntry; otherThread]
    (Cache.estimateSize CacheExample.firstEntry + Cache.estimateSize otherThread)
    1700000005000.

(** ** platform-adapters/reddit-adapter.ts: the comment loop, with its test
    on the length

    [extractComments] of the Reddit adapter once more, written with the
    test [shredditComments.length > 0] of the source instead of a match on
    the list, and [extractThreadContext] with these comments. They are
    equal to [RedditAdapter.extractComments] and
    [RedditAdapter.extractThreadContext] on every page
    ([extractComments_agree], [extractThreadContext_agree]). *)

Module RedditComments.

Section WithDom.

Variable generateCommentId : nat -> jsstring.
Variable extractPostTitle : Document -> jsstring.
Variable extractPostBody : Document -> jsstring.

Definition extractComments (d : Document) : list Comment :=
  let shredditComments := docQuerySelectorAll d (js "shreddit-comment") in
  if 0 <? Z.of_nat (length shredditComments)
  then omap (fun pushed => pushed)
         (imap (RedditAdapter.extractShredditComment generateCommentId)
            (take (Z.to_nat EXTRACTION_CONFIG.MAX_COMMENTS) shredditComments))
  else omap (fun pushed => pushed)
         (imap (fun i element =>
                  RedditAdapter.extractSingleComment generateCommentId i element 0)
            (take (Z.to_nat EXTRACTION_CONFIG.MAX_COMMENTS)
                  (BasePlatformAdapter.queryAll d RedditAdapter.commentContainer))).

Definition extractThreadContext (d : Document) : option ThreadContext :=
  let postTitle := extractPostTitle d in
  let postBody := extractPostBody d in
  let comments := extractComments d in
  if isEmpty postTitle then None
  else Some {| platform := js "reddit";
               url := location_href d;
               postTitle := BasePlatformAdapter.truncateText postTitle
                              EXTRACTION_CONFIG.MAX_POST_TITLE_LENGTH;
               postBody := BasePlatformAdapter.truncateText postBody
                             EXTRACTION_CONFIG.MAX_POST_BODY_LENGTH;
               postAuthor := None;
               comments := comments;
               extractedAt := Date_now d |}.

End WithDom.

End RedditComments.

(** ** platform-adapters/adapter-factory.ts *)

Module AdapterFactory.

(** What the factory and the thread extractor use of an adapter. *)
Record PlatformAdapter : Type := mkPlatformAdapter {
  platform : jsstring;
  canHandle : jsstring -> bool;
  extractThreadContext : Document -> option ThreadContext }.

(** [getAdapter]: the first registered adapter that can handle the url. *)
Definition getAdapter (adapters : list PlatformAdapter) (url : jsstring)
  : option PlatformAdapter :=
  List.find (fun adapter => canHandle adapter url) adapters.

(** [registerAdapter]: pushed unless an adapter of that platform is there. *)
Definition registerAdapter (adapters : list PlatformAdapter) (adapter : PlatformAdapter)
  : list PlatformAdapter :=
  match List.find (fun a => JS.eqb (platform a) (platform adapter)) adapters with
  | Some _existing => adapters
  | None => adapters ++ [adapter]
  end.

Section WithDom.

Variable generateCommentId : nat -> jsstring.
Variable extractPostTitle extractPostBody : Document -> jsstring.
Variable isEmoji isMetadataText : jsstring -> bool.

Definition redditAdapter : PlatformAdapter :=
  {| platform := js "reddit";
     canHandle := RedditAdapter.canHandle;
     extractThreadContext :=
       RedditComments.extractThreadContext generateCommentId extractPostTitle
         extractPostBody |}.

Definition twitterAdapter : PlatformAdapter :=
  {| platform := js "twitter";
     canHandle := TwitterAdapter.canHandle;
     extractThreadContext := TwitterAdapter.extractThreadContext generateCommentId |}.

Definition facebookAdapter : PlatformAdapter :=
  {| platform := js "facebook";
     canHandle := FacebookAdapter.canHandle;
     extractThreadContext :=
       FacebookAdapter.extractThreadContext generateCommentId isEmoji isMetadataText |}.

(** The singleton: what the constructor leaves in [this.adapters]. *)
Definition adapterFactory : list PlatformAdapter :=
  registerAdapter (registerAdapter (registerAdapter [] redditAdapter) twitterAdapter)
    facebookAdapter.

Definition getCurrentAdapter (d : Document) : option PlatformAdapter :=
  getAdapter adapterFactory (location_href d).

Definition isPageSupported (d : Document) : bool :=
  match getCurrentAdapter d with
  | Some _ => true
  | None => false
  end.

Definition getCurrentPlatform (d : Document) : option jsstring :=
  match getCurrentAdapter d with
  | Some adapter => Some (platform adapter)
  | None => None
  end.

(** [extractThreadContext] of content/thread-extractor.ts: the adapter of
    the page, then [extractWithAdapter]. *)
Definition extractPageThreadContext (d : Document) : option ThreadContext :=
  match getCurrentAdapter d with
  | None => None
  | Some adapter =>
      ThreadExtractor.extractWithAdapter (E := unit)
        (Returns (extractThreadContext adapter d))
  end.

End WithDom.

End AdapterFactory.

(** ** What a pattern demands of the start of a url

    The literal starts of the strings of a pattern: each with a flag that
    tells whether the literal is a whole string of the pattern or only the
    start of one. *)

Fixpoint heads (r : RegExp.regex) : list (jsstring * bool) :=
  match r with
  | RegExp.Void => []
  | RegExp.Eps => [([], true)]
  | RegExp.Chr c => [([c], true)]
  | RegExp.NotChr _ => [([], false)]
  | RegExp.Seq r1 r2 =>
      flat_map (fun h1 : jsstring * bool =>
                  if snd h1
                  then List.map (fun h2 : jsstring * bool => (fst h1 ++ fst h2, snd h2)) (heads r2)
                  else [(fst h1, false)])
               (heads r1)
  | RegExp.Alt r1 r2 => heads r1 ++ heads r2
  | RegExp.Plus r1 => List.map (fun h : jsstring * bool => (fst h, false)) (heads r1)
  end.

Definition prefixesOf (patterns : list RegExp.regex) : list jsstring :=
  flat_map (fun r => List.map fst (heads r)) patterns.

(** Some string starts with a prefix of the one list and with a prefix of
    the other only if one of the two prefixes starts with the other. *)
Definition clash (ps qs : list jsstring) : bool :=
  existsb (fun p => existsb (fun q => startsWith p q || startsWith q p) qs) ps.

(** An adapter for reddit that would take every page. *)
Definition greedyReddit : AdapterFactory.PlatformAdapter :=
  {| AdapterFactory.platform := js "reddit";
     AdapterFactory.canHandle := fun _ => true;
     AdapterFactory.extractThreadContext := fun _ => None |}.

(** A page of new Reddit with the given [shreddit-comment] elements. *)
Definition shredditPage (elements : list Element) : Document :=
  {| docQuerySelectorAll :=
       fun selector => if JS.eqb selector (js "shreddit-comment") then elements else [];
     docTitle := js "Test Post : r/test";
     location_href := js "https://www.reddit.com/r/test/comments/abc123/test_post";
     location_pathname := js "/r/test/comments/abc123/test_post";
     Date_now := 1700000000000 |}.

(** A [shreddit-comment] element with its attributes and the text of its
    comment slot. *)
Definition shredditComment (thingid author depth : string) (content : string) : Element :=
  mkElement
    (fun name =>
       if JS.eqb name (js "thingid") then Some (js thingid)
       else if JS.eqb name (js "author") then Some (js author)
       else if JS.eqb name (js "depth") then Some (js depth)
       else None)
    (js content) [js content]
    (fun selector =>
       if JS.eqb selector (attrSel "" "slot" "=" "comment" "")
       then [Example.textElement (js content)]
       else []).

Definition twoComments : Document :=
  shredditPage [ shredditComment "t1_a" "alice" "0" "First comment";
                 shredditComment "t1_b" "bob" "1" "A reply to it" ].

(** Nothing but white space, the empty string included. *)
Definition blank (s : jsstring) : bool := forallb isWhiteSpace s.

(** A text box whose adapter cannot write: its writes leave the box
    empty. The fallback writes the text itself. *)
Definition deafAdapter : @TextInserter.PlatformAdapter jsstring unit jsstring :=
  {| TextInserter.getInputText := fun _ box => (Returns box, box);
     TextInserter.setInputText := fun _ _ _ _ => (Returns tt, []) |}.

(** ** shared/prompts/analyze-thread.ts: formatThreadContent *)

Module AnalyzeThread.

(** AI_CONFIG.MAX_CONTEXT_CHARS of shared/constants.ts. *)
Definition MAX_CONTEXT_CHARS : Z := 15000.

(** The RangeErrors of [String.prototype.repeat]: "Invalid count value"
    for a negative count, "Invalid string length" for a result longer than
    the engine allows. *)
Inductive RangeError : Type :=
  | InvalidCountValue (count : Z)
  | InvalidStringLength.

(** [Array.prototype.map] with a callback that may throw: the first
    exception ends the loop. *)
Fixpoint mapResult {E A B : Type} (f : A -> result E B) (l : list A)
  : result E (list B) :=
  match l with
  | [] => Returns []
  | x :: rest =>
      match f x with
      | Throws e => Throws e
      | Returns y =>
          match mapResult f rest with
          | Throws e => Throws e
          | Returns ys => Returns (y :: ys)
          end
      end
  end.

Section WithEngine.

(** The greatest length of a string in the engine that runs the code
    (2^29 - 24 in V8 on 64 bits, 2^30 - 2 in SpiderMonkey). [repeat] is the
    one place of the prompt builder where a string is made from a number,
    so the one place where this length is checked; a string put together
    from strings of the context is taken to fit, as everywhere else. *)
Variable maxStringLength : Z.

(** [s.repeat(count)]: NaN counts as 0, a negative count throws, and so
    does a count whose result would be longer than the engine allows. (An
    infinite count throws as well; it is no value of [number], whose
    values are NaN and the integers, as [parseInt] gives them.) *)
Definition repeatString (s : jsstring) (count : number) : result RangeError jsstring :=
  match count with
  | NaN => Returns []
  | Int z =>
      if z <? 0 then Throws (InvalidCountValue z)
      else if maxStringLength <? z * len s then Throws InvalidStringLength
      else Returns (concat (repeat s (Z.to_nat z)))
  end.

(** The callback of [map] in [formatThreadContent]. *)
Definition formatComment (comment : Comment) : result RangeError jsstring :=
  match repeatString (js "  ") (depth comment) with
  | Throws e => Throws e
  | Returns indent =>
      Returns (indent ++ js "**" ++ author comment ++ js "**: "
               ++ truncateForPrompt (text comment) 500)
  end.

Definition formatThreadContent (context : ThreadContext) : result RangeError jsstring :=
  let parts0 : list jsstring := [] in
  let parts1 :=
    if isEmpty (postTitle context) then parts0
    else parts0 ++ [js "### Post Title" ++ [10]
                    ++ truncateForPrompt (postTitle context) 500] in
  let parts2 :=
    if isEmpty (postBody context) then parts1
    else parts1 ++ [js "### Post Content" ++ [10]
                    ++ truncateForPrompt (postBody context) 3000] in
  let parts3 :=
    if 0 <? Z.of_nat (length (comments context))
    then match mapResult formatComment (Cache.sliceTo (comments context) 20) with
         | Throws e => Throws e
         | Returns texts =>
             Returns (parts2
                      ++ [js "### Comments ("
                          ++ toStringRadix 10 (Z.of_nat (length (comments context)))
                          ++ js " total)" ++ [10] ++ join [10; 10] texts])
         end
    else Returns parts2 in
  match parts3 with
  | Throws e => Throws e
  | Returns parts =>
      Returns (truncateForPrompt (join [10; 10] parts) MAX_CONTEXT_CHARS)
  end.

End WithEngine.

End AnalyzeThread.

(** A page of new Reddit whose one comment carries the depth -1. *)
Definition negativeDepthPage : Document :=
  shredditPage [shredditComment "t1_a" "alice" "-1" "First comment"].

(** The greatest length of a string in V8 on 64 bits. *)
Definition v8MaxStringLength : Z := 2 ^ 29 - 24.

(** A context with one comment at the given depth. *)
Definition contextAtDepth (z : Z) : ThreadContext :=
  {| platform := js "reddit"; url := js "https://www.reddit.com/r/test/comments/abc123";
     postTitle := js "Test Post"; postBody := []; postAuthor := None;
     comments := [ {| id := js "t1_a"; author := js "alice";
                      text := js "First comment"; parentId := None;
                      depth := Int z |} ];
     extractedAt := 1700000000000 |}.

(** A digit or a lower-case letter, the units of a number in base 36. *)
Definition isBase36 (c : Z) : bool := isDigit c || ((97 <=? c) && (c <=? 122)).

(** A url with its fragment replaced. *)
Definition withFragment (f : option jsstring) (u : URL.t) : URL.t :=
  {| URL.scheme := URL.scheme u; URL.host := URL.host u;
     URL.pathname := URL.pathname u; URL.query := URL.query u;
     URL.fragment := f; URL.searchParams := URL.searchParams u |}.

(** Printable ASCII without the space. *)
Definition visible (s : jsstring) : bool :=
  forallb (fun c => (33 <=? c) && (c <=? 126)) s.

(** ** background/service-worker.ts: handleAnalyzeThread

    The preferences are what [getPreferences] returned, and [analyzeThread]
    is the answer of the AI service, which catches its own exceptions and
    returns a response; neither touches the cache. *)

Module ServiceWorker.

Import Cache.

Inductive Response (A : Type) : Type :=
  | Success (data : A)
  | Failure (code message : jsstring).

Arguments Success {A} data.
Arguments Failure {A} code message.

Record AnalyzeResult : Type := mkAnalyzeResult {
  data_suggestions : list AISuggestion;
  data_threadSummary : jsstring }.

Record AnalysisResult : Type := mkAnalysisResult {
  result_suggestions : list AISuggestion;
  result_threadSummary : jsstring;
  fromCache : bool }.

(** The two preferences that the handler reads. *)
Record UserPreferences : Type := mkUserPreferences {
  apiKey : jsstring;
  cacheTTLHours : Z }.

Definition createErrorResponse {A} (code message : string) : Response A :=
  Failure (js code) (js message).

Section WithService.

Variable analyzeThread :
  ThreadContext -> jsstring -> option jsstring -> jsstring -> Response AnalyzeResult.

(** [None] when the url of the context is outside what [URL.parse] models,
    as for [generateCacheKey]. The key of the save is the key of the
    look-up, so the save is there whenever the look-up is. *)
Definition handleAnalyzeThread (fuel : nat) (context : ThreadContext)
    (tone : jsstring) (customToneText : option jsstring) (prefs : UserPreferences)
  : option (C (Response AnalysisResult)) :=
  let toneKey :=
    if JS.eqb tone (js "custom")
    then match customToneText with Some t => t | None => [] end
    else tone in
  match CacheService.getCachedAnalysis fuel (url context) toneKey with
  | None => None
  | Some lookup =>
      Some
        (let* cached := lookup in
         match cached with
         | Some entry =>
             ret (Success {| result_suggestions := suggestions entry;
                             result_threadSummary := threadSummary entry;
                             fromCache := true |})
         | None =>
             if isEmpty (apiKey prefs)
             then ret (createErrorResponse "API_KEY_MISSING"
                         "Please configure your OpenAI API key in settings")
             else
               match analyzeThread context tone customToneText (apiKey prefs) with
               | Failure code message => ret (Failure code message)
               | Success data =>
                   match CacheService.cacheAnalysis fuel (url context) toneKey
                           (data_suggestions data) (data_threadSummary data)
                           (cacheTTLHours prefs) with
                   | None => diverge
                   | Some save =>
                       let* _ := save in
                       ret (Success {| result_suggestions := data_suggestions data;
                                       result_threadSummary := data_threadSummary data;
                                       fromCache := false |})
                   end
               end
         end)
  end.

End WithService.

End ServiceWorker.

(** An AI service that answers every request with the same analysis, and
    one that always fails. *)
Definition fixedService (suggestions : list AISuggestion) (threadSummary : jsstring)
  : ThreadContext -> jsstring -> option jsstring -> jsstring
    -> ServiceWorker.Response ServiceWorker.AnalyzeResult :=
  fun _ _ _ _ =>
    ServiceWorker.Success
      {| ServiceWorker.data_suggestions := suggestions;
         ServiceWorker.data_threadSummary := threadSummary |}.

Definition failingService
  : ThreadContext -> jsstring -> option jsstring -> jsstring
    -> ServiceWorker.Response ServiceWorker.AnalyzeResult :=
  fun _ _ _ _ => ServiceWorker.Failure (js "API_ERROR") (js "No response from AI").

(** A store without entries. *)
Definition emptyWorld : Cache.World :=
  {| Cache.entries := ∅; Cache.cacheIndex := None; Cache.now := 1700000000000 |}.

(** The text that the Facebook adapter extracts from an element. *)
Definition facebookText (isEmoji : jsstring -> bool) (el : Element) : jsstring :=
  FacebookAdapter.extractTextFromFacebookElement isEmoji (Some el).

(** A Facebook comment container with two candidate texts. *)
Definition facebookComment : Element :=
  mkElement Example.noAttribute [] []
    (fun selector =>
       if JS.eqb selector (attrSel "div" "dir" "=" "auto" " span, .UFICommentBody")
       then [Example.textElement (js "Nice"); Example.textElement (js "Nice post, thanks!")]
       else []).

(** ** [URL.parse], step by step

    The same parser with its matches on literal code units written as
    tests, for the proofs on the case of a url and on its query
    ([parse_steps] shows that it is [URL.parse]). *)

Module UrlSteps.

Import URL.








End UrlSteps.

(** A query of the given parameters, written as they are. *)
Definition queryOf (params : list (jsstring * jsstring)) : jsstring :=
  join (js "&") (List.map (fun '(n, v) => n ++ js "=" ++ v) params).

(** A value that needs no escape in a query: printable ASCII without the
    space, the quotation marks (34 and 39), the number sign (35), the
    percent sign (37), the ampersand (38) and the angle brackets (60, 62). *)
Definition plainValue (s : jsstring) : bool :=
  forallb (fun c => (33 <=? c) && (c <=? 126)
                    && negb (URL.inSet [34; 35; 37; 38; 39; 60; 62] c)) s.

(** Parameters that are all tracking parameters, with plain values. *)
Definition trackingOnly (params : list (jsstring * jsstring)) : bool :=
  forallb (fun '(n, v) => existsb (JS.eqb n) Storage.trackingParameters && plainValue v)
          params.



(** * Properties *)

(** ** Regular expressions: [test] decides prefix membership *)

Module RegExpFacts.
Import RegExp.

Lemma Matches_nil_inv r s : Matches r s -> s = [] -> nullable r = true.
Proof.
  induction 1; intros Hnil; simpl; try discriminate; auto.
  - apply app_eq_nil in Hnil as [-> ->]. rewrite IHMatches1, IHMatches2; auto.
  - rewrite IHMatches; auto.
  - rewrite IHMatches, orb_true_r; auto.
  - apply app_eq_nil in Hnil as [-> ->]. auto.
Qed.

Lemma nullable_Matches r : nullable r = true -> Matches r [].
Proof.
  induction r; simpl; intros H; try discriminate.
  - constructor.
  - apply andb_true_iff in H as [H1 H2].
    change (@nil Z) with (@nil Z ++ []). constructor; auto.
  - apply orb_true_iff in H as [H|H]; [apply MAltL | apply MAltR]; auto.
  - apply MPlus1; auto.
Qed.

Lemma nullable_spec r : nullable r = true <-> Matches r [].
Proof.
  split; [apply nullable_Matches | intros H; eapply Matches_nil_inv; eauto].
Qed.

Lemma Matches_Void_inv s : Matches Void s -> False.
Proof. inversion 1. Qed.

Lemma Matches_Eps_inv s : Matches Eps s -> s = [].
Proof. inversion 1; auto. Qed.

Lemma Matches_Seq_inv r1 r2 s :
  Matches (Seq r1 r2) s -> exists s1 s2, s = s1 ++ s2 /\ Matches r1 s1 /\ Matches r2 s2.
Proof. inversion 1; subst; eauto. Qed.

Lemma Matches_Alt_inv r1 r2 s : Matches (Alt r1 r2) s -> Matches r1 s \/ Matches r2 s.
Proof. inversion 1; subst; auto. Qed.

Lemma deriv_sound d r : forall s, Matches (deriv d r) s -> Matches r (d :: s).
Proof.
  induction r; simpl; intros s H.
  - destruct (Matches_Void_inv _ H).
  - destruct (Matches_Void_inv _ H).
  - destruct (Z.eqb_spec d c).
    + apply Matches_Eps_inv in H. subst. constructor.
    + destruct (Matches_Void_inv _ H).
  - destruct (Z.eqb_spec d c).
    + destruct (Matches_Void_inv _ H).
    + apply Matches_Eps_inv in H. subst. constructor; auto.
  - assert (Hseq : forall t, Matches (Seq (deriv d r1) r2) t -> Matches (Seq r1 r2) (d :: t)).
    { intros t Ht. apply Matches_Seq_inv in Ht as (s1 & s2 & -> & H1 & H2).
      change (d :: s1 ++ s2) with ((d :: s1) ++ s2). constructor; auto. }
    destruct (nullable r1) eqn:Hn; [| auto].
    apply Matches_Alt_inv in H as [H | H]; [auto |].
    change (d :: s) with ([] ++ d :: s). constructor; auto.
    apply nullable_Matches; auto.
  - apply Matches_Alt_inv in H as [H | H]; [apply MAltL | apply MAltR]; auto.
  - apply Matches_Seq_inv in H as (s1 & s2 & -> & H1 & H2).
    apply Matches_Alt_inv in H2 as [H2 | H2].
    + change (d :: s1 ++ s2) with ((d :: s1) ++ s2). apply MPlusS; auto.
    + apply Matches_Eps_inv in H2. subst. rewrite app_nil_r. apply MPlus1; auto.
Qed.

Lemma deriv_complete r s0 :
  Matches r s0 -> forall d s, s0 = d :: s -> Matches (deriv d r) s.
Proof.
  induction 1 as [ | c | c c' Hne | r1 r2 s1 s2 H1 IH1 H2 IH2 | r1 r2 s1 H1 IH1
                 | r1 r2 s1 H1 IH1 | r s1 H1 IH1 | r s1 s2 H1 IH1 H2 IH2 ];
    intros d s Heq; simpl; try discriminate.
  - injection Heq as -> <-. rewrite Z.eqb_refl. constructor.
  - injection Heq as -> <-. destruct (Z.eqb_spec d c); [contradiction | constructor].
  - destruct s1 as [|c s1]; simpl in Heq.
    + subst s2. rewrite (Matches_nil_inv _ _ H1 eq_refl). apply MAltR. eauto.
    + injection Heq as -> <-.
      assert (Hs : Matches (Seq (deriv d r1) r2) (s1 ++ s2)) by (constructor; eauto).
      destruct (nullable r1); [apply MAltL |]; exact Hs.
  - apply MAltL; eauto.
  - apply MAltR; eauto.
  - rewrite <- (app_nil_r s). constructor; eauto. apply MAltR; constructor.
  - destruct s1 as [|c s1]; simpl in Heq.
    + subst s2. apply (IH2 d s eq_refl).
    + injection Heq as -> <-. constructor; eauto. apply MAltL; auto.
Qed.

Lemma deriv_spec d r s : Matches (deriv d r) s <-> Matches r (d :: s).
Proof.
  split; [apply deriv_sound | intros H; eapply deriv_complete; eauto].
Qed.

(** [test] decides whether a prefix of the input is in the language. *)
Lemma test_spec : forall s r,
  test r s = true <-> exists p q, s = p ++ q /\ Matches r p.
Proof.
  induction s as [|d s IH]; intros r; simpl.
  - rewrite orb_false_r, nullable_spec. split.
    + intros H. exists [], []. auto.
    + intros (p & q & Heq & H). symmetry in Heq.
      apply app_eq_nil in Heq as [-> _]. auto.
  - rewrite orb_true_iff, nullable_spec, IH. split.
    + intros [H | (p & q & -> & H)].
      * exists [], (d :: s). auto.
      * exists (d :: p), q. split; auto. apply deriv_spec; auto.
    + intros (p & q & Heq & H). destruct p as [|c p].
      * left; auto.
      * simpl in Heq. injection Heq as <- ->. right. exists p, q.
        split; auto. apply deriv_spec; auto.
Qed.

End RegExpFacts.

(** ** Strings and truncation *)

Lemma len_app (a b : jsstring) : len (a ++ b) = len a + len b.
Proof. unfold len. rewrite length_app. lia. Qed.

Lemma len_nonneg (s : jsstring) : 0 <= len s.
Proof. unfold len. lia. Qed.

Lemma isEmpty_false (s : jsstring) : isEmpty s = false <-> s <> [].
Proof. destruct s; simpl; split; congruence. Qed.

Lemma isEmpty_true (s : jsstring) : isEmpty s = true <-> s = [].
Proof. destruct s; simpl; split; congruence. Qed.

Lemma slice_prefix (s : jsstring) (k : Z) :
  0 <= k <= len s -> slice s 0 k = take (Z.to_nat k) s.
Proof.
  intros Hk. unfold slice, clampIndex.
  assert (H0 : (0 <? 0) = false) by reflexivity. rewrite H0.
  destruct (k <? 0) eqn:Hneg; [apply Z.ltb_lt in Hneg; lia |].
  rewrite Z.min_l by lia. rewrite Z.min_l by (unfold len; lia).
  simpl. rewrite Z.sub_0_r. reflexivity.
Qed.

Lemma truncateText_hardCut (raw : jsstring) (cap : Z) :
  3 <= cap -> hardCut cap raw (BasePlatformAdapter.truncateText raw cap).
Proof.
  intros Hcap. unfold hardCut, BasePlatformAdapter.truncateText.
  destruct (Z.leb_spec (len raw) cap) as [Hle | Hgt].
  - repeat split; auto; lia.
  - rewrite slice_prefix by lia. repeat split; try lia; auto.
    rewrite len_app. unfold len at 1. rewrite length_take.
    unfold len in Hgt. change (len (js "...")) with 3. lia.
Qed.

Lemma truncateText_nonempty (raw : jsstring) (cap : Z) :
  3 <= cap -> raw <> [] -> BasePlatformAdapter.truncateText raw cap <> [].
Proof.
  intros Hcap Hraw. unfold BasePlatformAdapter.truncateText.
  destruct (len raw <=? cap); [exact Hraw |].
  intros H. apply app_eq_nil in H as [_ H]. discriminate.
Qed.

Lemma Forall_omap_imap {A B} (P : B -> Prop) (l : list A) :
  forall (f : nat -> A -> option B),
  (forall i x c, f i x = Some c -> P c) ->
  Forall P (omap (fun pushed => pushed) (imap f l)).
Proof.
  induction l as [|x l IH]; intros f Hf; simpl; [constructor |].
  destruct (f 0%nat x) eqn:Hx.
  - constructor; [eauto | apply IH; intros i y c; apply Hf].
  - apply IH. intros i y c. apply Hf.
Qed.

(** Peel the guards off a result that is known to be [Some]. *)
Ltac some_inv H :=
  match type of H with
  | (if ?b then None else _) = Some _ =>
      let E := fresh "E" in destruct b eqn:E; [discriminate H |]; some_inv H
  | Some _ = Some ?c => apply (inj Some) in H; subst c
  | _ => idtac
  end.

Section AdapterFacts.
Variable generateCommentId : nat -> jsstring.
Variable extractPostTitle extractPostBody : Document -> jsstring.
Variable isEmoji isMetadataText : jsstring -> bool.


Lemma orElse_nonempty (a b : jsstring) : b <> [] -> orElse a b <> [].
Proof.
  intros Hb. unfold orElse. destruct (isEmpty a) eqn:Ha; [exact Hb |].
  apply isEmpty_false; auto.
Qed.

Lemma orElseNull_nonempty (a : option jsstring) (b : jsstring) :
  b <> [] -> orElseNull a b <> [].
Proof. intros Hb. destruct a; simpl; auto using orElse_nonempty. Qed.

Lemma reddit_shreddit_comment i el c :
  RedditAdapter.extractShredditComment generateCommentId i el = Some c ->
  capped c /\ filled c.
Proof.
  unfold RedditAdapter.extractShredditComment. intros H. some_inv H.
  apply isEmpty_false in E0. split.
  - eexists. simpl. apply truncateText_hardCut. lia.
  - split; simpl.
    + apply truncateText_nonempty; [lia | exact E0].
    + apply orElseNull_nonempty. discriminate.
Qed.

Lemma reddit_single_comment i el depth c :
  RedditAdapter.extractSingleComment generateCommentId i el depth = Some c ->
  capped c /\ filled c.
Proof.
  unfold RedditAdapter.extractSingleComment. intros H. some_inv H.
  apply isEmpty_false in E0. split.
  - eexists. simpl. apply truncateText_hardCut. lia.
  - split; simpl.
    + apply truncateText_nonempty; [lia | exact E0].
    + apply orElse_nonempty. discriminate.
Qed.

Lemma reddit_comments d :
  Forall (fun c => capped c /\ filled c) (RedditAdapter.extractComments generateCommentId d).
Proof.
  unfold RedditAdapter.extractComments.
  destruct (docQuerySelectorAll d (js "shreddit-comment")).
  - apply Forall_omap_imap. intros i x c. apply reddit_single_comment.
  - apply Forall_omap_imap. intros i x c. apply reddit_shreddit_comment.
Qed.

Lemma twitter_username_nonempty el : TwitterAdapter.extractTwitterUsername el <> [].
Proof.
  unfold TwitterAdapter.extractTwitterUsername.
  destruct el as [e|]; [| discriminate].
  assert (Hat : forall t : jsstring,
            (if startsWith t (js "@") then t else js "@" ++ t) <> []).
  { intros t. destruct t as [|c t]; simpl; [discriminate |].
    destruct (_ && _); discriminate. }
  destruct (getAttribute e (js "href")) as [h|]; [| apply Hat].
  destruct (_ && _); [discriminate | apply Hat].
Qed.

Lemma twitter_replies mainTweetId tweets : forall found count i,
  Forall (fun c => capped c /\ filled c)
         (TwitterAdapter.repliesLoop generateCommentId mainTweetId found count i tweets).
Proof.
  induction tweets as [|tweet rest IH]; intros found count i; simpl; [constructor |].
  destruct (TwitterAdapter.linksTo tweet mainTweetId); [apply IH |].
  destruct (negb found); [apply IH |].
  destruct (count >=? EXTRACTION_CONFIG.MAX_COMMENTS); [constructor |].
  destruct (isEmpty _) eqn:E; [apply IH |].
  apply isEmpty_false in E. constructor; [| apply IH].
  split.
  - eexists. simpl. apply truncateText_hardCut. lia.
  - split; simpl.
    + apply truncateText_nonempty; [lia | exact E].
    + apply twitter_username_nonempty.
Qed.

Lemma facebook_single_comment i el c :
  FacebookAdapter.extractSingleComment generateCommentId isEmoji i el = Some c ->
  capped c /\ filled c.
Proof.
  unfold FacebookAdapter.extractSingleComment. intros H. some_inv H.
  apply isEmpty_false in E. split.
  - eexists. simpl. apply truncateText_hardCut. lia.
  - split; simpl.
    + apply truncateText_nonempty; [lia | exact E].
    + apply orElse_nonempty. discriminate.
Qed.

Lemma facebook_comments d :
  Forall (fun c => capped c /\ filled c)
         (FacebookAdapter.extractComments generateCommentId isEmoji d).
Proof.
  unfold FacebookAdapter.extractComments.
  apply Forall_omap_imap. intros i x c. apply facebook_single_comment.
Qed.

Lemma base_comments elements textSelector authorSelector maxComments maxDepth :
  Forall (fun c => capped c /\ filled c)
    (BasePlatformAdapter.extractCommentsFromElements generateCommentId elements
       textSelector authorSelector maxComments maxDepth).
Proof.
  unfold BasePlatformAdapter.extractCommentsFromElements.
  apply Forall_omap_imap. intros i x c.
  unfold BasePlatformAdapter.extractCommentFromElement. intros H. some_inv H.
  apply isEmpty_false in E. split.
  - eexists. simpl. apply truncateText_hardCut. lia.
  - split; simpl.
    + apply truncateText_nonempty; [lia | exact E].
    + apply orElse_nonempty. discriminate.
Qed.

Lemma adapter_comments k d ctx :
  extractThreadContextOf generateCommentId extractPostTitle extractPostBody
    isEmoji isMetadataText k d = Some ctx ->
  Forall (fun c => capped c /\ filled c) (comments ctx).
Proof.
  destruct k; simpl.
  - unfold RedditAdapter.extractThreadContext. intros H. some_inv H. simpl.
    apply reddit_comments.
  - unfold TwitterAdapter.extractThreadContext.
    destruct (TwitterAdapter.extractMainTweet d) as [mainTweet postAuthor].
    intros H. some_inv H. simpl. apply twitter_replies.
  - unfold FacebookAdapter.extractThreadContext. intros H. some_inv H. simpl.
    apply facebook_comments.
Qed.

End AdapterFacts.

(** ** The adapters: URL matching, truncation, comments *)

(** C7. [canHandle] decides the listed addresses: Reddit accepts
    a post under /comments/ and rejects a bare subreddit, Twitter accepts a
    status on x.com and rejects /explore, Facebook accepts permalink.php. *)
Theorem canHandle_listed_cases :
  RedditAdapter.canHandle
    (js "https://www.reddit.com/r/test/comments/abc123/post_title") = true
  /\ RedditAdapter.canHandle (js "https://www.reddit.com/r/test") = false
  /\ TwitterAdapter.canHandle (js "https://x.com/user/status/123456789") = true
  /\ TwitterAdapter.canHandle (js "https://twitter.com/explore") = false
  /\ FacebookAdapter.canHandle
       (js "https://www.facebook.com/permalink.php?story_fbid=123") = true.
Proof. repeat split; vm_compute; reflexivity. Qed.

(** [canHandle] is prefix membership in one of the adapter's patterns. *)
Lemma canHandle_spec patterns url :
  BasePlatformAdapter.canHandle patterns url = true <->
  exists r p q, In r patterns /\ url = p ++ q /\ RegExp.Matches r p.
Proof.
  unfold BasePlatformAdapter.canHandle. rewrite existsb_exists. split.
  - intros (r & Hin & Ht). apply RegExpFacts.test_spec in Ht as (p & q & Heq & Hm).
    exists r, p, q. auto.
  - intros (r & p & q & Hin & Heq & Hm). exists r. split; auto.
    apply RegExpFacts.test_spec. eauto.
Qed.

Section AdapterClaims.

Variable generateCommentId : nat -> jsstring.
Variable extractPostTitle extractPostBody : Document -> jsstring.
Variable isEmoji isMetadataText : jsstring -> bool.

(** C10, as the code has it. Every comment that an adapter places in a context has
    text and an author; a candidate without text gives no comment; a
    missing author becomes "[deleted]" on Reddit, "Facebook User" on
    Facebook, "Anonymous" in the shared helper, and on Twitter "Unknown"
    when the tweet has no author link and an author that starts with "@"
    when it has one. *)
Theorem comments_have_text_and_author :
  (forall k d ctx, extractThreadContextOf generateCommentId extractPostTitle extractPostBody
    isEmoji isMetadataText k d = Some ctx -> Forall filled (comments ctx))
  /\ (forall i el c,
        RedditAdapter.extractShredditComment generateCommentId i el = Some c ->
        orElseNull (getAttribute el (js "author")) [] = [] ->
        author c = js "[deleted]")
  /\ (forall i el depth c,
        RedditAdapter.extractSingleComment generateCommentId i el depth = Some c ->
        BasePlatformAdapter.getTextContent
          (BasePlatformAdapter.queryFirstWithin el RedditAdapter.commentAuthor) = [] ->
        author c = js "[deleted]")
  /\ (forall i el c,
        FacebookAdapter.extractSingleComment generateCommentId isEmoji i el = Some c ->
        BasePlatformAdapter.getTextContent
          (BasePlatformAdapter.queryFirstWithin el FacebookAdapter.commentAuthor) = [] ->
        author c = js "Facebook User")
  /\ (forall ts as_ i el c,
        BasePlatformAdapter.extractCommentFromElement generateCommentId ts as_ i el = Some c ->
        BasePlatformAdapter.getTextContent
          (BasePlatformAdapter.queryFirstWithin el as_) = [] ->
        author c = js "Anonymous")
  /\ TwitterAdapter.extractTwitterUsername None = js "Unknown"
  /\ (forall e, startsWith (TwitterAdapter.extractTwitterUsername (Some e)) (js "@") = true)
  /\ (forall d c, In c (TwitterAdapter.extractReplies generateCommentId d) ->
        exists tweet, In tweet (docQuerySelectorAll d TwitterAdapter.sel_tweet)
          /\ author c = TwitterAdapter.extractTwitterUsername
                          (querySelector tweet TwitterAdapter.sel_userName)).
Proof.
  split; [| split; [| split; [| split; [| split; [| split; [| split]]]]]].
  - intros k d ctx H. pose proof (adapter_comments _ _ _ _ _ _ _ _ H) as HF.
    induction HF as [|c l [_ Hf] _ IH]; constructor; auto.
  - unfold RedditAdapter.extractShredditComment. intros i el c H Hmiss. some_inv H.
    simpl. destruct (getAttribute el (js "author")) as [a|]; simpl in *; [| reflexivity].
    unfold orElse in *. destruct (isEmpty a) eqn:Ea; [reflexivity |].
    apply isEmpty_false in Ea. contradiction.
  - unfold RedditAdapter.extractSingleComment. intros i el depth c H Hmiss. some_inv H.
    cbn [author]. rewrite Hmiss. reflexivity.
  - unfold FacebookAdapter.extractSingleComment. intros i el c H Hmiss. some_inv H.
    cbn [author]. rewrite Hmiss. reflexivity.
  - unfold BasePlatformAdapter.extractCommentFromElement. intros ts as_ i el c H Hmiss.
    some_inv H. cbn [author]. rewrite Hmiss. reflexivity.
  - reflexivity.
  - intros e. unfold TwitterAdapter.extractTwitterUsername.
    assert (Hpre : forall x : jsstring, startsWith (js "@" ++ x) (js "@") = true).
    { intros x. change (js "@") with [64]. destruct x; reflexivity. }
    assert (Hat : forall t : jsstring,
              startsWith (if startsWith t (js "@") then t else js "@" ++ t) (js "@") = true).
    { intros t. destruct (startsWith t (js "@")) eqn:Ht; [exact Ht | apply Hpre]. }
    destruct (getAttribute e (js "href")) as [h|]; [| apply Hat].
    destruct (_ && _); [apply Hpre | apply Hat].
  - intros d c. unfold TwitterAdapter.extractReplies.
    generalize (TwitterAdapter.getTweetIdFromUrl d) as mainId.
    generalize (docQuerySelectorAll d TwitterAdapter.sel_tweet) as tweets.
    intros tweets mainId. generalize false, 0, 0%nat.
    induction tweets as [|tweet rest IH]; intros found count i; simpl; [tauto |].
    assert (Hrest : forall found count i,
              In c (TwitterAdapter.repliesLoop generateCommentId mainId found count i rest) ->
              exists tweet0, (tweet = tweet0 \/ In tweet0 rest)
                /\ author c = TwitterAdapter.extractTwitterUsername
                                (querySelector tweet0 TwitterAdapter.sel_userName)).
    { intros f0 c0 i0 Hin. destruct (IH f0 c0 i0 Hin) as (t0 & Ht0 & Ha). eauto. }
    destruct (TwitterAdapter.linksTo tweet mainId); [apply Hrest |].
    destruct (negb found); [apply Hrest |].
    destruct (count >=? EXTRACTION_CONFIG.MAX_COMMENTS); [simpl; tauto |].
    destruct (isEmpty _); [apply Hrest |].
    intros [<- | Hin]; [| eapply Hrest; eauto].
    exists tweet. simpl. auto.
Qed.

End AdapterClaims.

(** C4, against the preference for a boundary. The adapter's
    [truncateText] does not prefer a boundary: on a title of 502 units
    whose last full stop is at index 498, past 70% of the cap of 500, the
    stored title does not begin with the text up to that full stop. *)
Lemma truncateText_ignores_boundary :
  ~ prefersBoundary BasePlatformAdapter.truncateText.
Proof.
  intros H.
  specialize (H longTitle 500 (repeat 97 498 ++ js ".")).
  assert (H1 : 500 < len longTitle) by (vm_compute; reflexivity).
  assert (H2 : boundaryCut longTitle 500 = Some (repeat 97 498 ++ js "."))
    by (vm_compute; reflexivity).
  specialize (H H1 H2). vm_compute in H. discriminate H.
Qed.

(** The prompt formatter is where the boundary is preferred; its result
    carries a marker and so exceeds the cap. *)
Lemma truncateForPrompt_at_boundary :
  truncateForPrompt longTitle 500
  = repeat 97 498 ++ js "." ++ [10] ++ js "[Content truncated]".
Proof. vm_compute. reflexivity. Qed.

(** C10, against the list of placeholders. The second
    reply of the example page has no author link; its author is "Unknown",
    which is none of the listed placeholders. *)
Lemma twitter_missing_author_unlisted :
  exists tweet c,
    nth_error (docQuerySelectorAll Example.tweetPage TwitterAdapter.sel_tweet) 2 = Some tweet
    /\ querySelector tweet TwitterAdapter.sel_userName = None
    /\ nth_error (TwitterAdapter.extractReplies Example.ids Example.tweetPage) 1 = Some c
    /\ text c = js "Another reply"
    /\ author c = js "Unknown"
    /\ listedPlaceholder (author c) = false.
Proof. do 2 eexists. repeat split. Qed.

Lemma comments_have_text_and_author_witness :
  exists ctx,
    extractThreadContextOf Example.ids (fun _ => []) (fun _ => [])
      (fun _ => false) (fun _ => false) Twitter Example.tweetPage = Some ctx
    /\ Forall filled (comments ctx).
Proof.
  eexists. split; [reflexivity |].
  apply (proj1 (comments_have_text_and_author Example.ids (fun _ => []) (fun _ => [])
                  (fun _ => false) (fun _ => false)) Twitter Example.tweetPage).
  reflexivity.
Defined.

(** ** The validation of the thread extractor *)

Lemma trim_nil : trim [] = [].
Proof. reflexivity. Qed.







(** Null and a rejection also come out as null. *)
Lemma extractWithAdapter_null_or_thrown (E : Type) (e : E) :
  ThreadExtractor.extractWithAdapter (E := E) (Returns None) = None
  /\ ThreadExtractor.extractWithAdapter (Throws e) = None.
Proof. split; reflexivity. Qed.

(** ** The text inserter *)

Section InsertText.

Context {Page HTMLElement Error : Type}.
Variable fallbackInsert : HTMLElement -> jsstring -> @TextInserter.M Page Error unit.

(** C8. When the adapter's [setInputText] throws inside [insertText], the
    text read before the call is written back through the same adapter,
    whether or not that second write succeeds, and the first exception is
    the one that reaches the caller. *)
Theorem insertText_restores_then_rethrows
    (adapter : @TextInserter.PlatformAdapter Page HTMLElement Error)
    (input : HTMLElement) (text originalText : jsstring) (error : Error)
    (p p0 p1 : Page) :
  TextInserter.getInputText adapter input p = (Returns originalText, p0) ->
  TextInserter.setInputText adapter input text false p0 = (Throws error, p1) ->
  TextInserter.insertText fallbackInsert input text adapter p
  = (Throws error,
     snd (TextInserter.setInputText adapter input originalText false p1)).
Proof.
  intros Hget Hset.
  unfold TextInserter.insertText, TextInserter.bind, TextInserter.try_catch.
  rewrite Hget, Hset.
  destruct (TextInserter.setInputText adapter input originalText false p1)
    as [[[] | e] p2]; reflexivity.
Qed.

End InsertText.

Lemma insertText_restores_then_rethrows_witness :
  TextInserter.insertText boxFallback tt (js "boom") boxAdapter (js "my draft")
  = (Throws (js "editor rejected the text"), js "my draft").
Proof.
  apply (insertText_restores_then_rethrows boxFallback boxAdapter tt (js "boom")
           (js "my draft") (js "editor rejected the text")
           (js "my draft") (js "my draft") (js "bo")); reflexivity.
Defined.

(** ** Cache keys *)

Module HashFacts.

Import Storage.

Lemma toInt32_mod (a : Z) : toInt32 a mod 2 ^ 32 = a mod 2 ^ 32.
Proof.
  unfold toInt32. rewrite Zminus_mod_idemp_l.
  f_equal. lia.
Qed.

Lemma toInt32_congr (a b : Z) : a mod 2 ^ 32 = b mod 2 ^ 32 -> toInt32 a = toInt32 b.
Proof.
  intros H. unfold toInt32.
  rewrite <- (Zplus_mod_idemp_l a), H, Zplus_mod_idemp_l. reflexivity.
Qed.

Lemma hashRound_mod (h c : Z) :
  (toInt32 (Z.shiftl (toInt32 h) 5) - h + c) mod 2 ^ 32 = (31 * h + c) mod 2 ^ 32.
Proof.
  rewrite Z.shiftl_mul_pow2 by lia.
  rewrite <- Zplus_mod_idemp_l, <- Zminus_mod_idemp_l, toInt32_mod.
  rewrite <- Zmult_mod_idemp_l, toInt32_mod, Zmult_mod_idemp_l.
  rewrite Zminus_mod_idemp_l, Zplus_mod_idemp_l.
  f_equal. lia.
Qed.

(** One round of the hash is [31 * hash + char], wrapped to 32 bits. *)
Lemma hashStep_eq (h c : Z) : hashStep h c = toInt32 (31 * h + c).
Proof.
  unfold hashStep. rewrite Z.land_diag.
  apply toInt32_congr. rewrite toInt32_mod. apply hashRound_mod.
Qed.

Lemma hashStep_mod (h c : Z) : hashStep h c mod 2 ^ 32 = (31 * h + c) mod 2 ^ 32.
Proof. rewrite hashStep_eq. apply toInt32_mod. Qed.

Lemma hash32_app (p s : jsstring) : hash32 (p ++ s) = fold_left hashStep s (hash32 p).
Proof. unfold hash32. apply fold_left_app. Qed.

(** Two rounds: [961 * hash + 31 * c1 + c2]. *)
Lemma hashStep_twice (h c1 c2 : Z) :
  hashStep (hashStep h c1) c2 = toInt32 (961 * h + (31 * c1 + c2)).
Proof.
  rewrite (hashStep_eq (hashStep h c1)). apply toInt32_congr.
  rewrite <- Zplus_mod_idemp_l, <- Zmult_mod_idemp_r, hashStep_mod.
  rewrite Zmult_mod_idemp_r, Zplus_mod_idemp_l. f_equal. lia.
Qed.

(** The tones "Aa" and "BB" hash alike after any prefix, so after any
    normalized url. *)
Lemma hashString_Aa_BB (p : jsstring) :
  hashString (p ++ js ":" ++ js "Aa") = hashString (p ++ js ":" ++ js "BB").
Proof.
  unfold hashString. do 2 f_equal.
  rewrite !hash32_app. change (js ":" ++ js "Aa") with [58; 65; 97].
  change (js ":" ++ js "BB") with [58; 66; 66]. simpl.
  rewrite !hashStep_twice. reflexivity.
Qed.

Lemma generateCacheKey_Aa_BB (url : jsstring) :
  generateCacheKey url (js "Aa") = generateCacheKey url (js "BB").
Proof.
  unfold generateCacheKey. destruct (normalizeUrl url); [| reflexivity].
  f_equal. apply hashString_Aa_BB.
Qed.

End HashFacts.

(** C5, against distinct keys for all distinct tones. For the
    address of the tests, the distinct tones "Aa" and "BB" get one and the
    same key. *)
Lemma distinct_tones_same_key :
  js "Aa" <> js "BB"
  /\ Storage.generateCacheKey (js "https://reddit.com/r/test/comments/123") (js "Aa")
     = Some (js "hcvpce")
  /\ Storage.generateCacheKey (js "https://reddit.com/r/test/comments/123") (js "BB")
     = Some (js "hcvpce").
Proof. repeat split; [discriminate | vm_compute; reflexivity ..]. Qed.

(** C5, as the code has it. On the tested inputs, the addresses of the cache key
    tests and the four preset tones, distinct tones get distinct keys. *)
Theorem preset_tones_distinct_keys (url t1 t2 : jsstring) :
  In url testedUrls ->
  In t1 Storage.TONE_PRESETS -> In t2 Storage.TONE_PRESETS ->
  t1 <> t2 ->
  exists k1 k2,
    Storage.generateCacheKey url t1 = Some k1
    /\ Storage.generateCacheKey url t2 = Some k2
    /\ k1 <> k2.
Proof.
  unfold testedUrls, Storage.TONE_PRESETS. simpl.
  intros Hu H1 H2 Hne.
  repeat match goal with H : _ \/ _ |- _ => destruct H as [H | H] end;
    try contradiction; subst; try congruence;
    (do 2 eexists; split; [vm_compute; reflexivity |];
     split; [vm_compute; reflexivity | vm_compute; discriminate]).
Qed.

Lemma preset_tones_distinct_keys_witness :
  exists k1 k2,
    Storage.generateCacheKey (js "https://reddit.com/r/test/comments/123") (js "friendly")
    = Some k1
    /\ Storage.generateCacheKey (js "https://reddit.com/r/test/comments/123")
         (js "professional") = Some k2
    /\ k1 <> k2.
Proof.
  apply (preset_tones_distinct_keys (js "https://reddit.com/r/test/comments/123")
           (js "friendly") (js "professional")).
  - left. reflexivity.
  - left. reflexivity.
  - right. left. reflexivity.
  - discriminate.
Defined.

(** The three addresses of the tests get one key for the tone "friendly":
    the tracking parameter utm_source and the case of the host make no
    difference there. *)
Lemma tested_urls_one_key :
  Storage.generateCacheKey (js "https://reddit.com/r/test/comments/123") (js "friendly")
  = Some (js "k53twj")
  /\ Storage.generateCacheKey
       (js "https://reddit.com/r/test/comments/123?utm_source=share") (js "friendly")
     = Storage.generateCacheKey (js "https://reddit.com/r/test/comments/123") (js "friendly")
  /\ Storage.generateCacheKey (js "https://REDDIT.com/r/test/comments/123") (js "friendly")
     = Storage.generateCacheKey (js "https://reddit.com/r/test/comments/123") (js "friendly").
Proof. repeat split; vm_compute; reflexivity. Qed.

(** How the three addresses normalize. *)
Lemma normalizeUrl_cases :
  Storage.normalizeUrl (js "https://reddit.com/r/test/comments/123?utm_source=share")
  = Some (js "https://reddit.com/r/test/comments/123")
  /\ Storage.normalizeUrl (js "https://REDDIT.com/r/test/comments/123")
     = Some (js "https://reddit.com/r/test/comments/123")
  /\ Storage.normalizeUrl (js "https://reddit.com/r/test/comments/123")
     = Some (js "https://reddit.com/r/test/comments/123").
Proof. repeat split; vm_compute; reflexivity. Qed.

(** ** The cache store: single operations *)

Module CacheFacts.

Import Cache.

Lemma getCacheIndex_eq (w : World) : getCacheIndex w = Done (currentIndex w) w.
Proof.
  unfold getCacheIndex, currentIndex, bind, storage_getIndex.
  destruct (cacheIndex w); reflexivity.
Qed.

(** An absent key reads as null and leaves the world as it is. *)
Lemma getCacheEntry_absent (fuel : nat) (cacheKey : jsstring) (w : World) :
  entries w !! cacheKey = None ->
  getCacheEntry (S fuel) cacheKey w = Done None w.
Proof.
  intros H. simpl. unfold bind, storage_get. rewrite H. reflexivity.
Qed.

(** An entry whose [expiresAt] is at or after the present time is returned
    as it is stored, and nothing changes. *)
Lemma getCacheEntry_fresh (fuel : nat) (cacheKey : jsstring) (w : World)
    (entry : CacheEntry) :
  entries w !! cacheKey = Some entry ->
  now w <= expiresAt entry ->
  getCacheEntry (S fuel) cacheKey w = Done (Some entry) w.
Proof.
  intros H Hfresh. simpl. unfold bind, storage_get, Date_now. rewrite H.
  destruct (Z.ltb_spec (expiresAt entry) (now w)); [lia | reflexivity].
Qed.

(** On an expired entry the two operations call each other without end:
    neither returns, whatever the fuel, and so nothing is removed. *)
Lemma expired_never_returns (cacheKey : jsstring) (w : World) (entry : CacheEntry) :
  entries w !! cacheKey = Some entry ->
  expiresAt entry < now w ->
  forall fuel,
    getCacheEntry fuel cacheKey w = OutOfFuel
    /\ removeCacheEntry fuel cacheKey w = OutOfFuel.
Proof.
  intros H Hexp.
  assert (Hstep : forall fuel,
            getCacheEntry fuel cacheKey w = OutOfFuel ->
            removeCacheEntry fuel cacheKey w = OutOfFuel ->
            getCacheEntry (S fuel) cacheKey w = OutOfFuel
            /\ removeCacheEntry (S fuel) cacheKey w = OutOfFuel).
  { intros fuel Hg Hr. split.
    - simpl. unfold bind at 1 2, storage_get, Date_now. rewrite H.
      destruct (Z.ltb_spec (expiresAt entry) (now w)); [| lia].
      unfold bind. rewrite Hr. reflexivity.
    - simpl. unfold bind at 1. rewrite Hg. reflexivity. }
  induction fuel as [|fuel [IHg IHr]]; [split; reflexivity | apply Hstep; assumption].
Qed.

(** Removing a live entry: it leaves the store, its key leaves the index
    and its size is taken off the total. *)
Lemma removeCacheEntry_live (fuel : nat) (cacheKey : jsstring) (w : World)
    (entry : CacheEntry) :
  entries w !! cacheKey = Some entry ->
  now w <= expiresAt entry ->
  removeCacheEntry (S (S fuel)) cacheKey w
  = Done tt
      {| entries := delete cacheKey (entries w);
         cacheIndex :=
           Some {| keys := List.filter (fun k => negb (JS.eqb k cacheKey))
                                       (keys (currentIndex w));
                   totalSize := Z.max 0 (totalSize (currentIndex w) - estimateSize entry);
                   lastPruned := lastPruned (currentIndex w) |};
         now := now w |}.
Proof.
  intros H Hfresh.
  change (removeCacheEntry (S (S fuel)) cacheKey w)
    with ((let* entry := getCacheEntry (S fuel) cacheKey in
           let entrySize := match entry with Some e => estimateSize e | None => 0 end in
           let* _ := storage_remove cacheKey in
           let* index := getCacheIndex in
           saveCacheIndex
             {| keys := List.filter (fun k => negb (JS.eqb k cacheKey)) (keys index);
                totalSize := Z.max 0 (totalSize index - entrySize);
                lastPruned := lastPruned index |}) w).
  unfold bind at 1. rewrite (getCacheEntry_fresh _ _ _ _ H Hfresh).
  unfold bind at 1. unfold storage_remove.
  unfold bind. rewrite getCacheIndex_eq. reflexivity.
Qed.

End CacheFacts.

(** ** The cache store: expiry on read *)

(** C1, on the code. The entry of [staleWorld] expired one millisecond
    before the read. [getCacheEntry] calls [removeCacheEntry], which starts
    by reading the same entry through [getCacheEntry]: the read never
    returns, with any fuel, so it neither answers null nor removes the
    entry. *)
Theorem getCacheEntry_expired_never_returns :
  Cache.entries CacheExample.staleWorld !! js "k53twj" = Some CacheExample.staleEntry
  /\ expiresAt CacheExample.staleEntry = Cache.now CacheExample.staleWorld - 1
  /\ forall fuel,
       Cache.getCacheEntry fuel (js "k53twj") CacheExample.staleWorld = Cache.OutOfFuel.
Proof.
  assert (H : Cache.entries CacheExample.staleWorld !! js "k53twj"
              = Some CacheExample.staleEntry) by (vm_compute; reflexivity).
  split; [exact H |]. split; [reflexivity |].
  intros fuel.
  apply (CacheFacts.expired_never_returns _ _ _ H); reflexivity.
Qed.

(** The part of C1 that the code does keep: an entry that has not expired,
    [expiresAt] equal to the present time included, is returned unchanged
    and stays in the store. *)
Lemma getCacheEntry_at_expiry_boundary (fuel : nat) (cacheKey : jsstring)
    (w : Cache.World) (entry : CacheEntry) :
  Cache.entries w !! cacheKey = Some entry ->
  expiresAt entry = Cache.now w ->
  Cache.getCacheEntry (S fuel) cacheKey w = Cache.Done (Some entry) w.
Proof. intros H Heq. apply CacheFacts.getCacheEntry_fresh; [exact H | lia]. Qed.

(** ** The cache store: writes and the index *)

Module SaveFacts.

Import Cache.

Lemma existsb_eqb_In (k : jsstring) (l : list jsstring) :
  existsb (JS.eqb k) l = true <-> In k l.
Proof.
  rewrite existsb_exists. unfold JS.eqb. split.
  - intros (x & Hin & Heq). apply bool_decide_eq_true in Heq. subst. exact Hin.
  - intros Hin. exists k. split; [exact Hin | apply bool_decide_eq_true; reflexivity].
Qed.

(** A save that stays within the budget: the store takes the entry, the
    index takes its key if it is new, and the total grows by the size of
    the entry. *)
Lemma saveCacheEntry_within_budget (fuel : nat) (entry : CacheEntry) (w : World) :
  estimateSize entry <= CACHE_CONFIG.MAX_ENTRY_SIZE_BYTES ->
  totalSize (currentIndex w) + estimateSize entry <= CACHE_CONFIG.MAX_STORAGE_BYTES ->
  saveCacheEntry fuel entry w
  = Done tt
      {| entries := <[cacheKey entry := entry]> (entries w);
         cacheIndex :=
           Some {| keys :=
                     if existsb (JS.eqb (cacheKey entry)) (keys (currentIndex w))
                     then keys (currentIndex w)
                     else keys (currentIndex w) ++ [cacheKey entry];
                   totalSize := totalSize (currentIndex w) + estimateSize entry;
                   lastPruned := lastPruned (currentIndex w) |};
         now := now w |}.
Proof.
  intros Hsize Hbudget. unfold saveCacheEntry.
  destruct (Z.ltb_spec CACHE_CONFIG.MAX_ENTRY_SIZE_BYTES (estimateSize entry)); [lia |].
  unfold bind at 1. rewrite CacheFacts.getCacheIndex_eq.
  cbn [totalSize].
  destruct (Z.ltb_spec CACHE_CONFIG.MAX_STORAGE_BYTES
              (totalSize (currentIndex w) + estimateSize entry)); [lia |].
  reflexivity.
Qed.

(** An entry over the size cap is rejected and nothing is written. *)
Lemma saveCacheEntry_too_large (fuel : nat) (entry : CacheEntry) (w : World) :
  CACHE_CONFIG.MAX_ENTRY_SIZE_BYTES < estimateSize entry ->
  saveCacheEntry fuel entry w
  = Failed (js "Cache entry exceeds maximum size of 102400 bytes") w.
Proof.
  intros H. unfold saveCacheEntry.
  destruct (Z.ltb_spec CACHE_CONFIG.MAX_ENTRY_SIZE_BYTES (estimateSize entry)); [| lia].
  reflexivity.
Qed.

End SaveFacts.

(** C3, against a total that grows by the difference of the sizes. A second
    analysis saved under a key that is already stored adds its whole size
    to the total: 288 + 295 = 583, where the difference of the sizes would
    have given 295. *)
Lemma overwrite_adds_whole_size :
  let before := totalSize (currentIndex CacheExample.freshWorld) in
  let old := Cache.estimateSize CacheExample.firstEntry in
  let new := Cache.estimateSize CacheExample.secondEntry in
  Cache.entries CacheExample.freshWorld !! cacheKey CacheExample.secondEntry
  = Some CacheExample.firstEntry
  /\ before = 288 /\ old = 288 /\ new = 295
  /\ (totalSize <$> (currentIndex <$>
        worldAfter (Cache.saveCacheEntry 2 CacheExample.secondEntry CacheExample.freshWorld)))
     = Some (before + new)
  /\ before + new <> before + (new - old).
Proof. repeat split; vm_compute; (reflexivity || discriminate). Qed.

(** C3, as the code has it. A save that does not trigger eviction, run alone on a
    store whose index is consistent, leaves the index consistent: its keys
    are the stored keys, each once. The running total grows by the size of
    the written entry, also when the key was already stored. *)
Theorem saveCacheEntry_keeps_index (fuel : nat) (entry : CacheEntry) (w : Cache.World) :
  consistent w ->
  Cache.estimateSize entry <= CACHE_CONFIG.MAX_ENTRY_SIZE_BYTES ->
  totalSize (currentIndex w) + Cache.estimateSize entry
    <= CACHE_CONFIG.MAX_STORAGE_BYTES ->
  exists w',
    Cache.saveCacheEntry fuel entry w = Cache.Done tt w'
    /\ Cache.entries w' = <[cacheKey entry := entry]> (Cache.entries w)
    /\ consistent w'
    /\ totalSize (currentIndex w')
       = totalSize (currentIndex w) + Cache.estimateSize entry.
Proof.
  intros [Hnd Hkeys] Hsize Hbudget.
  eexists. split; [apply SaveFacts.saveCacheEntry_within_budget; assumption |].
  split; [reflexivity |]. split; [| reflexivity].
  unfold consistent. cbn [currentIndex Cache.cacheIndex Cache.entries keys].
  destruct (existsb (JS.eqb (cacheKey entry)) (keys (currentIndex w))) eqn:Hin.
  - apply SaveFacts.existsb_eqb_In in Hin. split; [exact Hnd |].
    intros k. destruct (decide (k = cacheKey entry)) as [-> | Hne].
    + rewrite lookup_insert_eq. split; [intros _; eexists; reflexivity | intros _; exact Hin].
    + rewrite lookup_insert_ne by congruence. apply Hkeys.
  - assert (Hnot : ~ In (cacheKey entry) (keys (currentIndex w))).
    { intros Hc. apply SaveFacts.existsb_eqb_In in Hc. congruence. }
    split.
    + apply NoDup_app. repeat split; [exact Hnd | | apply NoDup_singleton].
      intros x Hx Hx'. apply list_elem_of_In in Hx, Hx'.
      destruct Hx' as [<- | []]. contradiction.
    + intros k. rewrite in_app_iff. simpl.
      destruct (decide (k = cacheKey entry)) as [-> | Hne].
      * rewrite lookup_insert_eq. split; [intros _; eexists; reflexivity | auto].
      * rewrite lookup_insert_ne by congruence. rewrite Hkeys.
        split; [intros [H | [H | []]]; [exact H | congruence] | auto].
Qed.

Lemma saveCacheEntry_keeps_index_witness :
  exists w',
    Cache.saveCacheEntry 0 CacheExample.secondEntry CacheExample.freshWorld
    = Cache.Done tt w'
    /\ Cache.entries w'
       = <[cacheKey CacheExample.secondEntry := CacheExample.secondEntry]>
           (Cache.entries CacheExample.freshWorld)
    /\ consistent w'
    /\ totalSize (currentIndex w')
       = totalSize (currentIndex CacheExample.freshWorld)
         + Cache.estimateSize CacheExample.secondEntry.
Proof.
  apply (saveCacheEntry_keeps_index 0 CacheExample.secondEntry CacheExample.freshWorld).
  - split.
    + apply NoDup_singleton.
    + intros k. simpl. split.
      * intros [<- | []]. eexists. vm_compute. reflexivity.
      * intros [e He]. destruct (decide (k = js "k53twj")) as [-> | Hne]; [left; reflexivity |].
        exfalso. unfold CacheExample.freshWorld, CacheExample.worldOf,
          CacheExample.storeOf in He. simpl in He.
        rewrite lookup_insert_ne in He by (intros Heq; apply Hne; symmetry; exact Heq).
        rewrite lookup_empty in He. discriminate.
  - vm_compute. discriminate.
  - vm_compute. discriminate.
Defined.

(** What C3 above leaves out: a save that triggers eviction.
    The store of [fullWorld] holds five entries and the total is at the
    budget; the save of a sixth evicts the oldest one, k1, and then writes
    back the index it had read before the eviction, which still lists k1
    and the total from before. *)
Lemma save_with_eviction_writes_back_old_index :
  match Cache.saveCacheEntry 2 CacheExample.sixthEntry CacheExample.fullWorld with
  | Cache.Done _ w' =>
      Cache.entries w' !! js "k1" = None
      /\ In (js "k1") (keys (currentIndex w'))
      /\ totalSize (currentIndex w')
         = CACHE_CONFIG.MAX_STORAGE_BYTES + Cache.estimateSize CacheExample.sixthEntry
  | _ => False
  end.
Proof. vm_compute. repeat split. right. left. reflexivity. Qed.

(** ** The rounded product [n * 0.2] *)

Module Binary64Facts.
Import Binary64.

Ltac eval_pow2 :=
  repeat match goal with
         | |- context [2 ^ ?k] =>
             let v := eval vm_compute in (2 ^ k) in
             progress change (2 ^ k) with v
         | H : context [2 ^ ?k] |- _ =>
             let v := eval vm_compute in (2 ^ k) in
             progress change (2 ^ k) with v in H
         end.

Ltac eval_leb :=
  repeat match goal with
         | |- context [0 <=? ?e] =>
             let v := eval vm_compute in (0 <=? e) in
             progress change (0 <=? e) with v
         end.

Ltac split_nat i k :=
  match k with
  | O => idtac
  | S ?k' => destruct i as [|i]; [ | split_nat i k' ]
  end.

(** The rounded product for a significand of [53 + s] bits, [s] fixed. *)
Lemma ceil_round_bits (n L : Z) :
  0 < n < 2 ^ 32 ->
  2 ^ L <= n * 7205759403792794 < 2 ^ (L + 1) ->
  52 <= L <= 84 ->
  ceil (if L + 1 <=? 53 then (n * 7205759403792794, -55)
        else (1 * roundNearestEven (n * 7205759403792794) (L + 1 - 53), -55 + (L + 1 - 53)))
  = (n + 4) / 5.
Proof.
  intros Hn HL Hr.
  assert (Hcase : exists i : nat, (i < 33)%nat /\ L = 52 + Z.of_nat i).
  { exists (Z.to_nat (L - 52)). lia. }
  destruct Hcase as (i & Hi & ->).
  split_nat i 33%nat; [ .. | lia ].
  all: clear Hi Hr; unfold ceil, roundNearestEven.
  all: match goal with |- context [?a + 1 <=? 53] =>
         let v := eval vm_compute in (a + 1 <=? 53) in change (a + 1 <=? 53) with v end.
  all: cbv iota; eval_pow2; eval_leb; cbv iota; rewrite ?Z.mul_1_l.
  all: repeat match goal with
              | |- context [?a <? ?b] => destruct (Z.ltb_spec a b)
              | |- context [Z.even ?a] => destruct (Z.even a)
              end.
  all: Z.div_mod_to_equations; lia.
Qed.


(** The model of the product agrees with the primitive floats: the two
    constants are 2/10 and 7/10 rounded, and the products are the same on
    the sample lengths. *)
Lemma mul_int_agrees_with_prim :
  PrimFloat.eqb (toPrim c0_2)
    (PrimFloat.div (PrimFloat.of_uint63 (Uint63.of_Z 2)) (PrimFloat.of_uint63 (Uint63.of_Z 10))) = true
  /\ PrimFloat.eqb (toPrim c0_7)
       (PrimFloat.div (PrimFloat.of_uint63 (Uint63.of_Z 7)) (PrimFloat.of_uint63 (Uint63.of_Z 10))) = true
  /\ forallb (agreesWithPrim c0_2) sampleLengths = true
  /\ forallb (agreesWithPrim c0_7) sampleLengths = true.
Proof. repeat split; vm_compute; reflexivity. Qed.

(** [Math.ceil(n * 0.2)], computed in binary64, is the ceiling of [n / 5]
    for every length an array can have. *)
Lemma removeCount_spec (n : Z) :
  0 <= n < 2 ^ 32 -> Cache.removeCount n = (n + 4) / 5.
Proof.
  intros Hn. destruct (Z.eq_dec n 0) as [-> | Hne]; [reflexivity |].
  unfold Cache.removeCount, mul_int, round, c0_2. cbn [fst snd].
  set (q := n * 7205759403792794).
  assert (Hq : 2 ^ 52 <= q < 2 ^ 85) by (unfold q; lia).
  rewrite Z.abs_eq by lia.
  destruct (Z.eqb_spec q 0) as [Hz | _]; [lia |].
  rewrite Z.sgn_pos by lia.
  assert (HL : 2 ^ Z.log2 q <= q < 2 ^ (Z.log2 q + 1)).
  { pose proof (Z.log2_spec q) as Hs. rewrite <- Z.add_1_r in Hs. apply Hs. lia. }
  assert (Hr : 52 <= Z.log2 q <= 84).
  { split.
    - rewrite <- (Z.log2_pow2 52) by lia. apply Z.log2_le_mono. lia.
    - assert (Z.log2 q < 85) by (apply Z.log2_lt_pow2; lia). lia. }
  apply ceil_round_bits; [lia | exact HL | exact Hr].
Qed.

End Binary64Facts.

(** ** The cache store: eviction *)

Module PruneFacts.

Import Cache.

Lemma insertRow_perm (x : PruneRow) (l : list PruneRow) :
  Permutation (insertRow x l) (x :: l).
Proof.
  induction l as [|y l IH]; simpl; [reflexivity |].
  destruct (row_createdAt x <=? row_createdAt y); [reflexivity |].
  rewrite IH. apply perm_swap.
Qed.

Lemma sortRows_perm (l : list PruneRow) : Permutation (sortRows l) l.
Proof.
  induction l as [|x l IH]; simpl; [reflexivity |].
  rewrite insertRow_perm, IH. reflexivity.
Qed.

Lemma insertRow_sorted (x : PruneRow) (l : list PruneRow) :
  StronglySorted older l -> StronglySorted older (insertRow x l).
Proof.
  induction 1 as [|y l Hs IH Hy]; simpl.
  - repeat constructor.
  - destruct (Z.leb_spec (row_createdAt x) (row_createdAt y)) as [Hle | Hgt].
    + constructor; [constructor; assumption |].
      constructor; [exact Hle |].
      eapply Forall_impl; [exact Hy |]. unfold older. intros z Hz. lia.
    + constructor; [exact IH |].
      rewrite insertRow_perm. constructor; [unfold older; lia | exact Hy].
Qed.

Lemma sortRows_sorted (l : list PruneRow) : StronglySorted older (sortRows l).
Proof.
  induction l as [|x l IH]; simpl; [constructor | apply insertRow_sorted, IH].
Qed.

(** In a sorted list, whatever is in a prefix is no younger than whatever
    follows it. *)
Lemma sorted_prefix_older (l1 l2 : list PruneRow) :
  StronglySorted older (l1 ++ l2) ->
  forall a b, In a l1 -> In b l2 -> older a b.
Proof.
  induction l1 as [|x l1 IH]; simpl; intros Hs a b Ha Hb; [contradiction |].
  apply StronglySorted_inv in Hs as [Hs Hx].
  destruct Ha as [<- | Ha]; [| eauto].
  rewrite Forall_forall in Hx. apply Hx. apply list_elem_of_In, in_or_app. auto.
Qed.

Lemma collectRows_keys (ks : list jsstring) (w : World) :
  (forall k, In k ks -> is_Some (entries w !! k)) ->
  List.map row_key (collectRows ks w) = ks.
Proof.
  unfold collectRows. induction ks as [|k ks IH]; intros H; simpl; [reflexivity |].
  destruct (H k (or_introl eq_refl)) as [e He]. rewrite He. simpl.
  f_equal. apply IH. intros k' Hk'. apply H. right. exact Hk'.
Qed.

Lemma collectRows_createdAt (ks : list jsstring) (w : World) (row : PruneRow) :
  In row (collectRows ks w) ->
  createdAtOf w (row_key row) = Some (row_createdAt row).
Proof.
  unfold collectRows, createdAtOf. induction ks as [|k ks IH]; simpl; [contradiction |].
  destruct (entries w !! k) as [e|] eqn:He; simpl; [| exact IH].
  intros [<- | Hin]; [| exact (IH Hin)].
  simpl. rewrite He. reflexivity.
Qed.

Lemma among_In (ks : list jsstring) (k : jsstring) : among ks k = true <-> In k ks.
Proof. apply SaveFacts.existsb_eqb_In. Qed.

Lemma among_cons (k0 : jsstring) (ks : list jsstring) (k : jsstring) :
  among (k0 :: ks) k = JS.eqb k k0 || among ks k.
Proof. reflexivity. Qed.

Lemma filter_all {A} (l : list A) : List.filter (fun _ => true) l = l.
Proof. induction l; simpl; congruence. Qed.

Lemma filter_twice {A} (f g : A -> bool) (l : list A) :
  List.filter f (List.filter g l) = List.filter (fun x => g x && f x) l.
Proof.
  induction l as [|x l IH]; simpl; [reflexivity |].
  destruct (g x); simpl; [destruct (f x) |]; rewrite IH; reflexivity.
Qed.

(** The loop of [pruneCache] over rows with distinct keys of live entries:
    every one of them leaves the store and the index, and nothing else
    does. *)
Lemma removeAll_live (fuel : nat) (rows : list PruneRow) : forall w,
  NoDup (List.map row_key rows) ->
  (forall r, In r rows -> live w (row_key r)) ->
  exists w',
    forEach rows (fun row => removeCacheEntry (S (S fuel)) (row_key row)) w = Done tt w'
    /\ now w' = now w
    /\ (forall k, entries w' !! k
                  = if among (List.map row_key rows) k then None else entries w !! k)
    /\ keys (currentIndex w')
       = List.filter (fun k => negb (among (List.map row_key rows) k))
                     (keys (currentIndex w)).
Proof.
  induction rows as [|r rows IH]; intros w Hnd Hlive.
  - exists w. simpl. rewrite filter_all. auto.
  - simpl in Hnd. apply NoDup_cons in Hnd as [Hr Hnd].
    destruct (Hlive r (or_introl eq_refl)) as (e & He & Hfresh).
    pose proof (CacheFacts.removeCacheEntry_live fuel _ _ _ He Hfresh) as Hrm.
    set (w1 := {| entries := delete (row_key r) (entries w);
                  cacheIndex :=
                    Some {| keys := List.filter (fun k => negb (JS.eqb k (row_key r)))
                                                (keys (currentIndex w));
                            totalSize := Z.max 0 (totalSize (currentIndex w) - estimateSize e);
                            lastPruned := lastPruned (currentIndex w) |};
                  now := now w |}) in *.
    destruct (IH w1 Hnd) as (w' & Hloop & Hnow & Hent & Hkeys).
    { intros r' Hr'. destruct (Hlive r' (or_intror Hr')) as (e' & He' & Hf').
      exists e'. split; [| exact Hf'].
      unfold w1. cbn [entries]. rewrite lookup_delete_ne; [exact He' |].
      intros Heq. apply Hr. rewrite Heq. apply list_elem_of_In, in_map. exact Hr'. }
    exists w'. split; [| split; [| split]].
    + cbn [forEach]. unfold bind. rewrite Hrm. exact Hloop.
    + rewrite Hnow. reflexivity.
    + intros k. rewrite Hent. cbn [List.map]. rewrite among_cons.
      unfold w1. cbn [entries]. unfold JS.eqb.
      destruct (decide (k = row_key r)) as [-> | Hne].
      * rewrite bool_decide_eq_true_2 by reflexivity. simpl.
        rewrite lookup_delete_eq. destruct (among _ _); reflexivity.
      * rewrite bool_decide_eq_false_2 by exact Hne. simpl.
        rewrite lookup_delete_ne by congruence. reflexivity.
    + rewrite Hkeys. unfold w1. cbn [currentIndex cacheIndex keys].
      rewrite filter_twice. apply filter_ext. intros k.
      cbn [List.map]. rewrite among_cons. rewrite negb_orb. reflexivity.
Qed.

End PruneFacts.

Module PruneMain.

Import Cache.

Lemma filter_perm {A} (f : A -> bool) (l l' : list A) :
  Permutation l l' -> Permutation (List.filter f l) (List.filter f l').
Proof.
  induction 1 as [| x l l' _ IH | x y l | l l' l'' _ IH1 _ IH2]; simpl.
  - reflexivity.
  - destruct (f x); [constructor |]; exact IH.
  - destruct (f x), (f y); try reflexivity. apply perm_swap.
  - etransitivity; eassumption.
Qed.

Lemma filter_none {A} (f : A -> bool) (l : list A) :
  (forall x, In x l -> f x = false) -> List.filter f l = [].
Proof.
  induction l as [|x l IH]; simpl; intros H; [reflexivity |].
  rewrite (H x (or_introl eq_refl)). apply IH. intros y Hy. apply H. right. exact Hy.
Qed.

Lemma filter_every {A} (f : A -> bool) (l : list A) :
  (forall x, In x l -> f x = true) -> List.filter f l = l.
Proof.
  induction l as [|x l IH]; simpl; intros H; [reflexivity |].
  rewrite (H x (or_introl eq_refl)). f_equal. apply IH. intros y Hy. apply H. right. exact Hy.
Qed.

(** What is left of a duplicate-free list [front ++ back] once the
    members of [front] are filtered out is [back]. *)
Lemma filter_front_out (l front back : list jsstring) :
  Permutation l (front ++ back) -> NoDup l ->
  Permutation (List.filter (fun k => negb (among front k)) l) back.
Proof.
  intros Hp Hnd.
  rewrite (filter_perm _ _ _ Hp), List.filter_app.
  assert (Hnd' : NoDup (front ++ back)) by (rewrite <- Hp; exact Hnd).
  apply NoDup_app in Hnd' as (_ & Hdisj & _).
  rewrite filter_none, filter_every; [reflexivity | |].
  - intros x Hx. apply negb_true_iff.
    destruct (among front x) eqn:Ha; [| reflexivity].
    apply PruneFacts.among_In in Ha. exfalso.
    apply (Hdisj x); apply list_elem_of_In; assumption.
  - intros x Hx. apply negb_false_iff. apply PruneFacts.among_In. exact Hx.
Qed.


(** The run of [pruneCache] on a consistent store of live entries, with
    the rows it removes made explicit. *)
Lemma pruneCache_run (fuel : nat) (w : World) :
  consistent w ->
  (forall k, In k (keys (currentIndex w)) -> live w k) ->
  Z.of_nat (length (keys (currentIndex w))) < 2 ^ 32 ->
  exists (front back : list PruneRow) (w1 : World),
    front ++ back = sortRows (collectRows (keys (currentIndex w)) w)
    /\ Z.of_nat (length front)
       = (Z.of_nat (length (keys (currentIndex w))) + 4) / 5
    /\ Z.of_nat (length front) = removeCount (Z.of_nat (length (keys (currentIndex w))))
    /\ Permutation (keys (currentIndex w)) (List.map row_key front ++ List.map row_key back)
    /\ now w1 = now w
    /\ (forall k, entries w1 !! k
                  = if among (List.map row_key front) k then None else entries w !! k)
    /\ keys (currentIndex w1)
       = List.filter (fun k => negb (among (List.map row_key front) k))
                     (keys (currentIndex w))
    /\ pruneCache (S (S fuel)) None w
       = Done tt {| entries := entries w1;
                    cacheIndex := Some {| keys := keys (currentIndex w1);
                                          totalSize := totalSize (currentIndex w1);
                                          lastPruned := now w1 |};
                    now := now w1 |}.
Proof.
  intros [Hnd Hkeys] Hlive Hlen.
  set (ks := keys (currentIndex w)) in *.
  set (rows := collectRows ks w).
  set (sorted := sortRows rows).
  assert (Hrk : List.map row_key rows = ks).
  { apply PruneFacts.collectRows_keys. intros k Hk. apply Hkeys. exact Hk. }
  assert (Hperm : Permutation sorted rows) by apply PruneFacts.sortRows_perm.
  assert (Hls : length sorted = length ks).
  { rewrite (Permutation_length Hperm), <- Hrk, length_map. reflexivity. }
  set (N := Z.of_nat (length ks)) in *.
  assert (Hrc : removeCount N = (N + 4) / 5).
  { apply Binary64Facts.removeCount_spec. unfold N. lia. }
  assert (Hrange : 0 <= (N + 4) / 5 <= N).
  { unfold N. Z.div_mod_to_equations. lia. }
  set (n := Z.to_nat ((N + 4) / 5)).
  assert (Hslice : sliceTo sorted (removeCount (Z.of_nat (length sorted))) = take n sorted).
  { unfold sliceTo, clampIndex. rewrite Hls. fold N. rewrite Hrc.
    destruct (Z.ltb_spec ((N + 4) / 5) 0); [lia |].
    rewrite Z.min_l by lia. reflexivity. }
  assert (Hsplit : take n sorted ++ drop n sorted = sorted) by apply firstn_skipn.
  assert (Hpk : Permutation ks (List.map row_key (take n sorted)
                                ++ List.map row_key (drop n sorted))).
  { rewrite <- map_app, Hsplit, <- Hrk. apply Permutation_map. symmetry. exact Hperm. }
  assert (Hndf : NoDup (List.map row_key (take n sorted))).
  { assert (Hall : NoDup (List.map row_key (take n sorted)
                          ++ List.map row_key (drop n sorted)))
      by (rewrite <- Hpk; exact Hnd).
    apply NoDup_app in Hall as (Hf & _ & _). exact Hf. }
  destruct (PruneFacts.removeAll_live fuel (take n sorted) w Hndf)
    as (w1 & Hloop & Hnow & Hent & Hk1).
  { intros r Hr. apply Hlive. eapply Permutation_in; [symmetry; exact Hpk |].
    apply in_or_app. left. apply in_map. exact Hr. }
  exists (take n sorted), (drop n sorted), w1.
  split; [exact Hsplit |].
  assert (Hlf : Z.of_nat (length (take n sorted)) = (N + 4) / 5).
  { rewrite length_take, Hls. unfold n. fold N. unfold N in *. lia. }
  split; [exact Hlf |]. split; [rewrite Hrc; exact Hlf |].
  split; [exact Hpk |]. split; [exact Hnow |]. split; [exact Hent |].
  split; [exact Hk1 |].
  unfold pruneCache. unfold bind at 1. rewrite CacheFacts.getCacheIndex_eq.
  unfold bind at 1. fold ks rows sorted. rewrite Hslice.
  unfold bind at 1. rewrite Hloop.
  unfold bind at 1. rewrite CacheFacts.getCacheIndex_eq.
  reflexivity.
Qed.

End PruneMain.

(** C2. On a store of N live entries that the index lists, [pruneCache]
    returns, having removed the ceiling of N * 0.2 entries; no removed
    entry is younger than one that stays; N less that many stay, in the
    store and in the index, which agree afterwards as before. *)
Theorem pruneCache_evicts_oldest_fifth (fuel : nat) (w : Cache.World) :
  consistent w ->
  (forall k, In k (keys (currentIndex w)) -> live w k) ->
  Z.of_nat (length (keys (currentIndex w))) < 2 ^ 32 ->
  exists removed w',
    Cache.pruneCache (S (S fuel)) None w = Cache.Done tt w'
    /\ evictsOldestFifth w removed w'
    /\ consistent w'.
Proof.
  intros Hcons Hlive Hlen.
  destruct (PruneMain.pruneCache_run fuel w Hcons Hlive Hlen)
    as (front & back & w1 & Hsplit & Hcount & Hrc & Hperm & Hnow & Hent & Hkeys & Hrun).
  destruct Hcons as [Hnd Hstored].
  set (removed := List.map Cache.row_key front) in *.
  assert (Hrest : Permutation
                    (List.filter (fun k => negb (among removed k)) (keys (currentIndex w)))
                    (List.map Cache.row_key back))
    by (apply PruneMain.filter_front_out; assumption).
  assert (Hlr : length removed = length front) by apply length_map.
  eexists removed, _. split; [exact Hrun |].
  assert (Hk' : keys (currentIndex
                        {| Cache.entries := Cache.entries w1;
                           Cache.cacheIndex :=
                             Some {| keys := keys (currentIndex w1);
                                     totalSize := totalSize (currentIndex w1);
                                     lastPruned := Cache.now w1 |};
                           Cache.now := Cache.now w1 |})
                = List.filter (fun k => negb (among removed k)) (keys (currentIndex w)))
    by exact Hkeys.
  split.
  - unfold evictsOldestFifth. rewrite Hk'. cbn [Cache.entries].
    split; [rewrite Hlr, Hcount; Z.div_mod_to_equations; lia |].
    split; [rewrite Hlr; exact Hrc |].
    split.
    { assert (Hall : NoDup (removed ++ List.map Cache.row_key back))
        by (rewrite <- Hperm; exact Hnd).
      apply NoDup_app in Hall as (Hf & _ & _). exact Hf. }
    split.
    { intros k Hk. eapply Permutation_in; [symmetry; exact Hperm |].
      apply in_or_app. left. exact Hk. }
    split; [exact Hent |]. split; [reflexivity |].
    split.
    { rewrite (Permutation_length Hrest), Hlr.
      pose proof (Permutation_length Hperm) as Hl.
      rewrite length_app in Hl. fold removed in Hl. rewrite Hlr in Hl. lia. }
    intros r k Hr Hk.
    apply in_map_iff in Hr as (a & <- & Ha).
    apply (Permutation_in _ Hrest) in Hk. apply in_map_iff in Hk as (b & <- & Hb).
    assert (Hsorted : StronglySorted older (front ++ back))
      by (rewrite Hsplit; apply PruneFacts.sortRows_sorted).
    assert (Hin : forall x, In x (front ++ back) ->
                  createdAtOf w (Cache.row_key x) = Some (Cache.row_createdAt x)).
    { intros x Hx. apply (PruneFacts.collectRows_createdAt (keys (currentIndex w))).
      eapply Permutation_in; [apply PruneFacts.sortRows_perm |].
      rewrite <- Hsplit. exact Hx. }
    exists (Cache.row_createdAt a), (Cache.row_createdAt b).
    split; [apply Hin, in_or_app; auto |].
    split; [apply Hin, in_or_app; auto |].
    exact (PruneFacts.sorted_prefix_older front back Hsorted a b Ha Hb).
  - unfold consistent. rewrite Hk'. cbn [Cache.entries]. split.
    + apply NoDup_ListNoDup, List.NoDup_filter, NoDup_ListNoDup. exact Hnd.
    + intros k. rewrite List.filter_In, Hent, Hstored.
      destruct (among removed k); simpl.
      * split; [intros [_ H]; discriminate | intros [x Hx]; discriminate].
      * tauto.
Qed.

Lemma storeOf_lookup (l : list CacheEntry) (k : jsstring) :
  is_Some (CacheExample.storeOf l !! k) <-> In k (List.map cacheKey l).
Proof.
  unfold CacheExample.storeOf. induction l as [|e l IH]; simpl.
  - rewrite lookup_empty. split; [intros [x Hx]; discriminate | contradiction].
  - destruct (decide (cacheKey e = k)) as [-> | Hne].
    + rewrite lookup_insert_eq. split; [auto | intros _; eexists; reflexivity].
    + rewrite lookup_insert_ne by exact Hne. rewrite IH. tauto.
Qed.

Lemma worldOf_consistent (l : list CacheEntry) (total t : Z) :
  NoDup (List.map cacheKey l) -> consistent (CacheExample.worldOf l total t).
Proof.
  intros Hnd. split; [exact Hnd |].
  intros k. simpl. symmetry. apply storeOf_lookup.
Qed.

Lemma fullWorld_premises :
  consistent CacheExample.fullWorld
  /\ (forall k, In k (keys (currentIndex CacheExample.fullWorld)) ->
        live CacheExample.fullWorld k)
  /\ Z.of_nat (length (keys (currentIndex CacheExample.fullWorld))) < 2 ^ 32.
Proof.
  split; [| split].
  - apply worldOf_consistent.
    apply (bool_decide_unpack (NoDup (List.map cacheKey CacheExample.five))).
    vm_compute. exact I.
  - simpl. intros k Hk.
    repeat destruct Hk as [<- | Hk]; try contradiction;
      (eexists; split; [vm_compute; reflexivity | vm_compute; discriminate]).
  - vm_compute. reflexivity.
Defined.

Lemma pruneCache_evicts_oldest_fifth_witness :
  exists removed w',
    Cache.pruneCache 2 None CacheExample.fullWorld = Cache.Done tt w'
    /\ evictsOldestFifth CacheExample.fullWorld removed w'
    /\ consistent w'.
Proof.
  apply (pruneCache_evicts_oldest_fifth 0 CacheExample.fullWorld).
  - exact (proj1 fullWorld_premises).
  - exact (proj1 (proj2 fullWorld_premises)).
  - exact (proj2 (proj2 fullWorld_premises)).
Defined.

(** On the five entries of [fullWorld] it is k1, the oldest, that goes. *)
Lemma pruneCache_example :
  match Cache.pruneCache 2 None CacheExample.fullWorld with
  | Cache.Done _ w' =>
      keys (currentIndex w') = [js "k3"; js "k5"; js "k2"; js "k4"]
      /\ Cache.entries w' !! js "k1" = None
      /\ lastPruned (currentIndex w') = Cache.now CacheExample.fullWorld
  | _ => False
  end.
Proof. vm_compute. repeat split. Qed.

(** What C2 does not cover: an entry among the oldest fifth that has
    expired. Its removal goes through [getCacheEntry] and never returns
    (see C1), and neither does the eviction. *)
Lemma pruneCache_expired_never_returns (fuel : nat) :
  Cache.pruneCache fuel None CacheExample.staleWorld = Cache.OutOfFuel.
Proof.
  unfold Cache.pruneCache. unfold Cache.bind at 1.
  rewrite CacheFacts.getCacheIndex_eq. unfold Cache.bind at 1.
  change (Cache.sliceTo _ _) with [ {| Cache.row_key := js "k53twj";
                                 Cache.row_createdAt := 1699913600000;
                                 Cache.row_size := Cache.estimateSize CacheExample.staleEntry |} ].
  unfold Cache.bind at 1. cbn [Cache.forEach Cache.row_key]. unfold Cache.bind at 1.
  assert (H : Cache.entries CacheExample.staleWorld !! js "k53twj"
              = Some CacheExample.staleEntry) by (vm_compute; reflexivity).
  rewrite (proj2 (CacheFacts.expired_never_returns _ _ _ H eq_refl fuel)).
  reflexivity.
Qed.

(** * Further properties of the cache store *)

Module CacheMoreFacts.

Import Cache.

(** X1. A read that returns has changed nothing: [getCacheEntry] answers
    null for a key that is not stored and the stored entry for a key whose
    entry has not expired, and in both cases the store, the index and the
    clock are as before. It never fails, and it never returns on an expired
    entry. *)
Theorem getCacheEntry_returns_unchanged (fuel : nat) (cacheKey : jsstring)
    (w w' : World) (r : option CacheEntry) :
  getCacheEntry fuel cacheKey w = Done r w' ->
  w' = w
  /\ r = entries w !! cacheKey
  /\ (forall e, r = Some e -> now w <= expiresAt e).
Proof.
  intros H. destruct fuel as [|fuel]; [discriminate H |].
  destruct (entries w !! cacheKey) as [e|] eqn:He.
  - destruct (Z.ltb_spec (expiresAt e) (now w)) as [Hexp | Hfresh].
    + rewrite (proj1 (CacheFacts.expired_never_returns _ _ _ He Hexp (S fuel))) in H.
      discriminate H.
    + rewrite (CacheFacts.getCacheEntry_fresh _ _ _ _ He Hfresh) in H.
      injection H as <- <-. repeat split. intros e' [= <-]. exact Hfresh.
  - rewrite (CacheFacts.getCacheEntry_absent _ _ _ He) in H.
    injection H as <- <-. repeat split. intros e' [=].
Qed.

Lemma getCacheEntry_returns_unchanged_witness :
  CacheExample.freshWorld = CacheExample.freshWorld
  /\ Some CacheExample.firstEntry
     = entries CacheExample.freshWorld !! js "k53twj"
  /\ (forall e, Some CacheExample.firstEntry = Some e ->
        now CacheExample.freshWorld <= expiresAt e).
Proof.
  apply (getCacheEntry_returns_unchanged 1 (js "k53twj") CacheExample.freshWorld).
  vm_compute. reflexivity.
Defined.

(** X2. An entry whose serialized size is over 102400 bytes is rejected:
    [saveCacheEntry] throws, with any fuel, and neither the store nor the
    index is written. *)
Theorem saveCacheEntry_rejects_oversized (fuel : nat) (entry : CacheEntry) (w : World) :
  CACHE_CONFIG.MAX_ENTRY_SIZE_BYTES < estimateSize entry ->
  exists message, saveCacheEntry fuel entry w = Failed message w.
Proof.
  intros H. unfold saveCacheEntry.
  destruct (Z.ltb_spec CACHE_CONFIG.MAX_ENTRY_SIZE_BYTES (estimateSize entry)); [| lia].
  eexists. reflexivity.
Qed.

Lemma saveCacheEntry_rejects_oversized_witness :
  exists message,
    saveCacheEntry 0 oversizedEntry CacheExample.freshWorld
    = Failed message CacheExample.freshWorld.
Proof.
  apply (saveCacheEntry_rejects_oversized 0 oversizedEntry CacheExample.freshWorld).
  vm_compute. reflexivity.
Defined.

(** X3. What is saved is served until it expires: after a save within the
    budget, a read of the entry's key at any time up to and including
    [expiresAt] returns the entry as it was saved. *)
Theorem save_then_read (fuel fuel' : nat) (entry : CacheEntry) (w : World) (t : Z) :
  estimateSize entry <= CACHE_CONFIG.MAX_ENTRY_SIZE_BYTES ->
  totalSize (currentIndex w) + estimateSize entry <= CACHE_CONFIG.MAX_STORAGE_BYTES ->
  t <= expiresAt entry ->
  exists w',
    saveCacheEntry fuel entry w = Done tt w'
    /\ getCacheEntry (S fuel') (cacheKey entry) (atTime t w')
       = Done (Some entry) (atTime t w').
Proof.
  intros Hsize Hbudget Ht. eexists. split.
  - apply SaveFacts.saveCacheEntry_within_budget; assumption.
  - apply CacheFacts.getCacheEntry_fresh; [| exact Ht].
    cbn [atTime entries]. apply lookup_insert_eq.
Qed.

Lemma save_then_read_witness :
  exists w',
    saveCacheEntry 0 CacheExample.secondEntry CacheExample.freshWorld = Done tt w'
    /\ getCacheEntry 1 (cacheKey CacheExample.secondEntry) (atTime 1700086405000 w')
       = Done (Some CacheExample.secondEntry) (atTime 1700086405000 w').
Proof.
  apply (save_then_read 0 0 CacheExample.secondEntry CacheExample.freshWorld
           1700086405000); vm_compute; discriminate.
Defined.


Lemma lookup_removeAll (ks : list jsstring) (m : gmap jsstring CacheEntry) (k : jsstring) :
  fold_right delete m ks !! k = if among ks k then None else m !! k.
Proof.
  induction ks as [|k0 ks IH]; [reflexivity |].
  cbn [fold_right]. rewrite PruneFacts.among_cons. unfold JS.eqb.
  destruct (decide (k = k0)) as [-> | Hne].
  - rewrite bool_decide_eq_true_2 by reflexivity. apply lookup_delete_eq.
  - rewrite bool_decide_eq_false_2 by exact Hne.
    rewrite lookup_delete_ne by congruence. exact IH.
Qed.

(** X4. Removing a key keeps the index in step with the store: on a
    consistent store whose entry for the key, if any, has not expired,
    [removeCacheEntry] returns, the key is gone from the store and from the
    index, every other key is untouched, and the total is lowered by the
    size of the removed entry, no further than zero. *)
Theorem removeCacheEntry_keeps_index (fuel : nat) (cacheKey : jsstring) (w : World) :
  consistent w ->
  (forall e, entries w !! cacheKey = Some e -> now w <= expiresAt e) ->
  exists w',
    removeCacheEntry (S (S fuel)) cacheKey w = Done tt w'
    /\ entries w' = delete cacheKey (entries w)
    /\ consistent w'
    /\ ~ In cacheKey (keys (currentIndex w'))
    /\ totalSize (currentIndex w')
       = Z.max 0 (totalSize (currentIndex w) - storedSize w cacheKey).
Proof.
  intros [Hnd Hkeys] Hfresh.
  assert (Hrun : removeCacheEntry (S (S fuel)) cacheKey w
                 = Done tt
                     {| entries := delete cacheKey (entries w);
                        cacheIndex :=
                          Some {| keys := List.filter (fun k => negb (JS.eqb k cacheKey))
                                                      (keys (currentIndex w));
                                  totalSize := Z.max 0 (totalSize (currentIndex w)
                                                        - storedSize w cacheKey);
                                  lastPruned := lastPruned (currentIndex w) |};
                        now := now w |}).
  { unfold storedSize. destruct (entries w !! cacheKey) as [e|] eqn:He.
    - apply CacheFacts.removeCacheEntry_live; [exact He | apply Hfresh; reflexivity].
    - change (removeCacheEntry (S (S fuel)) cacheKey w)
        with (bind (getCacheEntry (S fuel) cacheKey)
                (fun entry =>
                   let entrySize := match entry with
                                    | Some e => estimateSize e | None => 0 end in
                   let* _ := storage_remove cacheKey in
                   let* index := getCacheIndex in
                   saveCacheIndex
                     {| keys := List.filter (fun k => negb (JS.eqb k cacheKey)) (keys index);
                        totalSize := Z.max 0 (totalSize index - entrySize);
                        lastPruned := lastPruned index |}) w).
      unfold bind at 1. rewrite (CacheFacts.getCacheEntry_absent _ _ _ He).
      unfold bind at 1, storage_remove. unfold bind.
      rewrite CacheFacts.getCacheIndex_eq. reflexivity. }
  eexists. split; [exact Hrun |]. split; [reflexivity |].
  assert (Hin : forall k, In k (List.filter (fun k => negb (JS.eqb k cacheKey))
                                            (keys (currentIndex w)))
                          <-> In k (keys (currentIndex w)) /\ k <> cacheKey).
  { intros k. rewrite List.filter_In. unfold JS.eqb.
    destruct (decide (k = cacheKey)) as [-> | Hne].
    - rewrite bool_decide_eq_true_2 by reflexivity. simpl. intuition congruence.
    - rewrite bool_decide_eq_false_2 by exact Hne. simpl. intuition congruence. }
  split; [| split; [| reflexivity]].
  - split.
    + cbn [currentIndex cacheIndex keys].
      apply NoDup_ListNoDup, List.NoDup_filter, NoDup_ListNoDup. exact Hnd.
    + intros k. cbn [currentIndex cacheIndex keys entries]. rewrite Hin, Hkeys.
      destruct (decide (k = cacheKey)) as [-> | Hne].
      * rewrite lookup_delete_eq. split; [intros [_ H]; congruence | intros [x Hx]; discriminate].
      * rewrite lookup_delete_ne by congruence. tauto.
  - cbn [currentIndex cacheIndex keys]. rewrite Hin. tauto.
Qed.

Lemma removeCacheEntry_keeps_index_witness :
  exists w',
    removeCacheEntry 2 (js "k1") CacheExample.fullWorld = Done tt w'
    /\ entries w' = delete (js "k1") (entries CacheExample.fullWorld)
    /\ consistent w'
    /\ ~ In (js "k1") (keys (currentIndex w'))
    /\ totalSize (currentIndex w')
       = Z.max 0 (totalSize (currentIndex CacheExample.fullWorld)
                  - storedSize CacheExample.fullWorld (js "k1")).
Proof.
  apply (removeCacheEntry_keeps_index 0 (js "k1") CacheExample.fullWorld).
  - exact (proj1 fullWorld_premises).
  - intros e He. vm_compute in He. injection He as <-. vm_compute. discriminate.
Defined.

(** X5. [clearCache] removes the index and every entry that the index
    lists, and nothing else: an entry that the index does not list stays.
    On a consistent store nothing is left. *)
Theorem clearCache_removes_indexed (w : World) :
  exists w',
    CacheAdmin.clearCache w = Done tt w'
    /\ cacheIndex w' = None
    /\ (forall k, In k (keys (currentIndex w)) -> entries w' !! k = None)
    /\ (forall k, ~ In k (keys (currentIndex w)) -> entries w' !! k = entries w !! k)
    /\ (consistent w -> entries w' = ∅)
    /\ keys (currentIndex w') = [] /\ totalSize (currentIndex w') = 0.
Proof.
  eexists. split.
  { unfold CacheAdmin.clearCache, bind. rewrite CacheFacts.getCacheIndex_eq.
    reflexivity. }
  cbn [entries cacheIndex]. split; [reflexivity |].
  assert (H1 : forall k, In k (keys (currentIndex w)) ->
               fold_right delete (entries w) (keys (currentIndex w)) !! k = None).
  { intros k Hk. rewrite lookup_removeAll.
    apply PruneFacts.among_In in Hk. rewrite Hk. reflexivity. }
  assert (H2 : forall k, ~ In k (keys (currentIndex w)) ->
               fold_right delete (entries w) (keys (currentIndex w)) !! k = entries w !! k).
  { intros k Hk. rewrite lookup_removeAll.
    destruct (among (keys (currentIndex w)) k) eqn:Ha; [| reflexivity].
    apply PruneFacts.among_In in Ha. contradiction. }
  split; [exact H1 |]. split; [exact H2 |]. split; [| split; reflexivity].
  intros [_ Hkeys]. apply map_eq. intros k. rewrite lookup_empty.
  destruct (entries w !! k) as [e|] eqn:He.
  - apply H1. apply Hkeys. eexists. exact He.
  - rewrite H2; [exact He |]. intros Hin. apply Hkeys in Hin as [x Hx]. congruence.
Qed.

End CacheMoreFacts.

Module CacheAdminFacts.

Import Cache.

(** A read that returns leaves the world as it was. *)
Lemma getCacheEntry_Done_inv (fuel : nat) (cacheKey : jsstring) (w w' : World)
    (r : option CacheEntry) :
  getCacheEntry fuel cacheKey w = Done r w' ->
  w' = w /\ r = entries w !! cacheKey
  /\ (forall e, entries w !! cacheKey = Some e -> now w <= expiresAt e).
Proof.
  intros H. destruct fuel as [|fuel]; [discriminate H |].
  destruct (entries w !! cacheKey) as [e|] eqn:He.
  - destruct (Z.ltb_spec (expiresAt e) (now w)) as [Hexp | Hfresh].
    + rewrite (proj1 (CacheFacts.expired_never_returns _ _ _ He Hexp (S fuel))) in H.
      discriminate H.
    + rewrite (CacheFacts.getCacheEntry_fresh _ _ _ _ He Hfresh) in H.
      injection H as <- <-. repeat split. intros e' [= <-]. exact Hfresh.
  - rewrite (CacheFacts.getCacheEntry_absent _ _ _ He) in H.
    injection H as <- <-. repeat split. intros e' [=].
Qed.

(** A read never fails. *)
Lemma getCacheEntry_not_Failed (fuel : nat) (cacheKey : jsstring) (w w' : World)
    (message : jsstring) :
  getCacheEntry fuel cacheKey w <> Failed message w'.
Proof.
  destruct fuel as [|fuel]; [discriminate |].
  destruct (entries w !! cacheKey) as [e|] eqn:He.
  - destruct (Z.ltb_spec (expiresAt e) (now w)) as [Hexp | Hfresh].
    + rewrite (proj1 (CacheFacts.expired_never_returns _ _ _ He Hexp (S fuel))).
      discriminate.
    + rewrite (CacheFacts.getCacheEntry_fresh _ _ _ _ He Hfresh). discriminate.
  - rewrite (CacheFacts.getCacheEntry_absent _ _ _ He). discriminate.
Qed.

(** A read of a key whose entry, if any, has not expired. *)
Lemma getCacheEntry_unexpired (fuel : nat) (cacheKey : jsstring) (w : World) :
  (forall e, entries w !! cacheKey = Some e -> now w <= expiresAt e) ->
  getCacheEntry (S fuel) cacheKey w = Done (entries w !! cacheKey) w.
Proof.
  intros H. destruct (entries w !! cacheKey) as [e|] eqn:He.
  - apply CacheFacts.getCacheEntry_fresh; [exact He | apply H; reflexivity].
  - apply CacheFacts.getCacheEntry_absent. exact He.
Qed.

Lemma forEach_map {A B} (f : A -> B) (body : B -> C unit) (l : list A) (w : World) :
  forEach (List.map f l) body w = forEach l (fun x => body (f x)) w.
Proof.
  revert w. induction l as [|x l IH]; intros w; [reflexivity |].
  cbn [List.map forEach]. unfold bind. destruct (body (f x) w); auto.
Qed.

Lemma map_rowOf (ks : list jsstring) : List.map row_key (List.map rowOf ks) = ks.
Proof. induction ks as [|k ks IH]; simpl; congruence. Qed.

Lemma twoThreads_premises : consistent twoThreads /\ noneExpired twoThreads.
Proof.
  split.
  - apply worldOf_consistent.
    apply (bool_decide_unpack
             (NoDup (List.map cacheKey [CacheExample.firstEntry; otherThread]))).
    vm_compute. exact I.
  - intros k e Hk He. simpl in Hk.
    repeat destruct Hk as [<- | Hk]; try contradiction;
      vm_compute in He; injection He as <-; vm_compute; discriminate.
Qed.

(** The first loop of [clearCacheForUrl] on unexpired entries: the keys
    whose entry is for the url, in the order of the index. *)
Lemma keysForUrl_unexpired (fuel : nat) (url : jsstring) (w : World) (ks : list jsstring) :
  (forall k e, In k ks -> entries w !! k = Some e -> now w <= expiresAt e) ->
  CacheAdmin.keysForUrl (S fuel) url ks w = Done (List.filter (storedFor w url) ks) w.
Proof.
  induction ks as [|k ks IH]; intros H; [reflexivity |].
  cbn [CacheAdmin.keysForUrl]. unfold bind at 1.
  rewrite getCacheEntry_unexpired by (intros e He; apply (H k e); [left; reflexivity | exact He]).
  unfold bind at 1. rewrite IH by (intros k' e Hk' He; apply (H k' e); [right |]; assumption).
  cbn [List.filter]. unfold ret.
  replace (storedFor w url k)
    with (match entries w !! k with Some e => JS.eqb (threadUrl e) url | None => false end)
    by reflexivity.
  destruct (entries w !! k) as [e|]; [destruct (JS.eqb (threadUrl e) url) |]; reflexivity.
Qed.

(** X6. [clearCacheForUrl] on a consistent store without expired entries
    removes the entries whose [threadUrl] is the given url, character for
    character, and no others; the index stays consistent. *)
Theorem clearCacheForUrl_removes_matching (fuel : nat) (url : jsstring) (w : World) :
  consistent w -> noneExpired w ->
  exists w',
    CacheAdmin.clearCacheForUrl (S (S fuel)) url w = Done tt w'
    /\ (forall k, entries w' !! k
                  = match entries w !! k with
                    | Some e => if JS.eqb (threadUrl e) url then None else Some e
                    | None => None
                    end)
    /\ consistent w'.
Proof.
  intros [Hnd Hkeys] Hlive.
  set (removed := List.filter (storedFor w url) (keys (currentIndex w))).
  assert (Hin : forall k, In k removed <-> In k (keys (currentIndex w))
                                           /\ storedFor w url k = true)
    by (intros k; apply List.filter_In).
  destruct (PruneFacts.removeAll_live fuel (List.map rowOf removed) w)
    as (w' & Hloop & Hnow & Hent & Hk').
  { rewrite map_rowOf. apply NoDup_ListNoDup, List.NoDup_filter, NoDup_ListNoDup, Hnd. }
  { intros r Hr. apply in_map_iff in Hr as (k & <- & Hk). cbn [rowOf row_key].
    apply Hin in Hk as [Hk Hm]. apply Hkeys in Hk as [e He].
    exists e. split; [exact He |]. apply (Hlive k e); [apply Hkeys; eexists |]; exact He. }
  rewrite map_rowOf in Hent, Hk'.
  exists w'. split; [| split].
  - unfold CacheAdmin.clearCacheForUrl. unfold bind at 1.
    rewrite CacheFacts.getCacheIndex_eq. unfold bind at 1.
    rewrite keysForUrl_unexpired by exact Hlive. fold removed.
    rewrite <- Hloop, forEach_map. reflexivity.
  - intros k. rewrite Hent.
    destruct (among removed k) eqn:Ha.
    + apply PruneFacts.among_In, Hin in Ha as [_ Hm]. unfold storedFor in Hm.
      destruct (entries w !! k) as [e|]; [rewrite Hm |]; reflexivity.
    + destruct (entries w !! k) as [e|] eqn:He; [| reflexivity].
      destruct (JS.eqb (threadUrl e) url) eqn:Hm; [| reflexivity].
      assert (Hk : In k removed).
      { apply Hin. split; [apply Hkeys; eexists; exact He |].
        unfold storedFor. rewrite He. exact Hm. }
      apply PruneFacts.among_In in Hk. congruence.
  - split.
    + rewrite Hk'. apply NoDup_ListNoDup, List.NoDup_filter, NoDup_ListNoDup, Hnd.
    + intros k. rewrite Hk', List.filter_In, Hent, Hkeys.
      destruct (among removed k); simpl.
      * split; [intros [_ H]; discriminate | intros [x Hx]; discriminate].
      * tauto.
Qed.

Lemma clearCacheForUrl_removes_matching_witness :
  exists w',
    CacheAdmin.clearCacheForUrl 2 (js "https://x.com/user/status/1") twoThreads = Done tt w'
    /\ (forall k, entries w' !! k
                  = match entries twoThreads !! k with
                    | Some e => if JS.eqb (threadUrl e) (js "https://x.com/user/status/1")
                                then None else Some e
                    | None => None
                    end)
    /\ consistent w'.
Proof.
  apply (clearCacheForUrl_removes_matching 0 (js "https://x.com/user/status/1") twoThreads).
  - exact (proj1 twoThreads_premises).
  - exact (proj2 twoThreads_premises).
Defined.

End CacheAdminFacts.

Module CacheServiceFacts.

Import Cache.

(** The loop of [getCacheStats] on unexpired entries: the least of the
    start value and the [createdAt] of the listed entries. *)
Lemma oldestLoop_unexpired (fuel : nat) (w : World) (ks : list jsstring) (acc : Z) :
  (forall k e, In k ks -> entries w !! k = Some e -> now w <= expiresAt e) ->
  exists m,
    CacheAdmin.oldestLoop (S fuel) ks acc w = Done m w
    /\ m <= acc
    /\ (forall k e, In k ks -> entries w !! k = Some e -> m <= createdAt e)
    /\ (m = acc \/ exists k e, In k ks /\ entries w !! k = Some e /\ m = createdAt e).
Proof.
  revert acc. induction ks as [|k ks IH]; intros acc H.
  - exists acc. repeat split; [lia | intros k e [] | left; reflexivity].
  - cbn [CacheAdmin.oldestLoop]. unfold bind at 1.
    rewrite CacheAdminFacts.getCacheEntry_unexpired
      by (intros e He; apply (H k e); [left; reflexivity | exact He]).
    set (acc' := match entries w !! k with
                 | Some e => if createdAt e <? acc then createdAt e else acc
                 | None => acc
                 end).
    destruct (IH acc') as (m & Hrun & Hle & Hall & Hatt).
    { intros k' e Hk' He. apply (H k' e); [right |]; assumption. }
    exists m. split; [exact Hrun |].
    assert (Hacc' : acc' <= acc
                    /\ (forall e, entries w !! k = Some e -> acc' <= createdAt e)
                    /\ (acc' = acc \/ exists e, entries w !! k = Some e
                                                /\ acc' = createdAt e)).
    { subst acc'. destruct (entries w !! k) as [e|].
      - destruct (Z.ltb_spec (createdAt e) acc).
        + repeat split; [lia | intros e' [= <-]; lia | right; eauto].
        + repeat split; [lia | intros e' [= <-]; lia | left; reflexivity].
      - repeat split; [lia | intros e' [=] | left; reflexivity]. }
    destruct Hacc' as (H1 & H2 & H3).
    split; [lia |]. split.
    + intros k' e [<- | Hk'] He; [specialize (H2 e He); lia | eauto].
    + destruct Hatt as [-> | (k' & e & Hk' & He & ->)].
      * destruct H3 as [-> | (e & He & ->)]; [left; reflexivity |].
        right. exists k, e. repeat split; [left; reflexivity | exact He].
      * right. exists k', e. repeat split; [right; exact Hk' | exact He].
Qed.

(** X7. [getCacheStats] on a store without expired entries changes nothing
    and reports the number of keys of the index, its total, and an age that
    is never negative, bounds the age of every listed entry, and is either 0
    or the age of one of them. *)
Theorem getCacheStats_oldest (fuel : nat) (w : World) :
  noneExpired w ->
  exists stats,
    CacheAdmin.getCacheStats (S fuel) w = Done stats w
    /\ CacheAdmin.entryCount stats = Z.of_nat (length (keys (currentIndex w)))
    /\ CacheAdmin.totalSizeBytes stats = totalSize (currentIndex w)
    /\ 0 <= CacheAdmin.oldestEntryAge stats
    /\ (forall k e, In k (keys (currentIndex w)) -> entries w !! k = Some e ->
                    now w - createdAt e <= CacheAdmin.oldestEntryAge stats)
    /\ (CacheAdmin.oldestEntryAge stats = 0
        \/ exists k e, In k (keys (currentIndex w)) /\ entries w !! k = Some e
                       /\ CacheAdmin.oldestEntryAge stats = now w - createdAt e).
Proof.
  intros Hlive.
  destruct (oldestLoop_unexpired fuel w (keys (currentIndex w)) (now w) Hlive)
    as (m & Hrun & Hle & Hall & Hatt).
  eexists. split.
  - unfold CacheAdmin.getCacheStats. unfold bind at 1.
    rewrite CacheFacts.getCacheIndex_eq. unfold bind at 1. unfold Date_now at 1.
    unfold bind at 1. rewrite Hrun. reflexivity.
  - cbn [CacheAdmin.entryCount CacheAdmin.totalSizeBytes CacheAdmin.oldestEntryAge].
    split; [reflexivity |]. split; [reflexivity |].
    destruct (keys (currentIndex w)) as [|k0 ks] eqn:Hks.
    + simpl. split; [lia |]. split; [intros k e [] | left; reflexivity].
    + replace (0 <? Z.of_nat (length (k0 :: ks))) with true
        by (symmetry; apply Z.ltb_lt; simpl length; lia).
      split; [lia |]. split.
      * intros k e Hk He. specialize (Hall k e Hk He). lia.
      * destruct Hatt as [-> | (k & e & Hk & He & ->)]; [left; lia |].
        right. exists k, e. repeat split; assumption.
Qed.

Lemma getCacheStats_oldest_witness :
  exists stats,
    CacheAdmin.getCacheStats 1 twoThreads = Done stats twoThreads
    /\ CacheAdmin.entryCount stats = Z.of_nat (length (keys (currentIndex twoThreads)))
    /\ CacheAdmin.totalSizeBytes stats = totalSize (currentIndex twoThreads)
    /\ 0 <= CacheAdmin.oldestEntryAge stats
    /\ (forall k e, In k (keys (currentIndex twoThreads)) ->
                    entries twoThreads !! k = Some e ->
                    now twoThreads - createdAt e <= CacheAdmin.oldestEntryAge stats)
    /\ (CacheAdmin.oldestEntryAge stats = 0
        \/ exists k e, In k (keys (currentIndex twoThreads))
                       /\ entries twoThreads !! k = Some e
                       /\ CacheAdmin.oldestEntryAge stats = now twoThreads - createdAt e).
Proof.
  apply (getCacheStats_oldest 0 twoThreads). exact (proj2 CacheAdminFacts.twoThreads_premises).
Defined.

(** The loop of [pruneExpiredEntries], when it returns, found no expired
    entry and changed nothing. *)
Lemma readAll_Done_inv (fuel : nat) (ks : list jsstring) (w w' : World) :
  forEach ks (fun cacheKey => let* _ := getCacheEntry fuel cacheKey in ret tt) w
  = Done tt w' ->
  w' = w /\ forall k e, In k ks -> entries w !! k = Some e -> now w <= expiresAt e.
Proof.
  induction ks as [|k ks IH]; intros H.
  - injection H as <-. split; [reflexivity | intros k e []].
  - cbn [forEach] in H. unfold bind at 1 2 in H.
    destruct (getCacheEntry fuel k w) as [r w1 | message w1 |] eqn:Hget;
      try discriminate H.
    apply CacheAdminFacts.getCacheEntry_Done_inv in Hget as (-> & _ & Hk).
    unfold ret at 1 in H. destruct (IH H) as [-> Hrest].
    split; [reflexivity |]. intros k' e [<- | Hk'] He; eauto.
Qed.

(** X8. [pruneExpiredEntries] removes nothing: when it returns, no entry
    that the index lists had expired, and all it changed is [lastPruned]. *)
Theorem pruneExpiredEntries_only_stamps (fuel : nat) (w w' : World) :
  CacheService.pruneExpiredEntries fuel w = Done tt w' ->
  noneExpired w /\ w' = stamped w.
Proof.
  unfold CacheService.pruneExpiredEntries. unfold bind at 1.
  rewrite CacheFacts.getCacheIndex_eq. unfold bind at 1, Date_now at 1.
  unfold bind at 1.
  destruct (forEach _ _ w) as [[] w1 | message w1 |] eqn:Hloop; try discriminate.
  apply readAll_Done_inv in Hloop as [-> Hlive].
  unfold bind at 1. rewrite CacheFacts.getCacheIndex_eq.
  unfold saveCacheIndex. intros [= <-]. split; [exact Hlive | reflexivity].
Qed.

Lemma pruneExpiredEntries_only_stamps_witness :
  noneExpired twoThreads /\ stamped twoThreads = stamped twoThreads.
Proof.
  apply (pruneExpiredEntries_only_stamps 1 twoThreads (stamped twoThreads)).
  vm_compute. reflexivity.
Defined.

(** X9. While the total of the index is within the budget,
    [checkAndPruneCache] frees nothing: when it returns, the store, the keys
    and the total are as before. *)
Theorem checkAndPruneCache_within_budget (fuel : nat) (w w' : World) :
  totalSize (currentIndex w) <= CACHE_CONFIG.MAX_STORAGE_BYTES ->
  CacheService.checkAndPruneCache fuel w = Done tt w' ->
  entries w' = entries w
  /\ keys (currentIndex w') = keys (currentIndex w)
  /\ totalSize (currentIndex w') = totalSize (currentIndex w).
Proof.
  intros Hbudget. unfold CacheService.checkAndPruneCache. unfold bind at 1.
  rewrite CacheFacts.getCacheIndex_eq.
  destruct (Z.ltb_spec CACHE_CONFIG.MAX_STORAGE_BYTES (totalSize (currentIndex w)));
    [lia |].
  unfold bind at 1, Date_now at 1.
  destruct (_ <? _).
  - unfold CacheService.pruneExpiredEntries. unfold bind at 1.
    rewrite CacheFacts.getCacheIndex_eq. unfold bind at 1, Date_now at 1.
    unfold bind at 1.
    destruct (forEach _ _ w) as [[] w1 | message w1 |] eqn:Hloop; try discriminate.
    apply readAll_Done_inv in Hloop as [-> _].
    unfold bind at 1. rewrite CacheFacts.getCacheIndex_eq.
    unfold saveCacheIndex. intros [= <-]. repeat split.
  - intros [= <-]. repeat split.
Qed.

Lemma checkAndPruneCache_within_budget_witness :
  entries (stamped twoThreads) = entries twoThreads
  /\ keys (currentIndex (stamped twoThreads)) = keys (currentIndex twoThreads)
  /\ totalSize (currentIndex (stamped twoThreads)) = totalSize (currentIndex twoThreads).
Proof.
  apply (checkAndPruneCache_within_budget 1 twoThreads (stamped twoThreads)).
  - vm_compute. discriminate.
  - vm_compute. reflexivity.
Defined.

(** X10. What [cacheAnalysis] stores, [getCachedAnalysis] serves for the
    whole time to live, for the url it was stored under and for every url
    and tone with the same cache key. *)
Theorem cacheAnalysis_then_getCachedAnalysis (fuel fuel' : nat)
    (url url' tone tone' : jsstring) (suggestions : list AISuggestion)
    (threadSummary key : jsstring) (ttlHours t : Z) (w : World) :
  Storage.generateCacheKey url tone = Some key ->
  Storage.generateCacheKey url' tone' = Some key ->
  estimateSize (analysisEntry key url tone suggestions threadSummary (now w) ttlHours)
    <= CACHE_CONFIG.MAX_ENTRY_SIZE_BYTES ->
  totalSize (currentIndex w)
    + estimateSize (analysisEntry key url tone suggestions threadSummary (now w) ttlHours)
    <= CACHE_CONFIG.MAX_STORAGE_BYTES ->
  t <= now w + ttlHours * 60 * 60 * 1000 ->
  exists save read w',
    CacheService.cacheAnalysis fuel url tone suggestions threadSummary ttlHours = Some save
    /\ save w = Done tt w'
    /\ CacheService.getCachedAnalysis (S fuel') url' tone' = Some read
    /\ read (atTime t w')
       = Done (Some (analysisEntry key url tone suggestions threadSummary (now w) ttlHours))
           (atTime t w').
Proof.
  intros Hkey Hkey' Hsize Hbudget Ht.
  unfold CacheService.cacheAnalysis, CacheService.getCachedAnalysis.
  rewrite Hkey, Hkey'. do 3 eexists. split; [reflexivity |]. split.
  - unfold bind at 1, Date_now at 1.
    apply SaveFacts.saveCacheEntry_within_budget; assumption.
  - split; [reflexivity |].
    apply CacheFacts.getCacheEntry_fresh; [| exact Ht].
    cbn [atTime entries]. apply lookup_insert_eq.
Qed.

Lemma cacheAnalysis_then_getCachedAnalysis_witness :
  exists save read w',
    CacheService.cacheAnalysis 0
      (js "https://reddit.com/r/test/comments/123?utm_source=share#top") (js "friendly")
      [] (js "A thread about tests") 24 = Some save
    /\ save twoThreads = Done tt w'
    /\ CacheService.getCachedAnalysis 1
         (js "https://reddit.com/r/test/comments/123") (js "friendly") = Some read
    /\ read (atTime 1700086405000 w')
       = Done (Some (analysisEntry (js "k53twj")
                       (js "https://reddit.com/r/test/comments/123?utm_source=share#top")
                       (js "friendly") [] (js "A thread about tests")
                       (now twoThreads) 24))
           (atTime 1700086405000 w').
Proof.
  apply (cacheAnalysis_then_getCachedAnalysis 0 0
           (js "https://reddit.com/r/test/comments/123?utm_source=share#top")
           (js "https://reddit.com/r/test/comments/123") (js "friendly") (js "friendly")
           [] (js "A thread about tests") (js "k53twj") 24 1700086405000 twoThreads).
  - vm_compute. reflexivity.
  - vm_compute. reflexivity.
  - vm_compute. discriminate.
  - vm_compute. discriminate.
  - vm_compute. discriminate.
Defined.

End CacheServiceFacts.

(** ** More on the adapters *)

Module PatternFacts.

Import RegExp.

Lemma heads_spec r s :
  Matches r s ->
  exists p fin, In (p, fin) (heads r)
                /\ (if fin : bool then s = p else exists t, s = p ++ t).
Proof.
  induction 1 as [ | c | c d Hd | r1 r2 s1 s2 H1 IH1 H2 IH2 | r1 r2 s H IH
                 | r1 r2 s H IH | r s H IH | r s1 s2 H1 IH1 H2 IH2 ];
    cbn [heads].
  - exists [], true. split; [left; reflexivity | reflexivity].
  - exists [c], true. split; [left; reflexivity | reflexivity].
  - exists [], false. split; [left; reflexivity | exists [d]; reflexivity].
  - destruct IH1 as (p1 & f1 & Hin1 & Hs1), IH2 as (p2 & f2 & Hin2 & Hs2).
    destruct f1.
    + subst s1. exists (p1 ++ p2), f2. split.
      * apply in_flat_map. exists (p1, true). split; [exact Hin1 |].
        cbn [snd fst]. apply in_map_iff. exists (p2, f2). auto.
      * destruct f2; [congruence |]. destruct Hs2 as [t ->]. exists t.
        apply List.app_assoc.
    + destruct Hs1 as [t ->]. exists p1, false. split.
      * apply in_flat_map. exists (p1, false). split; [exact Hin1 | left; reflexivity].
      * exists (t ++ s2). symmetry. apply List.app_assoc.
  - destruct IH as (p & f & Hin & Hs). exists p, f. split; [| exact Hs].
    apply in_or_app. left; exact Hin.
  - destruct IH as (p & f & Hin & Hs). exists p, f. split; [| exact Hs].
    apply in_or_app. right; exact Hin.
  - destruct IH as (p & f & Hin & Hs). exists p, false. split.
    + apply in_map_iff. exists (p, f). auto.
    + destruct f; [exists []; rewrite app_nil_r; exact Hs | exact Hs].
  - destruct IH1 as (p & f & Hin & Hs). exists p, false. split.
    + apply in_map_iff. exists (p, f). auto.
    + destruct f; [subst s1; eauto |]. destruct Hs as [t ->].
      exists (t ++ s2). symmetry. apply List.app_assoc.
Qed.

Lemma startsWith_app (p t : jsstring) : startsWith (p ++ t) p = true.
Proof.
  induction p as [|c p IH]; [destruct t; reflexivity |].
  simpl. rewrite Z.eqb_refl. exact IH.
Qed.

Lemma startsWith_both (u p q : jsstring) :
  startsWith u p = true -> startsWith u q = true ->
  startsWith p q || startsWith q p = true.
Proof.
  revert p q. induction u as [|d u IH]; intros p q Hp Hq.
  - destruct p; [| discriminate Hp]. destruct q; reflexivity.
  - destruct p as [|c p]; [destruct q; reflexivity |].
    destruct q as [|c' q]; [reflexivity |].
    simpl in Hp, Hq. apply andb_true_iff in Hp as [Hc Hp], Hq as [Hc' Hq].
    apply Z.eqb_eq in Hc, Hc'. subst c c'. simpl. rewrite Z.eqb_refl. simpl.
    apply IH; assumption.
Qed.

(** A url that an adapter can handle starts with one of the literal starts
    of its patterns. *)
Lemma canHandle_prefix patterns url :
  BasePlatformAdapter.canHandle patterns url = true ->
  exists p, In p (prefixesOf patterns) /\ startsWith url p = true.
Proof.
  intros H. apply canHandle_spec in H as (r & s & q & Hin & -> & Hm).
  apply heads_spec in Hm as (p & fin & Hp & Hs).
  exists p. split.
  - apply in_flat_map. exists r. split; [exact Hin |].
    apply in_map_iff. exists (p, fin). auto.
  - destruct fin.
    + subst s. apply startsWith_app.
    + destruct Hs as [t ->]. rewrite <- List.app_assoc. apply startsWith_app.
Qed.

Lemma no_clash patterns1 patterns2 url :
  clash (prefixesOf patterns1) (prefixesOf patterns2) = false ->
  BasePlatformAdapter.canHandle patterns1 url
  && BasePlatformAdapter.canHandle patterns2 url = false.
Proof.
  intros Hc. apply not_true_is_false. intros H.
  apply andb_true_iff in H as [H1 H2].
  apply canHandle_prefix in H1 as (p & Hp & Hup), H2 as (q & Hq & Huq).
  assert (clash (prefixesOf patterns1) (prefixesOf patterns2) = true); [| congruence].
  apply existsb_exists. exists p. split; [exact Hp |].
  apply existsb_exists. exists q. split; [exact Hq |].
  apply (startsWith_both url); assumption.
Qed.

End PatternFacts.

(** X11. [canHandle] looks at the start of the url only: what follows a
    url that an adapter handles never changes the answer. *)
Theorem canHandle_any_suffix (patterns : list RegExp.regex) (url suffix : jsstring) :
  BasePlatformAdapter.canHandle patterns url = true ->
  BasePlatformAdapter.canHandle patterns (url ++ suffix) = true.
Proof.
  intros H. apply canHandle_spec in H as (r & p & q & Hin & -> & Hm).
  apply canHandle_spec. exists r, p, (q ++ suffix).
  split; [exact Hin |]. split; [symmetry; apply List.app_assoc | exact Hm].
Qed.

Lemma canHandle_any_suffix_witness :
  BasePlatformAdapter.canHandle RedditAdapter.URL_PATTERNS
    (js "https://old.reddit.com/r/test/comments/" ++ js "abc123/title/?sort=new#top")
  = true.
Proof.
  apply (canHandle_any_suffix RedditAdapter.URL_PATTERNS
           (js "https://old.reddit.com/r/test/comments/")
           (js "abc123/title/?sort=new#top")).
  vm_compute. reflexivity.
Defined.

(** X12. No url is handled by two of the three adapters. *)
Theorem adapters_exclusive (url : jsstring) :
  RedditAdapter.canHandle url && TwitterAdapter.canHandle url = false
  /\ RedditAdapter.canHandle url && FacebookAdapter.canHandle url = false
  /\ TwitterAdapter.canHandle url && FacebookAdapter.canHandle url = false.
Proof.
  unfold RedditAdapter.canHandle, TwitterAdapter.canHandle, FacebookAdapter.canHandle.
  repeat split; apply PatternFacts.no_clash; vm_compute; reflexivity.
Qed.

Section FactoryFacts.

Variable generateCommentId : nat -> jsstring.
Variable extractPostTitle extractPostBody : Document -> jsstring.
Variable isEmoji isMetadataText : jsstring -> bool.

Local Notation "'reddit'" :=
  (AdapterFactory.redditAdapter generateCommentId extractPostTitle extractPostBody).
Local Notation "'twitter'" := (AdapterFactory.twitterAdapter generateCommentId).
Local Notation "'facebook'" :=
  (AdapterFactory.facebookAdapter generateCommentId isEmoji isMetadataText).
Local Notation "'factory'" :=
  (AdapterFactory.adapterFactory generateCommentId extractPostTitle extractPostBody
     isEmoji isMetadataText).

(** The constructor registers the three adapters, in this order. *)
Lemma adapterFactory_eq : factory = [reddit; twitter; facebook].
Proof.
  assert (E1 : JS.eqb (js "reddit") (js "twitter") = false) by (vm_compute; reflexivity).
  assert (E2 : JS.eqb (js "reddit") (js "facebook") = false) by (vm_compute; reflexivity).
  assert (E3 : JS.eqb (js "twitter") (js "facebook") = false) by (vm_compute; reflexivity).
  unfold AdapterFactory.adapterFactory, AdapterFactory.registerAdapter.
  cbn [List.find app AdapterFactory.platform AdapterFactory.redditAdapter
       AdapterFactory.twitterAdapter AdapterFactory.facebookAdapter].
  rewrite E1. cbn [List.find app AdapterFactory.platform AdapterFactory.redditAdapter
                   AdapterFactory.twitterAdapter AdapterFactory.facebookAdapter].
  rewrite E2, E3. reflexivity.
Qed.

(** Among the three adapters [getAdapter] finds an adapter exactly when
    it can handle the url: at most one of them can. *)
Lemma getAdapter_default (url : jsstring) (adapter : AdapterFactory.PlatformAdapter) :
  AdapterFactory.getAdapter [reddit; twitter; facebook] url = Some adapter
  <-> In adapter [reddit; twitter; facebook]
      /\ AdapterFactory.canHandle adapter url = true.
Proof.
  unfold AdapterFactory.getAdapter.
  assert (Hrt : RedditAdapter.canHandle url && TwitterAdapter.canHandle url = false)
    by (apply PatternFacts.no_clash; vm_compute; reflexivity).
  assert (Hrf : RedditAdapter.canHandle url && FacebookAdapter.canHandle url = false)
    by (apply PatternFacts.no_clash; vm_compute; reflexivity).
  assert (Htf : TwitterAdapter.canHandle url && FacebookAdapter.canHandle url = false)
    by (apply PatternFacts.no_clash; vm_compute; reflexivity).
  cbn [List.find AdapterFactory.canHandle AdapterFactory.redditAdapter
       AdapterFactory.twitterAdapter AdapterFactory.facebookAdapter].
  destruct (RedditAdapter.canHandle url) eqn:Hr;
    destruct (TwitterAdapter.canHandle url) eqn:Ht;
    destruct (FacebookAdapter.canHandle url) eqn:Hf;
    try discriminate; clear Hrt Hrf Htf.
  all: split;
    [ intros [= <-]; cbn [In AdapterFactory.canHandle AdapterFactory.redditAdapter
                          AdapterFactory.twitterAdapter AdapterFactory.facebookAdapter];
      auto
    | intros [[<- | [<- | [<- | []]]] Hc];
      cbn [AdapterFactory.canHandle AdapterFactory.redditAdapter
           AdapterFactory.twitterAdapter AdapterFactory.facebookAdapter] in Hc;
      congruence ].
Qed.

(** X13. The adapter of a page is the registered adapter that can handle
    its url, whichever way the three are ordered: [getCurrentAdapter]
    returns an adapter exactly when it is registered and its [canHandle]
    accepts [location.href]. *)
Theorem getCurrentAdapter_spec (d : Document) (adapter : AdapterFactory.PlatformAdapter) :
  AdapterFactory.getCurrentAdapter generateCommentId extractPostTitle extractPostBody
    isEmoji isMetadataText d = Some adapter
  <-> In adapter factory
      /\ AdapterFactory.canHandle adapter (location_href d) = true.
Proof.
  unfold AdapterFactory.getCurrentAdapter. rewrite adapterFactory_eq.
  apply getAdapter_default.
Qed.

(** X14. The thread of a page is the thread that the one adapter for its
    url extracts, provided it passes validation: [extractThreadContext] of
    the thread extractor returns a context exactly when a registered
    adapter handles [location.href], extracts that context and the context
    is valid. *)
Theorem extractPageThreadContext_spec (d : Document) (context : ThreadContext) :
  AdapterFactory.extractPageThreadContext generateCommentId extractPostTitle
    extractPostBody isEmoji isMetadataText d = Some context
  <-> exists adapter,
        In adapter factory
        /\ AdapterFactory.canHandle adapter (location_href d) = true
        /\ AdapterFactory.extractThreadContext adapter d = Some context
        /\ ThreadExtractor.isValidContext context = true.
Proof.
  unfold AdapterFactory.extractPageThreadContext, AdapterFactory.getCurrentAdapter.
  rewrite adapterFactory_eq. split.
  - destruct (AdapterFactory.getAdapter _ (location_href d)) as [adapter|] eqn:Ha;
      [| discriminate].
    apply getAdapter_default in Ha as [Hin Hc].
    unfold ThreadExtractor.extractWithAdapter.
    destruct (AdapterFactory.extractThreadContext adapter d) as [ctx|] eqn:He;
      [| discriminate].
    destruct (ThreadExtractor.isValidContext ctx) eqn:Hv; [| discriminate].
    intros [= <-]. exists adapter. auto.
  - intros (adapter & Hin & Hc & He & Hv).
    rewrite (proj2 (getAdapter_default (location_href d) adapter) (conj Hin Hc)).
    unfold ThreadExtractor.extractWithAdapter. rewrite He, Hv. reflexivity.
Qed.

End FactoryFacts.

Lemma find_app_Some {A} (f : A -> bool) (l l' : list A) (x : A) :
  List.find f l = Some x -> List.find f (l ++ l') = Some x.
Proof.
  induction l as [|y l IH]; [discriminate |].
  simpl. destruct (f y); auto.
Qed.

Lemma find_platform_None (adapters : list AdapterFactory.PlatformAdapter) (p : jsstring) :
  List.find (fun a => JS.eqb (AdapterFactory.platform a) p) adapters = None ->
  ~ In p (List.map AdapterFactory.platform adapters).
Proof.
  intros H Hin. apply in_map_iff in Hin as (a & Ha & Hin).
  apply (List.find_none _ _ H) in Hin. unfold JS.eqb in Hin.
  apply bool_decide_eq_false in Hin. contradiction.
Qed.

(** X15. [registerAdapter] keeps one adapter per platform and never takes a
    url away from the adapter that had it: the platforms of the registry
    stay distinct, and a url for which [getAdapter] found an adapter gets
    the same adapter afterwards. *)
Theorem registerAdapter_keeps (adapters : list AdapterFactory.PlatformAdapter)
    (adapter found : AdapterFactory.PlatformAdapter) (url : jsstring) :
  List.NoDup (List.map AdapterFactory.platform adapters) ->
  AdapterFactory.getAdapter adapters url = Some found ->
  List.NoDup (List.map AdapterFactory.platform
                (AdapterFactory.registerAdapter adapters adapter))
  /\ AdapterFactory.getAdapter (AdapterFactory.registerAdapter adapters adapter) url
     = Some found.
Proof.
  intros Hnd Hfound. unfold AdapterFactory.registerAdapter.
  destruct (List.find _ adapters) as [existing|] eqn:He; [auto |].
  split.
  - rewrite List.map_app. cbn [List.map].
    apply List.NoDup_app.
    + exact Hnd.
    + constructor; [intros [] | constructor].
    + intros p Hp [<- | []]. exact (find_platform_None _ _ He Hp).
  - apply find_app_Some. exact Hfound.
Qed.

Lemma registerAdapter_keeps_witness :
  List.NoDup (List.map AdapterFactory.platform
                (AdapterFactory.registerAdapter
                   [AdapterFactory.twitterAdapter Example.ids] greedyReddit))
  /\ AdapterFactory.getAdapter
       (AdapterFactory.registerAdapter
          [AdapterFactory.twitterAdapter Example.ids] greedyReddit)
       (js "https://x.com/user/status/123456789")
     = Some (AdapterFactory.twitterAdapter Example.ids).
Proof.
  apply (registerAdapter_keeps [AdapterFactory.twitterAdapter Example.ids] greedyReddit
           (AdapterFactory.twitterAdapter Example.ids)
           (js "https://x.com/user/status/123456789")).
  - simpl. constructor; [intros [] | constructor].
  - assert (E : TwitterAdapter.canHandle (js "https://x.com/user/status/123456789") = true)
      by (vm_compute; reflexivity).
    unfold AdapterFactory.getAdapter.
    cbn [List.find AdapterFactory.canHandle AdapterFactory.twitterAdapter].
    rewrite E. reflexivity.
Defined.

Lemma length_omap_imap {A B} (l : list A) : forall (f : nat -> A -> option B),
  (length (omap (fun pushed => pushed) (imap f l)) <= length l)%nat.
Proof.
  induction l as [|x l IH]; intros f; simpl; [lia |].
  specialize (IH (f ∘ S)). unfold omap in IH. destruct (f 0%nat x); simpl; lia.
Qed.

Lemma length_take_50 {A} (l : list A) :
  (length (take (Z.to_nat EXTRACTION_CONFIG.MAX_COMMENTS) l) <= 50)%nat.
Proof.
  rewrite length_take. change (Z.to_nat EXTRACTION_CONFIG.MAX_COMMENTS) with 50%nat. lia.
Qed.

Lemma trimStart_head (s : jsstring) (c : Z) (r : jsstring) :
  trimStart s = c :: r -> isWhiteSpace c = false.
Proof.
  induction s as [|d s IH]; simpl; [discriminate |].
  destruct (isWhiteSpace d) eqn:Hd; [exact IH |]. intros [= <- <-]. exact Hd.
Qed.

Lemma trimStart_snoc (l : jsstring) (c : Z) :
  isWhiteSpace c = false -> exists w, trimStart (l ++ [c]) = w ++ [c].
Proof.
  intros Hc. induction l as [|d l IH]; simpl.
  - rewrite Hc. exists []. reflexivity.
  - destruct (isWhiteSpace d); [exact IH |]. exists (d :: l). reflexivity.
Qed.

(** A string that starts with something other than white space keeps its
    first unit when trimmed. *)
Lemma trim_keeps_head (c : Z) (r : jsstring) :
  isWhiteSpace c = false -> exists r', trim (c :: r) = c :: r'.
Proof.
  intros Hc. unfold trim. cbn [trimStart]. rewrite Hc. unfold trimEnd.
  cbn [rev]. destruct (trimStart_snoc (rev r) c Hc) as [w ->].
  rewrite rev_app_distr. exists (rev w). reflexivity.
Qed.

Lemma trim_head (s : jsstring) (c : Z) (r : jsstring) :
  trim s = c :: r -> isWhiteSpace c = false.
Proof.
  unfold trim. destruct (trimStart s) as [|c0 r0] eqn:Hs; [discriminate |].
  pose proof (trimStart_head _ _ _ Hs) as Hc0.
  destruct (trim_keeps_head c0 r0 Hc0) as [r' Hr'].
  unfold trim in Hr'. cbn [trimStart] in Hr'. rewrite Hc0 in Hr'. rewrite Hr'.
  intros [= <- _]. exact Hc0.
Qed.

(** Text that was trimmed and is not empty still has visible content after
    the cap of the post body. *)
Lemma trimmed_body_has_content (raw : jsstring) :
  trim raw <> [] ->
  (0 <? len (trim (BasePlatformAdapter.truncateText (trim raw)
                     EXTRACTION_CONFIG.MAX_POST_BODY_LENGTH))) = true.
Proof.
  intros Hne. destruct (trim raw) as [|c r] eqn:Ht; [contradiction |].
  pose proof (trim_head _ _ _ Ht) as Hc.
  assert (Hcut : exists r', BasePlatformAdapter.truncateText (c :: r)
                              EXTRACTION_CONFIG.MAX_POST_BODY_LENGTH = c :: r').
  { unfold BasePlatformAdapter.truncateText.
    destruct (_ <=? _) eqn:Hfit; [eauto |].
    apply Z.leb_gt in Hfit. unfold EXTRACTION_CONFIG.MAX_POST_BODY_LENGTH in *.
    rewrite slice_prefix by (unfold len in *; lia).
    replace (Z.to_nat (10000 - 3)) with (S (Z.to_nat 9996)) by lia.
    rewrite firstn_cons. eexists. reflexivity. }
  destruct Hcut as [r' ->]. destruct (trim_keeps_head c r' Hc) as [r'' ->].
  reflexivity.
Qed.

Section CommentFacts.

Variable generateCommentId : nat -> jsstring.
Variable extractPostTitle extractPostBody : Document -> jsstring.
Variable isEmoji isMetadataText : jsstring -> bool.

Lemma repliesLoop_length mainTweetId tweets : forall found count i,
  count <= EXTRACTION_CONFIG.MAX_COMMENTS ->
  Z.of_nat (length (TwitterAdapter.repliesLoop generateCommentId mainTweetId found
                      count i tweets))
  <= EXTRACTION_CONFIG.MAX_COMMENTS - count.
Proof.
  unfold EXTRACTION_CONFIG.MAX_COMMENTS.
  induction tweets as [|tweet rest IH]; intros found count i Hc;
    cbn [TwitterAdapter.repliesLoop]; [simpl; lia |].
  destruct (TwitterAdapter.linksTo tweet mainTweetId); [apply IH; exact Hc |].
  destruct (negb found); [apply IH; exact Hc |].
  unfold EXTRACTION_CONFIG.MAX_COMMENTS.
  destruct (Z.geb_spec count 50); [simpl; lia |].
  destruct (isEmpty _); [apply IH; exact Hc |].
  cbn [length]. specialize (IH found (count + 1) (S i)). lia.
Qed.

Local Notation "'factory'" :=
  (AdapterFactory.adapterFactory generateCommentId extractPostTitle extractPostBody
     isEmoji isMetadataText).

Lemma in_factory (adapter : AdapterFactory.PlatformAdapter) :
  In adapter factory ->
  adapter = AdapterFactory.redditAdapter generateCommentId extractPostTitle extractPostBody
  \/ adapter = AdapterFactory.twitterAdapter generateCommentId
  \/ adapter = AdapterFactory.facebookAdapter generateCommentId isEmoji isMetadataText.
Proof.
  rewrite adapterFactory_eq. intros [<- | [<- | [<- | []]]]; auto.
Qed.

(** The comments of the Reddit adapter, from the first element on: each
    has text and author, and its text is capped. *)
Lemma reddit_all_comments (d : Document) :
  Forall (fun c => capped c /\ filled c)
         (RedditComments.extractComments generateCommentId d).
Proof.
  unfold RedditComments.extractComments. destruct (_ <? _).
  - apply Forall_omap_imap. intros i x c.
    apply (reddit_shreddit_comment generateCommentId).
  - apply Forall_omap_imap. intros i x c.
    apply (reddit_single_comment generateCommentId).
Qed.

(** X16. No registered adapter returns more than MAX_COMMENTS (50)
    comments. *)
Theorem adapter_comments_at_most_50 (adapter : AdapterFactory.PlatformAdapter)
    (d : Document) (ctx : ThreadContext) :
  In adapter factory ->
  AdapterFactory.extractThreadContext adapter d = Some ctx ->
  Z.of_nat (length (comments ctx)) <= EXTRACTION_CONFIG.MAX_COMMENTS.
Proof.
  unfold EXTRACTION_CONFIG.MAX_COMMENTS. intros Hin.
  destruct (in_factory adapter Hin) as [-> | [-> | ->]];
    cbn [AdapterFactory.extractThreadContext AdapterFactory.redditAdapter
         AdapterFactory.twitterAdapter AdapterFactory.facebookAdapter].
  - unfold RedditComments.extractThreadContext. intros H. some_inv H. cbn [comments].
    unfold RedditComments.extractComments. destruct (_ <? _).
    + pose proof (length_omap_imap
                    (take (Z.to_nat EXTRACTION_CONFIG.MAX_COMMENTS)
                          (docQuerySelectorAll d (js "shreddit-comment")))
                    (RedditAdapter.extractShredditComment generateCommentId)).
      pose proof (length_take_50 (docQuerySelectorAll d (js "shreddit-comment"))).
      lia.
    + pose proof (length_omap_imap
                    (take (Z.to_nat EXTRACTION_CONFIG.MAX_COMMENTS)
                          (BasePlatformAdapter.queryAll d RedditAdapter.commentContainer))
                    (fun i element =>
                       RedditAdapter.extractSingleComment generateCommentId i element 0)).
      pose proof (length_take_50
                    (BasePlatformAdapter.queryAll d RedditAdapter.commentContainer)).
      lia.
  - unfold TwitterAdapter.extractThreadContext.
    destruct (TwitterAdapter.extractMainTweet d) as [mainTweet postAuthor].
    intros H. some_inv H. cbn [comments]. unfold TwitterAdapter.extractReplies.
    pose proof (repliesLoop_length (TwitterAdapter.getTweetIdFromUrl d)
                  (docQuerySelectorAll d TwitterAdapter.sel_tweet) false 0 0%nat) as Hl.
    unfold EXTRACTION_CONFIG.MAX_COMMENTS in Hl. lia.
  - unfold FacebookAdapter.extractThreadContext. intros H. some_inv H. cbn [comments].
    unfold FacebookAdapter.extractComments.
    pose proof (length_omap_imap
                  (take (Z.to_nat EXTRACTION_CONFIG.MAX_COMMENTS)
                        (FacebookAdapter.findCommentContainers d))
                  (FacebookAdapter.extractSingleComment generateCommentId isEmoji)).
    pose proof (length_take_50 (FacebookAdapter.findCommentContainers d)). lia.
Qed.

Lemma repliesLoop_flat mainTweetId tweets : forall found count i,
  Forall (fun c => depth c = Int 0 /\ parentId c = None)
         (TwitterAdapter.repliesLoop generateCommentId mainTweetId found count i tweets).
Proof.
  induction tweets as [|tweet rest IH]; intros found count i; simpl; [constructor |].
  destruct (TwitterAdapter.linksTo tweet mainTweetId); [apply IH |].
  destruct (negb found); [apply IH |].
  destruct (count >=? EXTRACTION_CONFIG.MAX_COMMENTS); [constructor |].
  destruct (isEmpty _); [apply IH |]. constructor; [split; reflexivity | apply IH].
Qed.

(** X17. No registered adapter returns a comment deeper than
    MAX_COMMENT_DEPTH (3), and the comments of Twitter and Facebook are all
    at depth 0 without parent. *)
Theorem adapter_comment_depths (adapter : AdapterFactory.PlatformAdapter)
    (d : Document) (ctx : ThreadContext) :
  In adapter factory ->
  AdapterFactory.extractThreadContext adapter d = Some ctx ->
  Forall (fun c => num_gtb (depth c) EXTRACTION_CONFIG.MAX_COMMENT_DEPTH = false
                   /\ (AdapterFactory.platform adapter <> js "reddit" ->
                       depth c = Int 0 /\ parentId c = None))
         (comments ctx).
Proof.
  intros Hin.
  destruct (in_factory adapter Hin) as [-> | [-> | ->]];
    cbn [AdapterFactory.extractThreadContext AdapterFactory.platform
         AdapterFactory.redditAdapter AdapterFactory.twitterAdapter
         AdapterFactory.facebookAdapter].
  - unfold RedditComments.extractThreadContext. intros H. some_inv H. cbn [comments].
    unfold RedditComments.extractComments. destruct (_ <? _).
    + apply Forall_omap_imap. intros i x c.
      unfold RedditAdapter.extractShredditComment. intros H. some_inv H.
      cbn [depth]. split; [exact E0 | congruence].
    + apply Forall_omap_imap. intros i x c.
      unfold RedditAdapter.extractSingleComment. intros H. some_inv H.
      cbn [depth]. split; [reflexivity | congruence].
  - unfold TwitterAdapter.extractThreadContext.
    destruct (TwitterAdapter.extractMainTweet d) as [mainTweet postAuthor].
    intros H. some_inv H. cbn [comments]. unfold TwitterAdapter.extractReplies.
    eapply List.Forall_impl; [| apply repliesLoop_flat].
    intros c [Hd Hp]. rewrite Hd. split; [reflexivity | auto].
  - unfold FacebookAdapter.extractThreadContext. intros H. some_inv H. cbn [comments].
    unfold FacebookAdapter.extractComments.
    apply Forall_omap_imap. intros i x c.
    unfold FacebookAdapter.extractSingleComment. intros H. some_inv H.
    cbn [depth parentId]. split; [reflexivity | auto].
Qed.

End CommentFacts.

Lemma adapter_comments_at_most_50_witness :
  exists ctx,
    AdapterFactory.extractThreadContext
      (AdapterFactory.redditAdapter Example.ids docTitle (fun _ => [])) twoComments
    = Some ctx
    /\ Z.of_nat (length (comments ctx)) <= EXTRACTION_CONFIG.MAX_COMMENTS.
Proof.
  eexists. split; [reflexivity |].
  apply (adapter_comments_at_most_50 Example.ids docTitle (fun _ => [])
           (fun _ => false) (fun _ => false)
           (AdapterFactory.redditAdapter Example.ids docTitle (fun _ => [])) twoComments).
  - rewrite adapterFactory_eq. left. reflexivity.
  - reflexivity.
Defined.

Lemma adapter_comment_depths_witness :
  exists ctx,
    AdapterFactory.extractThreadContext
      (AdapterFactory.redditAdapter Example.ids docTitle (fun _ => [])) twoComments
    = Some ctx
    /\ Forall (fun c => num_gtb (depth c) EXTRACTION_CONFIG.MAX_COMMENT_DEPTH = false
                        /\ (js "reddit" <> js "reddit" ->
                            depth c = Int 0 /\ parentId c = None))
              (comments ctx).
Proof.
  eexists. split; [reflexivity |].
  apply (adapter_comment_depths Example.ids docTitle (fun _ => [])
           (fun _ => false) (fun _ => false)
           (AdapterFactory.redditAdapter Example.ids docTitle (fun _ => [])) twoComments).
  - rewrite adapterFactory_eq. left. reflexivity.
  - reflexivity.
Defined.

Section TwitterFacts.

Variable generateCommentId : nat -> jsstring.

Lemma repliesLoop_origin mainTweetId tweets : forall found count i c,
  In c (TwitterAdapter.repliesLoop generateCommentId mainTweetId found count i tweets) ->
  exists j tweet,
    nth_error tweets j = Some tweet
    /\ id c = generateCommentId (i + j)%nat
    /\ TwitterAdapter.linksTo tweet mainTweetId = false
    /\ text c = BasePlatformAdapter.truncateText
                  (BasePlatformAdapter.getTextContent
                     (querySelector tweet TwitterAdapter.sel_tweetText)) 2000
    /\ (found = true
        \/ exists j' main, (j' < j)%nat /\ nth_error tweets j' = Some main
                           /\ TwitterAdapter.linksTo main mainTweetId = true).
Proof.
  induction tweets as [|tweet rest IH]; intros found count i c;
    cbn [TwitterAdapter.repliesLoop]; [intros [] |].
  destruct (TwitterAdapter.linksTo tweet mainTweetId) eqn:Hlink.
  - intros Hc. apply IH in Hc as (j & t & Hj & Hid & Hl & Ht & _).
    exists (S j), t. cbn [nth_error]. repeat split; try assumption.
    + rewrite Hid. f_equal. lia.
    + right. exists 0%nat, tweet. repeat split; [lia | exact Hlink].
  - assert (Hskip : forall fnd cnt,
              In c (TwitterAdapter.repliesLoop generateCommentId mainTweetId fnd cnt
                      (S i) rest) ->
              fnd = found ->
              exists j t,
                nth_error (tweet :: rest) j = Some t
                /\ id c = generateCommentId (i + j)%nat
                /\ TwitterAdapter.linksTo t mainTweetId = false
                /\ text c = BasePlatformAdapter.truncateText
                              (BasePlatformAdapter.getTextContent
                                 (querySelector t TwitterAdapter.sel_tweetText)) 2000
                /\ (found = true
                    \/ exists j' main, (j' < j)%nat
                                       /\ nth_error (tweet :: rest) j' = Some main
                                       /\ TwitterAdapter.linksTo main mainTweetId = true)).
    { intros fnd cnt Hc ->. apply IH in Hc as (j & t & Hj & Hid & Hl & Ht & Hf).
      exists (S j), t. cbn [nth_error]. repeat split; try assumption.
      - rewrite Hid. f_equal. lia.
      - destruct Hf as [Hf | (j' & main & Hlt & Hj' & Hm)]; [left; exact Hf |].
        right. exists (S j'), main. repeat split; [lia | exact Hj' | exact Hm]. }
    destruct found; cbn [negb]; [| intros Hc; exact (Hskip false count Hc eq_refl)].
    destruct (count >=? EXTRACTION_CONFIG.MAX_COMMENTS); [intros [] |].
    destruct (isEmpty _); [intros Hc; exact (Hskip true count Hc eq_refl) |].
    intros [<- | Hc]; [| exact (Hskip true (count + 1) Hc eq_refl)].
    exists 0%nat, tweet. cbn [nth_error id text]. repeat split.
    + f_equal. lia.
    + exact Hlink.
    + left. reflexivity.
Qed.

(** X18. Every reply that the Twitter adapter returns is taken from a tweet
    of the page that does not link to the main tweet's id and that comes
    after a tweet that does; its text is that tweet's text under the
    2000-unit cap. With no tweet linking to the id there are no replies. *)
Theorem twitter_replies_follow_main (d : Document) (c : Comment) :
  In c (TwitterAdapter.extractReplies generateCommentId d) ->
  exists j tweet j' main,
    nth_error (docQuerySelectorAll d TwitterAdapter.sel_tweet) j = Some tweet
    /\ id c = generateCommentId j
    /\ TwitterAdapter.linksTo tweet (TwitterAdapter.getTweetIdFromUrl d) = false
    /\ text c = BasePlatformAdapter.truncateText
                  (BasePlatformAdapter.getTextContent
                     (querySelector tweet TwitterAdapter.sel_tweetText)) 2000
    /\ (j' < j)%nat
    /\ nth_error (docQuerySelectorAll d TwitterAdapter.sel_tweet) j' = Some main
    /\ TwitterAdapter.linksTo main (TwitterAdapter.getTweetIdFromUrl d) = true.
Proof.
  unfold TwitterAdapter.extractReplies. intros Hc.
  apply repliesLoop_origin in Hc as (j & tweet & Hj & Hid & Hl & Ht & Hf).
  destruct Hf as [Hf | (j' & main & Hlt & Hj' & Hm)]; [discriminate Hf |].
  exists j, tweet, j', main. repeat split; assumption.
Qed.

End TwitterFacts.

Lemma twitter_replies_follow_main_witness :
  exists j tweet j' main,
    nth_error (docQuerySelectorAll Example.tweetPage TwitterAdapter.sel_tweet) j = Some tweet
    /\ Example.ids 1 = Example.ids j
    /\ TwitterAdapter.linksTo tweet (TwitterAdapter.getTweetIdFromUrl Example.tweetPage)
       = false
    /\ js "A reply"
       = BasePlatformAdapter.truncateText
           (BasePlatformAdapter.getTextContent
              (querySelector tweet TwitterAdapter.sel_tweetText)) 2000
    /\ (j' < j)%nat
    /\ nth_error (docQuerySelectorAll Example.tweetPage TwitterAdapter.sel_tweet) j'
       = Some main
    /\ TwitterAdapter.linksTo main (TwitterAdapter.getTweetIdFromUrl Example.tweetPage)
       = true.
Proof.
  apply (twitter_replies_follow_main Example.ids Example.tweetPage
           {| id := Example.ids 1; author := js "@bob"; text := js "A reply";
              parentId := None; depth := Int 0 |}).
  vm_compute. left. reflexivity.
Defined.

Lemma startsWith_split (s p : jsstring) :
  startsWith s p = true -> s = p ++ drop (length p) s.
Proof.
  revert s. induction p as [|c p IH]; intros s H; [reflexivity |].
  destruct s as [|d s]; [discriminate H |].
  simpl in H. apply andb_true_iff in H as [Hc Hp]. apply Z.eqb_eq in Hc. subst d.
  simpl. f_equal. apply IH. exact Hp.
Qed.

Lemma takeDigits_split (s : jsstring) :
  Forall (fun c => isDigit c = true) (takeDigits s)
  /\ exists post, s = takeDigits s ++ post.
Proof.
  induction s as [|c s [IH1 [post IH2]]]; simpl.
  - split; [constructor | exists []; reflexivity].
  - destruct (isDigit c) eqn:Hc.
    + split; [constructor; assumption |]. exists post. simpl. congruence.
    + split; [constructor | eexists; reflexivity].
Qed.

(** X19. The tweet id read from the path is made of decimal digits, and
    when it is not empty it stands in the path right after "/status/". *)
Theorem getTweetIdFrom_digits (pathname : jsstring) :
  Forall (fun c => isDigit c = true) (TwitterAdapter.getTweetIdFrom pathname)
  /\ (TwitterAdapter.getTweetIdFrom pathname <> [] ->
      exists before after,
        pathname = before ++ js "/status/" ++ TwitterAdapter.getTweetIdFrom pathname ++ after).
Proof.
  induction pathname as [|c rest [IH1 IH2]].
  - split; [constructor | intros H; contradiction H; reflexivity].
  - assert (Hrest : Forall (fun c => isDigit c = true) (TwitterAdapter.getTweetIdFrom rest)
                    /\ (TwitterAdapter.getTweetIdFrom rest <> [] ->
                        exists before after,
                          c :: rest = before ++ js "/status/"
                                        ++ TwitterAdapter.getTweetIdFrom rest ++ after)).
    { split; [exact IH1 |]. intros H. destruct (IH2 H) as (before & after & Heq).
      exists (c :: before), after. simpl. f_equal. exact Heq. }
    cbn [TwitterAdapter.getTweetIdFrom].
    destruct (startsWith (c :: rest) (js "/status/")) eqn:Hs; [| exact Hrest].
    destruct (takeDigits (drop 8 (c :: rest))) as [|dg ds] eqn:Hd; [exact Hrest |].
    destruct (takeDigits_split (drop 8 (c :: rest))) as [Hall [post Hpost]].
    rewrite Hd in Hall, Hpost. split; [exact Hall |]. intros _.
    exists [], post. apply startsWith_split in Hs.
    change (length (js "/status/")) with 8%nat in Hs.
    rewrite Hpost in Hs. exact Hs.
Qed.

Section ValidityFacts.

Variable generateCommentId : nat -> jsstring.
Variable extractPostTitle extractPostBody : Document -> jsstring.
Variable isEmoji isMetadataText : jsstring -> bool.

Lemma getTextContent_trimmed (element : option Element) :
  exists raw, BasePlatformAdapter.getTextContent element = trim raw.
Proof.
  destruct element as [e|]; simpl; [eauto |]. exists []. reflexivity.
Qed.

Lemma facebook_text_trimmed (element : option Element) :
  exists raw, FacebookAdapter.extractTextFromFacebookElement isEmoji element = trim raw.
Proof.
  destruct element as [e|]; simpl; [eauto |]. exists []. reflexivity.
Qed.

Lemma facebook_body_trimmed (d : Document) :
  exists raw, FacebookAdapter.extractPostBody isEmoji isMetadataText d = trim raw.
Proof.
  unfold FacebookAdapter.extractPostBody.
  set (candidates := omap _ _).
  assert (Hc : Forall (fun t => exists raw, t = trim raw) candidates).
  { subst candidates. generalize (flat_map
      (fun article => querySelectorAll article (attrSel "div" "dir" "=" "auto" ""))
      (docQuerySelectorAll d (attrSel "div" "role" "=" "article" ""))).
    intros l. induction l as [|x l IH]; simpl; [constructor |].
    unfold FacebookAdapter.substantialText at 1.
    destruct (_ && _); simpl; [constructor; [eexists; reflexivity | exact IH] | exact IH]. }
  assert (H23 : exists raw,
             match candidates with
             | text :: _ => text
             | [] => FacebookAdapter.extractTextFromFacebookElement isEmoji
                       (BasePlatformAdapter.queryFirst d FacebookAdapter.postBodySelectors)
             end = trim raw).
  { destruct Hc; [apply facebook_text_trimmed | assumption]. }
  destruct (docQuerySelector d _) as [adPreview|]; [| exact H23].
  destruct (isEmpty _); [exact H23 | apply facebook_text_trimmed].
Qed.

(** X20. Validation never rejects what the Twitter and the Facebook
    adapters extract from a page with a url: [extractWithAdapter] returns
    their context as it is. *)
Theorem twitter_facebook_context_valid (k : AdapterKind) (d : Document)
    (ctx : ThreadContext) :
  k <> Reddit ->
  location_href d <> [] ->
  extractThreadContextOf generateCommentId extractPostTitle extractPostBody
    isEmoji isMetadataText k d = Some ctx ->
  ThreadExtractor.extractWithAdapter (E := unit) (Returns (Some ctx)) = Some ctx.
Proof.
  intros Hk Hurl Hctx.
  assert (Hv : ThreadExtractor.isValidContext ctx = true);
    [| unfold ThreadExtractor.extractWithAdapter; rewrite Hv; reflexivity].
  destruct k; [contradiction | |]; cbn [extractThreadContextOf] in Hctx.
  - unfold TwitterAdapter.extractThreadContext in Hctx.
    destruct (TwitterAdapter.extractMainTweet d) as [mainTweet postAuthor] eqn:Hmain.
    assert (Ht : exists raw, mainTweet = trim raw).
    { unfold TwitterAdapter.extractMainTweet, TwitterAdapter.tweetTextAndAuthor in Hmain.
      destruct (List.find _ _); [| destruct (docQuerySelectorAll d _)];
        injection Hmain as <- _; apply getTextContent_trimmed. }
    destruct Ht as [raw ->]. some_inv Hctx. apply isEmpty_false in E.
    unfold ThreadExtractor.isValidContext, ThreadExtractor.hasContent.
    cbn [url postTitle postBody comments platform].
    apply isEmpty_false in Hurl. rewrite Hurl.
    rewrite (trimmed_body_has_content raw E), orb_true_r. reflexivity.
  - unfold FacebookAdapter.extractThreadContext in Hctx.
    destruct (facebook_body_trimmed d) as [raw Hraw]. rewrite Hraw in Hctx.
    some_inv Hctx. apply isEmpty_false in E.
    unfold ThreadExtractor.isValidContext, ThreadExtractor.hasContent.
    cbn [url postTitle postBody comments platform].
    apply isEmpty_false in Hurl. rewrite Hurl.
    rewrite (trimmed_body_has_content raw E), orb_true_r. reflexivity.
Qed.

End ValidityFacts.

Lemma twitter_facebook_context_valid_witness :
  exists ctx,
    extractThreadContextOf Example.ids (fun _ => []) (fun _ => [])
      (fun _ => false) (fun _ => false) Twitter Example.tweetPage = Some ctx
    /\ ThreadExtractor.extractWithAdapter (E := unit) (Returns (Some ctx)) = Some ctx.
Proof.
  eexists. split; [reflexivity |].
  apply (twitter_facebook_context_valid Example.ids (fun _ => []) (fun _ => [])
           (fun _ => false) (fun _ => false) Twitter Example.tweetPage).
  - discriminate.
  - vm_compute. discriminate.
  - reflexivity.
Defined.

Section RedditFacts.

Variable generateCommentId : nat -> jsstring.

(** The loop written with the test on the length is the loop written with
    a match on the list. *)
Lemma extractComments_agree (d : Document) :
  RedditComments.extractComments generateCommentId d
  = RedditAdapter.extractComments generateCommentId d.
Proof.
  unfold RedditComments.extractComments, RedditAdapter.extractComments.
  destruct (docQuerySelectorAll d (js "shreddit-comment")); reflexivity.
Qed.

Lemma extractThreadContext_agree (extractPostTitle extractPostBody : Document -> jsstring)
    (d : Document) :
  RedditComments.extractThreadContext generateCommentId extractPostTitle extractPostBody d
  = RedditAdapter.extractThreadContext generateCommentId extractPostTitle extractPostBody d.
Proof.
  unfold RedditComments.extractThreadContext, RedditAdapter.extractThreadContext.
  rewrite extractComments_agree. reflexivity.
Qed.

(** X21. The Reddit adapter reads its comments from the first
    [shreddit-comment] element on: when that element yields a comment, it
    is the first comment returned; and every comment returned has text and
    author, with the text under the 2000-unit cap. *)
Theorem reddit_comments_from_first (d : Document) (e : Element) (l : list Element)
    (c : Comment) :
  docQuerySelectorAll d (js "shreddit-comment") = e :: l ->
  RedditAdapter.extractShredditComment generateCommentId 0 e = Some c ->
  head (RedditComments.extractComments generateCommentId d) = Some c
  /\ Forall (fun c' => capped c' /\ filled c')
            (RedditComments.extractComments generateCommentId d).
Proof.
  intros Hd Hc. split; [| apply reddit_all_comments].
  unfold RedditComments.extractComments. rewrite Hd.
  change (0 <? Z.of_nat (length (e :: l))) with true. cbn iota.
  change (Z.to_nat EXTRACTION_CONFIG.MAX_COMMENTS) with 50%nat.
  cbn [take imap]. unfold omap. cbn [list_omap]. rewrite Hc. reflexivity.
Qed.

End RedditFacts.

Lemma reddit_comments_from_first_witness :
  head (RedditComments.extractComments Example.ids twoComments)
  = Some {| id := js "t1_a"; author := js "alice"; text := js "First comment";
            parentId := None; depth := Int 0 |}
  /\ Forall (fun c' => capped c' /\ filled c')
            (RedditComments.extractComments Example.ids twoComments).
Proof.
  apply (reddit_comments_from_first Example.ids twoComments
           (shredditComment "t1_a" "alice" "0" "First comment")
           [shredditComment "t1_b" "bob" "1" "A reply to it"]).
  - reflexivity.
  - vm_compute. reflexivity.
Defined.

(** ** More on the text inserter *)

Lemma trimStart_nil_iff (s : jsstring) : trimStart s = [] <-> blank s = true.
Proof.
  induction s as [|c s IH]; simpl; [tauto |].
  destruct (isWhiteSpace c); simpl; [exact IH |]. split; discriminate.
Qed.

Lemma trim_nil_iff (s : jsstring) : trim s = [] <-> blank s = true.
Proof.
  rewrite <- trimStart_nil_iff. unfold trim. split.
  - destruct (trimStart s) as [|c r] eqn:Hs; [reflexivity |].
    pose proof (trimStart_head _ _ _ Hs) as Hc.
    destruct (trim_keeps_head c r Hc) as [r' Hr'].
    unfold trim in Hr'. cbn [trimStart] in Hr'. rewrite Hc in Hr'. rewrite Hr'.
    discriminate.
  - intros ->. reflexivity.
Qed.

Lemma collapseWhiteSpace_nil_iff (s : jsstring) : collapseWhiteSpace s = [] <-> s = [].
Proof.
  unfold collapseWhiteSpace. destruct s as [|c s]; simpl; [tauto |].
  destruct (isWhiteSpace c); simpl; split; discriminate.
Qed.

Lemma normalized_nil_iff (s : jsstring) :
  isEmpty (collapseWhiteSpace (trim s)) = blank s.
Proof.
  destruct (blank s) eqn:Hb.
  - apply trim_nil_iff in Hb. rewrite Hb. reflexivity.
  - destruct (collapseWhiteSpace (trim s)) eqn:Hc; [| reflexivity].
    apply collapseWhiteSpace_nil_iff, trim_nil_iff in Hc. congruence.
Qed.

Section InsertTextMore.

Context {Page HTMLElement Error : Type}.
Variable fallbackInsert : HTMLElement -> jsstring -> @TextInserter.M Page Error unit.

(** X22. When the adapter's write returns, [insertText] calls
    [fallbackInsert] exactly when the box then reads as blank although the
    text to insert is not blank. An exception of the fallback is treated as
    one of the adapter: the text read at the start is written back and the
    exception goes on to the caller. *)
Theorem insertText_fallback_iff
    (adapter : @TextInserter.PlatformAdapter Page HTMLElement Error)
    (input : HTMLElement) (text originalText newText : jsstring) (p p0 p1 p2 : Page) :
  TextInserter.getInputText adapter input p = (Returns originalText, p0) ->
  TextInserter.setInputText adapter input text false p0 = (Returns tt, p1) ->
  TextInserter.getInputText adapter input p1 = (Returns newText, p2) ->
  TextInserter.insertText fallbackInsert input text adapter p
  = if blank newText && negb (blank text)
    then match fallbackInsert input text p2 with
         | (Returns _, p3) => (Returns tt, p3)
         | (Throws error, p3) =>
             (Throws error,
              snd (TextInserter.setInputText adapter input originalText false p3))
         end
    else (Returns tt, p2).
Proof.
  intros Hget Hset Hread.
  unfold TextInserter.insertText, TextInserter.bind, TextInserter.try_catch.
  rewrite Hget, Hset, Hread.
  pose proof (normalized_nil_iff newText) as Hn.
  pose proof (normalized_nil_iff text) as Ht.
  destruct (collapseWhiteSpace (trim newText)) as [|c r].
  - rewrite <- Hn. cbn [isEmpty andb].
    change (len [] =? 0) with true. rewrite andb_true_r.
    destruct (collapseWhiteSpace (trim text)) as [|c' r'].
    + rewrite <- Ht. reflexivity.
    + rewrite <- Ht. cbn [includes startsWith orb isEmpty negb].
      destruct (fallbackInsert input text p2) as [[[] | e] p3]; [reflexivity |].
      destruct (TextInserter.setInputText adapter input originalText false p3)
        as [[[] | e'] p4]; reflexivity.
  - rewrite <- Hn. cbn [isEmpty andb].
    replace (len (c :: r) =? 0) with false
      by (symmetry; apply Z.eqb_neq; unfold len; simpl length; lia).
    rewrite andb_false_r. reflexivity.
Qed.

End InsertTextMore.

Lemma insertText_fallback_iff_witness :
  TextInserter.insertText boxFallback tt (js "Thanks!") deafAdapter (js "my draft")
  = if blank [] && negb (blank (js "Thanks!"))
    then match boxFallback tt (js "Thanks!") [] with
         | (Returns _, p3) => (Returns tt, p3)
         | (Throws error, p3) =>
             (Throws error,
              snd (TextInserter.setInputText deafAdapter tt (js "my draft") false p3))
         end
    else (Returns tt, []).
Proof.
  apply (insertText_fallback_iff boxFallback deafAdapter tt (js "Thanks!")
           (js "my draft") [] (js "my draft") (js "my draft") [] []); reflexivity.
Defined.

(** ** The prompt of the thread analysis *)

Module PromptFacts.

Lemma lastIndexOfFrom_spec (s : jsstring) (c : Z) : forall i last,
  lastIndexOfFrom s c i last = last
  \/ (i <= lastIndexOfFrom s c i last < i + len s
      /\ nth_error s (Z.to_nat (lastIndexOfFrom s c i last - i)) = Some c).
Proof.
  unfold len. induction s as [|d s IH]; intros i last; cbn [lastIndexOfFrom];
    [left; reflexivity |].
  destruct (IH (i + 1) (if d =? c then i else last)) as [Heq | [Hr Hn]].
  - rewrite Heq. destruct (Z.eqb_spec d c) as [-> | _]; [| left; reflexivity].
    right. split; [simpl length; lia |].
    rewrite Z.sub_diag. reflexivity.
  - right. split; [simpl length; lia |].
    set (r := lastIndexOfFrom s c (i + 1) (if d =? c then i else last)) in *.
    replace (Z.to_nat (r - i)) with (S (Z.to_nat (r - (i + 1)))) by lia.
    exact Hn.
Qed.

(** [lastIndexOf]: -1, or an index of the string that holds the unit. *)
Lemma lastIndexOf_spec (s : jsstring) (c : Z) :
  lastIndexOf s c = -1
  \/ (0 <= lastIndexOf s c < len s
      /\ nth_error s (Z.to_nat (lastIndexOf s c)) = Some c).
Proof.
  unfold lastIndexOf.
  destruct (lastIndexOfFrom_spec s c 0 (-1)) as [H | [H1 H2]]; [left; exact H |].
  right. rewrite Z.sub_0_r in H2. split; [lia | exact H2].
Qed.

Lemma roundNearestEven_nonneg (q s : Z) : 0 <= q -> 0 <= s ->
  0 <= Binary64.roundNearestEven q s.
Proof.
  intros Hq Hs. unfold Binary64.roundNearestEven.
  assert (0 < 2 ^ s) by (apply Z.pow_pos_nonneg; lia).
  assert (0 <= q / 2 ^ s) by (apply Z.div_pos; lia).
  repeat destruct (_ <? _); try destruct (Z.even _); lia.
Qed.

(** The product of a length and 0.7 is not negative. *)
Lemma mul_int_c0_7_nonneg (n : Z) : 0 <= n -> 0 <= fst (Binary64.mul_int n Binary64.c0_7).
Proof.
  intros Hn. unfold Binary64.mul_int, Binary64.round, Binary64.c0_7. cbn [fst snd].
  set (q := n * 6305039478318694). assert (Hq : 0 <= q) by (subst q; lia).
  destruct (_ <=? 53) eqn:Hbits; cbn [fst]; [exact Hq |].
  apply Z.leb_gt in Hbits.
  apply Z.mul_nonneg_nonneg; [pose proof (Z.sgn_nonneg q); lia |].
  apply roundNearestEven_nonneg; [lia |].
  destruct (Z.abs q =? 0); lia.
Qed.

Lemma int_gtb_pos (k : Z) (x : Binary64.float) :
  0 <= fst x -> Binary64.int_gtb k x = true -> 0 < k.
Proof.
  destruct x as [m e]. cbn [fst]. intros Hm. unfold Binary64.int_gtb.
  destruct (Z.leb_spec 0 e) as [He | He]; intros H; apply Z.ltb_lt in H.
  - assert (0 <= m * 2 ^ e) by (apply Z.mul_nonneg_nonneg; [lia | apply Z.pow_nonneg; lia]).
    lia.
  - assert (0 < 2 ^ (- e)) by (apply Z.pow_pos_nonneg; lia). nia.
Qed.

Lemma nth_error_take_lt {A} (l : list A) (n i : nat) :
  (i < n)%nat -> nth_error (take n l) i = nth_error l i.
Proof.
  revert n i. induction l as [|x l IH]; intros n i Hi.
  - destruct n; destruct i; reflexivity.
  - destruct n as [|n]; [lia |]. destruct i as [|i]; [reflexivity |].
    simpl. apply IH. lia.
Qed.

(** What [truncateForPrompt] does to a text over the limit. *)
Lemma truncateForPrompt_over (text : jsstring) (maxLength : Z) :
  0 <= maxLength < len text ->
  exists k,
    0 <= k <= maxLength
    /\ ((truncateForPrompt text maxLength
         = take (Z.to_nat k) text ++ [10] ++ js "[Content truncated]"
         /\ 0 < k
         /\ Binary64.int_gtb (k - 1) (Binary64.mul_int maxLength Binary64.c0_7) = true
         /\ (nth_error text (Z.to_nat (k - 1)) = Some 46
             \/ nth_error text (Z.to_nat (k - 1)) = Some 10))
        \/ (truncateForPrompt text maxLength
            = take (Z.to_nat k) text ++ js "... [Content truncated]"
            /\ k = maxLength)).
Proof.
  intros Hm. unfold truncateForPrompt.
  destruct (Z.leb_spec (len text) maxLength) as [Hle | _]; [lia |].
  rewrite slice_prefix by lia.
  set (truncated := take (Z.to_nat maxLength) text).
  assert (Hlen : len truncated = maxLength).
  { unfold len, truncated. rewrite length_take. unfold len in Hm. lia. }
  set (cutPoint := Z.max (lastIndexOf truncated 46) (lastIndexOf truncated 10)).
  destruct (Binary64.int_gtb cutPoint _) eqn:Hgt.
  - pose proof (int_gtb_pos _ _ (mul_int_c0_7_nonneg maxLength (proj1 Hm)) Hgt) as Hpos.
    assert (Hcut : cutPoint < len truncated
                   /\ (nth_error truncated (Z.to_nat cutPoint) = Some 46
                       \/ nth_error truncated (Z.to_nat cutPoint) = Some 10)).
    { subst cutPoint.
      destruct (lastIndexOf_spec truncated 46) as [H1 | [H1 H1']],
               (lastIndexOf_spec truncated 10) as [H2 | [H2 H2']];
        destruct (Z.max_spec (lastIndexOf truncated 46) (lastIndexOf truncated 10))
          as [[Hlt Hmax] | [Hlt Hmax]];
        rewrite Hmax in *; try lia; split; try lia; auto. }
    destruct Hcut as [Hlt Hchar].
    exists (cutPoint + 1). split; [lia |]. left.
    rewrite slice_prefix by lia. unfold truncated at 1.
    rewrite take_take. replace (Z.to_nat (cutPoint + 1) `min` Z.to_nat maxLength)%nat
      with (Z.to_nat (cutPoint + 1)) by lia.
    replace (cutPoint + 1 - 1) with cutPoint by lia.
    split; [reflexivity |]. split; [lia |]. split; [exact Hgt |].
    unfold truncated in Hchar. rewrite nth_error_take_lt in Hchar by lia. exact Hchar.
  - exists maxLength. split; [lia |]. right. split; reflexivity.
Qed.

End PromptFacts.

(** The result of [truncateForPrompt] is at most 23 units over the
    limit. *)
Lemma truncateForPrompt_len (text : jsstring) (maxLength : Z) :
  0 <= maxLength -> len (truncateForPrompt text maxLength) <= maxLength + 23.
Proof.
  intros Hm. destruct (Z.leb_spec (len text) maxLength) as [Hle | Hgt].
  - unfold truncateForPrompt.
    destruct (Z.leb_spec (len text) maxLength); [lia | lia].
  - destruct (PromptFacts.truncateForPrompt_over text maxLength (conj Hm Hgt))
      as (k & Hk & [(-> & _) | (-> & _)]);
      rewrite !len_app; unfold len at 1; rewrite length_take;
      [change (len [10]) with 1; change (len (js "[Content truncated]")) with 19
      | change (len (js "... [Content truncated]")) with 23];
      unfold len in Hgt; lia.
Qed.

(** X23. [truncateForPrompt] returns a text within the limit as it is. A
    longer text is cut after at most [maxLength] units and marked: either
    right after a full stop or line feed that lies past 70% of the limit,
    followed by a line feed and "[Content truncated]", or at the limit,
    followed by "... [Content truncated]". The result is never longer than
    [maxLength + 23]. *)
Theorem truncateForPrompt_bound (text : jsstring) (maxLength : Z) :
  0 <= maxLength ->
  (len text <= maxLength -> truncateForPrompt text maxLength = text)
  /\ (maxLength < len text ->
      exists k,
        0 <= k <= maxLength
        /\ ((truncateForPrompt text maxLength
             = take (Z.to_nat k) text ++ [10] ++ js "[Content truncated]"
             /\ 0 < k
             /\ Binary64.int_gtb (k - 1) (Binary64.mul_int maxLength Binary64.c0_7) = true
             /\ (nth_error text (Z.to_nat (k - 1)) = Some 46
                 \/ nth_error text (Z.to_nat (k - 1)) = Some 10))
            \/ (truncateForPrompt text maxLength
                = take (Z.to_nat k) text ++ js "... [Content truncated]"
                /\ k = maxLength)))
  /\ len (truncateForPrompt text maxLength) <= maxLength + 23.
Proof.
  intros Hm. split; [| split].
  - intros Hle. unfold truncateForPrompt.
    destruct (Z.leb_spec (len text) maxLength); [reflexivity | lia].
  - intros Hgt. apply PromptFacts.truncateForPrompt_over. lia.
  - apply truncateForPrompt_len. exact Hm.
Qed.

Lemma truncateForPrompt_bound_witness :
  (len longTitle <= 500 -> truncateForPrompt longTitle 500 = longTitle)
  /\ (500 < len longTitle ->
      exists k,
        0 <= k <= 500
        /\ ((truncateForPrompt longTitle 500
             = take (Z.to_nat k) longTitle ++ [10] ++ js "[Content truncated]"
             /\ 0 < k
             /\ Binary64.int_gtb (k - 1) (Binary64.mul_int 500 Binary64.c0_7) = true
             /\ (nth_error longTitle (Z.to_nat (k - 1)) = Some 46
                 \/ nth_error longTitle (Z.to_nat (k - 1)) = Some 10))
            \/ (truncateForPrompt longTitle 500
                = take (Z.to_nat k) longTitle ++ js "... [Content truncated]"
                /\ k = 500)))
  /\ len (truncateForPrompt longTitle 500) <= 500 + 23.
Proof.
  apply (truncateForPrompt_bound longTitle 500). lia.
Defined.

Module FormatFacts.

Import AnalyzeThread.


Lemma sliceTo_cons {A} (x : A) (l : list A) :
  exists rest, Cache.sliceTo (x :: l) 20 = x :: rest.
Proof.
  unfold Cache.sliceTo, clampIndex. change (20 <? 0) with false. cbn iota.
  replace (Z.to_nat (Z.min 20 (Z.of_nat (length (x :: l)))))
    with (S (Z.to_nat (Z.min 19 (Z.of_nat (length l)))))
    by (simpl length; lia).
  rewrite firstn_cons. eexists. reflexivity.
Qed.

End FormatFacts.


(** In V8 a comment at depth 2^40 is one that [repeat] refuses, and one at
    depth 2 is not. *)
Lemma formatThreadContent_depths :
  AnalyzeThread.formatThreadContent v8MaxStringLength (contextAtDepth (2 ^ 40))
  = Throws AnalyzeThread.InvalidStringLength
  /\ AnalyzeThread.formatThreadContent v8MaxStringLength (contextAtDepth (-1))
     = Throws (AnalyzeThread.InvalidCountValue (-1))
  /\ AnalyzeThread.formatThreadContent v8MaxStringLength (contextAtDepth 2)
     = Returns (js "### Post Title" ++ [10] ++ js "Test Post" ++ [10; 10]
                ++ js "### Comments (1 total)" ++ [10]
                ++ js "    **alice**: First comment").
Proof. repeat split; vm_compute; reflexivity. Qed.

Section NegativeDepth.

Variable generateCommentId : nat -> jsstring.
Variable extractPostTitle extractPostBody : Document -> jsstring.

(** X25. The Reddit adapter lets a negative depth through, and the prompt
    cannot be built from it: when the first [shreddit-comment] element of a
    page with a title yields a comment of negative depth, the adapter
    returns a context, and [formatThreadContent] throws on that context. *)
Theorem reddit_negative_depth_breaks_prompt (maxStringLength : Z) (d : Document)
    (e : Element) (l : list Element) (c : Comment) (z : Z) :
  extractPostTitle d <> [] ->
  docQuerySelectorAll d (js "shreddit-comment") = e :: l ->
  RedditAdapter.extractShredditComment generateCommentId 0 e = Some c ->
  depth c = Int z ->
  z < 0 ->
  exists ctx,
    RedditComments.extractThreadContext generateCommentId extractPostTitle
      extractPostBody d = Some ctx
    /\ AnalyzeThread.formatThreadContent maxStringLength ctx
       = Throws (AnalyzeThread.InvalidCountValue z).
Proof.
  intros Htitle Hd Hc Hdepth Hz.
  unfold RedditComments.extractThreadContext.
  apply isEmpty_false in Htitle. rewrite Htitle.
  eexists. split; [reflexivity |].
  assert (Hcs : exists rest,
             RedditComments.extractComments generateCommentId d = c :: rest).
  { unfold RedditComments.extractComments. rewrite Hd.
    change (0 <? Z.of_nat (length (e :: l))) with true. cbn iota.
    change (Z.to_nat EXTRACTION_CONFIG.MAX_COMMENTS) with 50%nat.
    cbn [take imap]. unfold omap. cbn [list_omap]. rewrite Hc. eexists. reflexivity. }
  destruct Hcs as [rest Hcs].
  unfold AnalyzeThread.formatThreadContent. cbn [comments postTitle postBody].
  rewrite Hcs.
  replace (0 <? Z.of_nat (length (c :: rest))) with true
    by (symmetry; apply Z.ltb_lt; simpl length; lia).
  destruct (FormatFacts.sliceTo_cons c rest) as [tail ->].
  cbn [AnalyzeThread.mapResult]. unfold AnalyzeThread.formatComment at 1.
  rewrite Hdepth. unfold AnalyzeThread.repeatString.
  replace (z <? 0) with true by (symmetry; apply Z.ltb_lt; exact Hz).
  reflexivity.
Qed.

End NegativeDepth.

Lemma reddit_negative_depth_breaks_prompt_witness :
  exists ctx,
    RedditComments.extractThreadContext Example.ids docTitle (fun _ => [])
      negativeDepthPage = Some ctx
    /\ AnalyzeThread.formatThreadContent v8MaxStringLength ctx
       = Throws (AnalyzeThread.InvalidCountValue (-1)).
Proof.
  apply (reddit_negative_depth_breaks_prompt Example.ids docTitle (fun _ => [])
           v8MaxStringLength negativeDepthPage
           (shredditComment "t1_a" "alice" "-1" "First comment") []
           {| id := js "t1_a"; author := js "alice"; text := js "First comment";
              parentId := None; depth := Int (-1) |} (-1)).
  - vm_compute. discriminate.
  - reflexivity.
  - vm_compute. reflexivity.
  - reflexivity.
  - lia.
Defined.

(** ** The form of a cache key *)

Module KeyFacts.

Import Storage.

Lemma toInt32_range (z : Z) : - 2 ^ 31 <= toInt32 z < 2 ^ 31.
Proof.
  unfold toInt32. pose proof (Z.mod_pos_bound (z + 2 ^ 31) (2 ^ 32)). lia.
Qed.

Lemma hashStep_range (h c : Z) : - 2 ^ 31 <= hashStep h c < 2 ^ 31.
Proof. exact (toInt32_range _). Qed.

Lemma fold_left_invariant {A} (f : Z -> A -> Z) (P : Z -> Prop) :
  (forall h c, P (f h c)) -> forall l h, P h -> P (fold_left f l h).
Proof.
  intros Hf. induction l as [|c l IH]; intros h Hh; [exact Hh |].
  cbn [fold_left]. apply IH, Hf.
Qed.

Lemma hash32_range (str : jsstring) : - 2 ^ 31 <= hash32 str < 2 ^ 31.
Proof.
  apply (fold_left_invariant hashStep (fun z => - 2 ^ 31 <= z < 2 ^ 31) hashStep_range str 0).
  change (2 ^ 31) with 2147483648. lia.
Qed.

Lemma digitChar_base36 (d : Z) : 0 <= d < 36 -> isBase36 (digitChar d) = true.
Proof.
  intros Hd. unfold isBase36, isDigit, digitChar.
  destruct (Z.ltb_spec d 10).
  - replace (48 <=? 48 + d) with true by (symmetry; apply Z.leb_le; lia).
    replace (48 + d <=? 57) with true by (symmetry; apply Z.leb_le; lia).
    reflexivity.
  - replace (97 <=? 87 + d) with true by (symmetry; apply Z.leb_le; lia).
    replace (87 + d <=? 122) with true by (symmetry; apply Z.leb_le; lia).
    apply orb_true_r.
Qed.

Lemma digitsOf_base36 (fuel : nat) : forall n acc,
  0 <= n ->
  Forall (fun c => isBase36 c = true) acc ->
  Forall (fun c => isBase36 c = true) (digitsOf fuel 36 n acc).
Proof.
  induction fuel as [|fuel IH]; intros n acc Hn Hacc; cbn [digitsOf]; [exact Hacc |].
  assert (Hd : Forall (fun c => isBase36 c = true) (digitChar (n mod 36) :: acc)).
  { constructor; [| exact Hacc]. apply digitChar_base36, Z.mod_pos_bound. lia. }
  destruct (n <? 36); [exact Hd |].
  apply IH; [apply Z.div_pos; lia | exact Hd].
Qed.

Lemma digitsOf_length (fuel : nat) : forall n k acc,
  0 <= n < 36 ^ k -> 1 <= k ->
  (length acc <= length (digitsOf fuel 36 n acc))%nat
  /\ Z.of_nat (length (digitsOf fuel 36 n acc)) <= k + Z.of_nat (length acc).
Proof.
  induction fuel as [|fuel IH]; intros n k acc Hn Hk; cbn [digitsOf]; [lia |].
  destruct (Z.ltb_spec n 36) as [Hlt | Hge]; [simpl length; lia |].
  assert (Hk2 : 2 <= k).
  { destruct (Z.eq_dec k 1) as [-> | Hne]; [change (36 ^ 1) with 36 in Hn; lia | lia]. }
  assert (Hdiv : 0 <= n / 36 < 36 ^ (k - 1)).
  { split; [apply Z.div_pos; lia |].
    apply Z.div_lt_upper_bound; [lia |].
    replace (36 * 36 ^ (k - 1)) with (36 ^ k); [lia |].
    replace k with (Z.succ (k - 1)) at 1 by lia. apply Z.pow_succ_r. lia. }
  destruct (IH (n / 36) (k - 1) (digitChar (n mod 36) :: acc) Hdiv ltac:(lia))
    as [Hlow Hup].
  simpl length in *. lia.
Qed.

(** The output of [hashString]: one to six units of base 36. *)
Lemma hashString_format (str : jsstring) :
  1 <= len (hashString str) <= 6
  /\ Forall (fun c => isBase36 c = true) (hashString str).
Proof.
  unfold hashString, toStringRadix.
  pose proof (hash32_range str) as Hr.
  set (a := Z.abs (hash32 str)). assert (Ha : 0 <= a <= 2 ^ 31) by (subst a; lia).
  rewrite Z.abs_eq by lia.
  destruct (Z.ltb_spec a 0) as [Hneg | _]; [lia |]. cbn [app].
  split.
  - unfold len.
    destruct (digitsOf_length (S (Z.to_nat (Z.log2 a))) a 6 []) as [_ Hup];
      [change (36 ^ 6) with 2176782336; change (2 ^ 31) with 2147483648 in Ha; lia | lia |].
    change (Z.of_nat (length (@nil Z))) with 0 in Hup.
    split; [| lia].
    cbn [digitsOf]. destruct (a <? 36); [simpl length; lia |].
    pose proof (proj1 (digitsOf_length (Z.to_nat (Z.log2 a)) (a / 36) 6
                         [digitChar (a mod 36)]
                         ltac:(split; [apply Z.div_pos; lia |];
                               apply Z.div_lt_upper_bound; [lia |];
                               change (36 ^ 6) with 2176782336;
                               change (2 ^ 31) with 2147483648 in Ha; lia)
                         ltac:(lia))) as Hlow.
    simpl length in Hlow. lia.
  - apply digitsOf_base36; [lia | constructor].
Qed.

End KeyFacts.

(** X26. Every cache key is one to six units long and made of the digits
    and lower-case letters of base 36, whatever the url and the tone. *)
Theorem generateCacheKey_format (url tone key : jsstring) :
  Storage.generateCacheKey url tone = Some key ->
  1 <= len key <= 6 /\ Forall (fun c => isBase36 c = true) key.
Proof.
  unfold Storage.generateCacheKey.
  destruct (Storage.normalizeUrl url) as [normalizedUrl|]; [| discriminate].
  intros [= <-]. apply KeyFacts.hashString_format.
Qed.

Lemma generateCacheKey_format_witness :
  1 <= len (js "k53twj") <= 6 /\ Forall (fun c => isBase36 c = true) (js "k53twj").
Proof.
  apply (generateCacheKey_format (js "https://reddit.com/r/test/comments/123")
           (js "friendly") (js "k53twj")).
  vm_compute. reflexivity.
Defined.

(** ** The fragment of a url and the cache key *)

Module UrlFacts.

Import URL.

Lemma break_app (stop : Z -> bool) (s t : jsstring) :
  snd (break stop s) <> [] \/ match t with c :: _ => stop c = true | [] => True end ->
  break stop (s ++ t) = (fst (break stop s), snd (break stop s) ++ t).
Proof.
  induction s as [|d s IH]; intros H.
  - simpl. destruct H as [H | H]; [contradiction H; reflexivity |].
    destruct t as [|c t]; [reflexivity |]. simpl. rewrite H. reflexivity.
  - cbn [break app] in *. destruct (stop d); [reflexivity |].
    destruct (break stop s) as [a b]. cbn [fst snd] in *.
    rewrite (IH H). reflexivity.
Qed.

Lemma break_eq (stop : Z -> bool) (s : jsstring) :
  s = fst (break stop s) ++ snd (break stop s).
Proof.
  induction s as [|d s IH]; [reflexivity |].
  cbn [break]. destruct (stop d); [reflexivity |].
  destruct (break stop s) as [a b]. cbn [fst snd] in *. simpl. congruence.
Qed.

Lemma break_snd (stop : Z -> bool) (s : jsstring) :
  match snd (break stop s) with
  | [] => True
  | c :: _ => stop c = true
  end.
Proof.
  induction s as [|d s IH]; [exact I |].
  cbn [break]. destruct (stop d) eqn:Hd; [exact Hd |].
  destruct (break stop s) as [a b]. exact IH.
Qed.

Lemma break_found (stop : Z -> bool) (s : jsstring) :
  existsb stop s = true -> snd (break stop s) <> [].
Proof.
  induction s as [|d s IH]; [discriminate |].
  cbn [break existsb]. destruct (stop d); [discriminate |].
  destruct (break stop s) as [a b]. exact IH.
Qed.

Lemma break_none (stop : Z -> bool) (s : jsstring) :
  existsb stop s = false -> snd (break stop s) = [].
Proof.
  induction s as [|d s IH]; [reflexivity |].
  cbn [break existsb]. destruct (stop d); [discriminate |].
  destruct (break stop s) as [a b]. exact IH.
Qed.

(** No number sign in a string, hence none in what [break] leaves. *)
Lemma no_hash_snd (stop : Z -> bool) (s : jsstring) :
  inSet s 35 = false -> inSet (snd (break stop s)) 35 = false.
Proof.
  unfold inSet. intros H. rewrite (break_eq stop s), existsb_app in H.
  apply orb_false_iff in H as [_ H]. exact H.
Qed.

Lemma delete_withFragment (f : option jsstring) (name : jsstring) (u : t) :
  searchParams_delete name (withFragment f u)
  = withFragment f (searchParams_delete name u).
Proof. reflexivity. Qed.

Lemma deletes_withFragment (f : option jsstring) (names : list jsstring) : forall u,
  fold_left (fun u name => searchParams_delete name u) names (withFragment f u)
  = withFragment f (fold_left (fun u name => searchParams_delete name u) names u).
Proof.
  induction names as [|name names IH]; intros u; [reflexivity |].
  cbn [fold_left]. rewrite delete_withFragment. apply IH.
Qed.

(** The code unit [c] is [n], or else the hypothesis [H], which matches
    on it, cannot hold. *)
Ltac unit_is c n H :=
  let Hne := fresh "Hne" in
  destruct (Z.eq_dec c n) as [-> | Hne];
  [| exfalso; destruct c as [|c|c]; try (lazy beta iota in H; discriminate H);
     repeat (destruct c as [c|c|]; try (lazy beta iota in H; discriminate H));
     congruence].

(** Parsing a url with a fragment appended: the same url, with that
    fragment. *)
Lemma parse_with_fragment (url frag : jsstring) (u : t) :
  parse url = Parsed u ->
  inSet url 35 = false ->
  visible frag = true ->
  fragment u = None
  /\ parse (url ++ 35 :: frag) = Parsed (withFragment (Some frag) u).
Proof.
  intros Hparse Hno Hvis. unfold parse in *.
  (* the three tests on the whole string *)
  destruct (existsb (fun c => negb ((0 <=? c) && (c <? 128))) url) eqn:H1;
    [discriminate |].
  destruct (inSet url 58) eqn:H2; cbn [negb] in Hparse; [| discriminate].
  destruct (existsb (fun c => (c <=? 32) || (c =? 127)) url) eqn:H3; [discriminate |].
  assert (Hv : forall c, In c frag -> 33 <= c <= 126).
  { intros c Hc. unfold visible in Hvis. rewrite forallb_forall in Hvis.
    specialize (Hvis c Hc). apply andb_true_iff in Hvis as [Ha Hb].
    apply Z.leb_le in Ha, Hb. lia. }
  assert (H1' : existsb (fun c => negb ((0 <=? c) && (c <? 128))) (url ++ 35 :: frag)
                = false).
  { rewrite existsb_app, H1. cbn [orb existsb]. apply orb_false_iff. split; [reflexivity |].
    apply not_true_is_false. intros Hex. apply existsb_exists in Hex as (c & Hc & Hbad).
    specialize (Hv c Hc).
    replace (0 <=? c) with true in Hbad by (symmetry; apply Z.leb_le; lia).
    replace (c <? 128) with true in Hbad by (symmetry; apply Z.ltb_lt; lia).
    discriminate Hbad. }
  assert (H2' : inSet (url ++ 35 :: frag) 58 = true).
  { unfold inSet in *. rewrite existsb_app, H2. reflexivity. }
  assert (H3' : existsb (fun c => (c <=? 32) || (c =? 127)) (url ++ 35 :: frag) = false).
  { rewrite existsb_app, H3. cbn [orb existsb]. apply orb_false_iff. split; [reflexivity |].
    apply not_true_is_false. intros Hex. apply existsb_exists in Hex as (c & Hc & Hbad).
    specialize (Hv c Hc).
    replace (c <=? 32) with false in Hbad by (symmetry; apply Z.leb_gt; lia).
    replace (c =? 127) with false in Hbad by (symmetry; apply Z.eqb_neq; lia).
    discriminate Hbad. }
  rewrite H1', H2', H3'. cbn [negb].
  (* the scheme *)
  rewrite (break_app (Z.eqb 58) url (35 :: frag))
    by (left; apply break_found; exact H2).
  pose proof (no_hash_snd (Z.eqb 58) url Hno) as Hno1.
  destruct (break (Z.eqb 58) url) as [sch rest]. cbn [fst snd] in *.
  destruct (validScheme sch); cbn [negb] in *; [| discriminate].
  destruct (JS.eqb (toLowerCase sch) (js "http") || JS.eqb (toLowerCase sch) (js "https"));
    cbn [negb] in *; [| discriminate].
  destruct rest as [|c1 rest]; [discriminate |]. unit_is c1 58 Hparse.
  destruct rest as [|c2 rest]; [discriminate |]. unit_is c2 47 Hparse.
  destruct rest as [|c3 rest1]; [discriminate |]. unit_is c3 47 Hparse.
  cbn [app].
  assert (Hno2 : inSet rest1 35 = false).
  { unfold inSet in *. cbn [existsb] in Hno1.
    repeat (apply orb_false_iff in Hno1 as [_ Hno1]). exact Hno1. }
  (* authority and path *)
  rewrite (break_app (inSet (js "/?#\")) rest1 (35 :: frag)) by (right; reflexivity).
  pose proof (no_hash_snd (inSet (js "/?#\")) rest1 Hno2) as Hno3.
  destruct (break (inSet (js "/?#\")) rest1) as [authority rest2]. cbn [fst snd] in *.
  rewrite (break_app (inSet (js "?#")) rest2 (35 :: frag)) by (right; reflexivity).
  pose proof (no_hash_snd (inSet (js "?#")) rest2 Hno3) as Hno4.
  pose proof (break_snd (inSet (js "?#")) rest2) as Hstop.
  destruct (break (inSet (js "?#")) rest2) as [path rest3]. cbn [fst snd] in *.
  (* query and fragment *)
  destruct rest3 as [|c4 r].
  - cbn [app]. destruct (plainHost _ && plainPath path && true); [| discriminate].
    injection Hparse as <-. split; reflexivity.
  - assert (Hc4 : c4 = 63).
    { change (inSet (js "?#") c4) with ((c4 =? 63) || ((c4 =? 35) || false)) in Hstop.
      change (inSet (c4 :: r) 35) with ((35 =? c4) || inSet r 35) in Hno4.
      apply orb_false_iff in Hno4 as [Hn35 _]. apply Z.eqb_neq in Hn35.
      apply orb_true_iff in Hstop as [Hs | Hs]; [apply Z.eqb_eq in Hs; exact Hs |].
      apply orb_true_iff in Hs as [Hs | Hs]; [| discriminate Hs].
      apply Z.eqb_eq in Hs. congruence. }
    subst c4. cbn [app].
    assert (Hno5 : inSet r 35 = false).
    { change (inSet (63 :: r) 35) with ((35 =? 63) || inSet r 35) in Hno4.
      apply orb_false_iff in Hno4 as [_ Hno4]. exact Hno4. }
    rewrite (break_app (Z.eqb 35) r (35 :: frag)) by (right; reflexivity).
    pose proof (break_none (Z.eqb 35) r Hno5) as Hend.
    destruct (break (Z.eqb 35) r) as [q r']. cbn [fst snd] in *. subst r'. cbn [app].
    destruct (plainHost _ && plainPath path && plainQuery q); [| discriminate].
    injection Hparse as <-. split; reflexivity.
Qed.

End UrlFacts.

(** X27. A fragment makes no difference to the cache key: for a url that
    the parser accepts and that has no number sign, appending "#" and any
    visible ASCII text leaves [normalizeUrl], and so [generateCacheKey],
    unchanged. *)
Theorem generateCacheKey_ignores_fragment (url frag tone : jsstring) (u : URL.t) :
  URL.parse url = URL.Parsed u ->
  URL.inSet url 35 = false ->
  visible frag = true ->
  Storage.normalizeUrl (url ++ js "#" ++ frag) = Storage.normalizeUrl url
  /\ Storage.generateCacheKey (url ++ js "#" ++ frag) tone
     = Storage.generateCacheKey url tone.
Proof.
  intros Hparse Hno Hvis.
  destruct (UrlFacts.parse_with_fragment url frag u Hparse Hno Hvis) as [Hf Hparse'].
  assert (Hn : Storage.normalizeUrl (url ++ js "#" ++ frag) = Storage.normalizeUrl url).
  { unfold Storage.normalizeUrl. change (js "#" ++ frag) with (35 :: frag).
    rewrite Hparse, Hparse', UrlFacts.deletes_withFragment. reflexivity. }
  split; [exact Hn |]. unfold Storage.generateCacheKey. rewrite Hn. reflexivity.
Qed.

Lemma generateCacheKey_ignores_fragment_witness :
  Storage.normalizeUrl (js "https://reddit.com/r/test/comments/123?sort=new"
                        ++ js "#" ++ js "comment-42")
  = Storage.normalizeUrl (js "https://reddit.com/r/test/comments/123?sort=new")
  /\ Storage.generateCacheKey (js "https://reddit.com/r/test/comments/123?sort=new"
                               ++ js "#" ++ js "comment-42") (js "friendly")
     = Storage.generateCacheKey (js "https://reddit.com/r/test/comments/123?sort=new")
         (js "friendly").
Proof.
  destruct (URL.parse (js "https://reddit.com/r/test/comments/123?sort=new"))
    as [u | |] eqn:Hparse; [| vm_compute in Hparse; discriminate Hparse
                             | vm_compute in Hparse; discriminate Hparse].
  apply (generateCacheKey_ignores_fragment
           (js "https://reddit.com/r/test/comments/123?sort=new") (js "comment-42")
           (js "friendly") u Hparse); vm_compute; reflexivity.
Defined.

(** ** The analysis request and the cache *)

Section HandlerFacts.

Import Cache.

(** X28. An analysis is asked of the AI service once: after a request that
    missed the cache, got an answer from the service and stored it within
    the size limits, the same request at any time within the time to live
    is answered from the cache with the same suggestions and summary,
    whatever the preferences and the service are by then. *)
Theorem handleAnalyzeThread_second_request_hits
    (analyzeThread : ThreadContext -> jsstring -> option jsstring -> jsstring
                     -> ServiceWorker.Response ServiceWorker.AnalyzeResult)
    (fuel fuel' : nat) (context : ThreadContext) (tone : jsstring)
    (customToneText : option jsstring) (prefs : ServiceWorker.UserPreferences)
    (key : jsstring) (data : ServiceWorker.AnalyzeResult) (w : World) (t : Z) :
  let toneKey := if JS.eqb tone (js "custom")
                 then match customToneText with Some c => c | None => [] end
                 else tone in
  let entry := analysisEntry key (url context) toneKey
                 (ServiceWorker.data_suggestions data)
                 (ServiceWorker.data_threadSummary data) (now w)
                 (ServiceWorker.cacheTTLHours prefs) in
  Storage.generateCacheKey (url context) toneKey = Some key ->
  entries w !! key = None ->
  ServiceWorker.apiKey prefs <> [] ->
  analyzeThread context tone customToneText (ServiceWorker.apiKey prefs)
  = ServiceWorker.Success data ->
  estimateSize entry <= CACHE_CONFIG.MAX_ENTRY_SIZE_BYTES ->
  totalSize (currentIndex w) + estimateSize entry <= CACHE_CONFIG.MAX_STORAGE_BYTES ->
  t <= now w + ServiceWorker.cacheTTLHours prefs * 60 * 60 * 1000 ->
  exists first w',
    ServiceWorker.handleAnalyzeThread analyzeThread (S fuel) context tone
      customToneText prefs = Some first
    /\ first w
       = Done (ServiceWorker.Success
                 {| ServiceWorker.result_suggestions := ServiceWorker.data_suggestions data;
                    ServiceWorker.result_threadSummary :=
                      ServiceWorker.data_threadSummary data;
                    ServiceWorker.fromCache := false |}) w'
    /\ forall analyzeThread' prefs',
         exists second,
           ServiceWorker.handleAnalyzeThread analyzeThread' (S fuel') context tone
             customToneText prefs' = Some second
           /\ second (atTime t w')
              = Done (ServiceWorker.Success
                        {| ServiceWorker.result_suggestions :=
                             ServiceWorker.data_suggestions data;
                           ServiceWorker.result_threadSummary :=
                             ServiceWorker.data_threadSummary data;
                           ServiceWorker.fromCache := true |}) (atTime t w').
Proof.
  intros toneKey entry Hkey Hmiss Hapikey Hai Hsize Hbudget Ht.
  unfold ServiceWorker.handleAnalyzeThread. fold toneKey.
  unfold CacheService.getCachedAnalysis, CacheService.cacheAnalysis. rewrite Hkey.
  do 2 eexists. split; [reflexivity |]. split.
  - unfold bind at 1. rewrite (CacheFacts.getCacheEntry_absent _ _ _ Hmiss).
    apply isEmpty_false in Hapikey. rewrite Hapikey, Hai.
    unfold bind at 1. unfold bind at 1, Date_now at 1.
    fold (analysisEntry key (url context) toneKey (ServiceWorker.data_suggestions data)
            (ServiceWorker.data_threadSummary data) (now w)
            (ServiceWorker.cacheTTLHours prefs)).
    fold entry.
    rewrite (SaveFacts.saveCacheEntry_within_budget _ entry w Hsize Hbudget).
    reflexivity.
  - intros analyzeThread' prefs'. eexists. split; [reflexivity |].
    unfold bind at 1.
    rewrite (CacheFacts.getCacheEntry_fresh fuel' key _ entry);
      [reflexivity | cbn [atTime entries]; apply lookup_insert_eq | exact Ht].
Qed.

End HandlerFacts.

Lemma handleAnalyzeThread_second_request_hits_witness :
  exists first w',
    ServiceWorker.handleAnalyzeThread (fixedService [] (js "A thread about tests")) 1
      (titledContext (js "reddit") (js "https://reddit.com/r/test/comments/123"))
      (js "friendly") None
      {| ServiceWorker.apiKey := js "sk-test"; ServiceWorker.cacheTTLHours := 24 |}
    = Some first
    /\ first emptyWorld
       = Cache.Done
           (ServiceWorker.Success
              {| ServiceWorker.result_suggestions := [];
                 ServiceWorker.result_threadSummary := js "A thread about tests";
                 ServiceWorker.fromCache := false |}) w'
    /\ forall analyzeThread' prefs',
         exists second,
           ServiceWorker.handleAnalyzeThread analyzeThread' 1
             (titledContext (js "reddit") (js "https://reddit.com/r/test/comments/123"))
             (js "friendly") None prefs' = Some second
           /\ second (atTime 1700086400000 w')
              = Cache.Done
                  (ServiceWorker.Success
                     {| ServiceWorker.result_suggestions := [];
                        ServiceWorker.result_threadSummary := js "A thread about tests";
                        ServiceWorker.fromCache := true |}) (atTime 1700086400000 w').
Proof.
  apply (handleAnalyzeThread_second_request_hits
           (fixedService [] (js "A thread about tests")) 0 0
           (titledContext (js "reddit") (js "https://reddit.com/r/test/comments/123"))
           (js "friendly") None
           {| ServiceWorker.apiKey := js "sk-test"; ServiceWorker.cacheTTLHours := 24 |}
           (js "k53twj")
           {| ServiceWorker.data_suggestions := [];
              ServiceWorker.data_threadSummary := js "A thread about tests" |}
           emptyWorld 1700086400000).
  - vm_compute. reflexivity.
  - reflexivity.
  - discriminate.
  - reflexivity.
  - vm_compute. discriminate.
  - vm_compute. discriminate.
  - vm_compute. discriminate.
Defined.

(** ** Selector lists and the longest text *)

(** X29. [queryFirst] and [queryAll] go through the selectors in the same
    way: [queryFirst] returns the first element of what [queryAll] returns,
    and that is everything found by the first selector of the list that
    finds anything. *)
Theorem queryFirst_head_queryAll (d : Document) (selectors : list jsstring) :
  BasePlatformAdapter.queryFirst d selectors
  = head (BasePlatformAdapter.queryAll d selectors)
  /\ (BasePlatformAdapter.queryAll d selectors = []
      /\ Forall (fun selector => docQuerySelectorAll d selector = []) selectors
      \/ exists before selector after,
           selectors = before ++ selector :: after
           /\ Forall (fun s => docQuerySelectorAll d s = []) before
           /\ docQuerySelectorAll d selector <> []
           /\ BasePlatformAdapter.queryAll d selectors = docQuerySelectorAll d selector).
Proof.
  induction selectors as [|selector rest [IH1 IH2]]; cbn [BasePlatformAdapter.queryFirst
    BasePlatformAdapter.queryAll].
  - split; [reflexivity |]. left. split; [reflexivity | constructor].
  - unfold docQuerySelector.
    destruct (docQuerySelectorAll d selector) as [|e l] eqn:Hsel; cbn [head].
    + split; [exact IH1 |].
      destruct IH2 as [[Hnone Hall] | (before & s & after & -> & Hb & Hs & Hq)].
      * left. split; [exact Hnone |]. constructor; assumption.
      * right. exists (selector :: before), s, after.
        split; [reflexivity |]. split; [constructor; assumption |]. split; assumption.
    + split; [reflexivity |]. right. exists [], selector, rest.
      split; [reflexivity |]. split; [constructor |].
      rewrite Hsel. split; [discriminate | reflexivity].
Qed.

Section FacebookFacts.

Variable generateCommentId : nat -> jsstring.
Variable isEmoji : jsstring -> bool.

(** One round of the loop of [longestText]. *)
Lemma longest_step (held : jsstring) (el : Element) :
  let next := if negb (isEmpty (facebookText isEmoji el))
                 && (len held <? len (facebookText isEmoji el))
              then facebookText isEmoji el else held in
  len held <= len next
  /\ len (facebookText isEmoji el) <= len next
  /\ (next = held \/ next = facebookText isEmoji el).
Proof.
  cbv zeta. pose proof (len_nonneg held) as Hheld.
  destruct (facebookText isEmoji el) as [|ch t] eqn:He; cbn [isEmpty negb andb].
  - change (len []) with 0. repeat split; [lia | lia | left; reflexivity].
  - destruct (Z.ltb_spec (len held) (len (ch :: t))).
    + repeat split; [lia | lia | right; reflexivity].
    + repeat split; [lia | lia | left; reflexivity].
Qed.

(** The loop of [longestText] from a text already held. *)
Lemma longest_fold (textElements : list Element) : forall held,
  let best :=
    fold_left
      (fun text el =>
         let t := FacebookAdapter.extractTextFromFacebookElement isEmoji (Some el) in
         if negb (isEmpty t) && (len text <? len t) then t else text)
      textElements held in
  len held <= len best
  /\ (forall el, In el textElements -> len (facebookText isEmoji el) <= len best)
  /\ (best = held \/ exists el, In el textElements /\ best = facebookText isEmoji el).
Proof.
  induction textElements as [|el rest IH]; intros held; cbn [fold_left].
  - cbv zeta. split; [lia |]. split; [intros el [] | left; reflexivity].
  - cbv zeta. fold (facebookText isEmoji el).
    destruct (longest_step held el) as (H1 & H2 & H3). cbv zeta in H1, H2, H3.
    set (next := if negb (isEmpty (facebookText isEmoji el))
                    && (len held <? len (facebookText isEmoji el))
                 then facebookText isEmoji el else held) in *.
    destruct (IH next) as (Hlen & Hall & Hfrom). cbv zeta in Hlen, Hall, Hfrom.
    split; [lia |]. split.
    + intros el' [<- | Hin]; [lia | apply Hall; exact Hin].
    + destruct Hfrom as [Hb | (el' & Hin & Hb)].
      * destruct H3 as [Hn | Hn].
        -- left. congruence.
        -- right. exists el. split; [left; reflexivity | congruence].
      * right. exists el'. split; [right; exact Hin | exact Hb].
Qed.

(** X30. The text of a Facebook comment is the longest text found among
    the candidate elements of its container: it is the extracted text of
    one of them, under the 2000-unit cap, and no candidate has a longer
    one. *)
Theorem facebook_comment_text_longest (i : nat) (container : Element) (c : Comment) :
  FacebookAdapter.extractSingleComment generateCommentId isEmoji i container = Some c ->
  exists el,
    In el (querySelectorAll container
             (attrSel "div" "dir" "=" "auto" " span, .UFICommentBody"))
    /\ facebookText isEmoji el <> []
    /\ text c = BasePlatformAdapter.truncateText (facebookText isEmoji el) 2000
    /\ forall el', In el' (querySelectorAll container
                             (attrSel "div" "dir" "=" "auto" " span, .UFICommentBody")) ->
                   len (facebookText isEmoji el') <= len (facebookText isEmoji el).
Proof.
  unfold FacebookAdapter.extractSingleComment, FacebookAdapter.longestText.
  set (candidates := querySelectorAll container _).
  destruct (longest_fold candidates []) as (_ & Hall & Hfrom).
  cbv zeta in Hall, Hfrom. intros H. some_inv H. apply isEmpty_false in E.
  destruct Hfrom as [Hnil | (el & Hin & Hel)]; [contradiction |].
  exists el. cbn [text]. rewrite <- Hel. auto.
Qed.

End FacebookFacts.

Lemma facebook_comment_text_longest_witness :
  exists el,
    In el (querySelectorAll facebookComment
             (attrSel "div" "dir" "=" "auto" " span, .UFICommentBody"))
    /\ facebookText (fun _ => false) el <> []
    /\ js "Nice post, thanks!"
       = BasePlatformAdapter.truncateText (facebookText (fun _ => false) el) 2000
    /\ forall el', In el' (querySelectorAll facebookComment
                             (attrSel "div" "dir" "=" "auto" " span, .UFICommentBody")) ->
                   len (facebookText (fun _ => false) el')
                   <= len (facebookText (fun _ => false) el).
Proof.
  apply (facebook_comment_text_longest Example.ids (fun _ => false) 0 facebookComment
           {| id := Example.ids 0; author := js "Facebook User";
              text := js "Nice post, thanks!"; parentId := None; depth := Int 0 |}).
  vm_compute. reflexivity.
Defined.

(** ** The caps of the adapters, against the texts of the page *)

Lemma Forall_omap_imap_from {A B} (P : A -> B -> Prop) (l : list A) :
  forall (f : nat -> A -> option B),
  (forall i x c, f i x = Some c -> P x c) ->
  Forall (fun c => exists x, In x l /\ P x c) (omap (fun pushed => pushed) (imap f l)).
Proof.
  induction l as [|x l IH]; intros f Hf; simpl; [constructor |].
  assert (Hrest : Forall (fun c => exists y, (x = y \/ In y l) /\ P y c)
                         (omap (fun pushed => pushed) (imap (f ∘ S) l))).
  { specialize (IH (f ∘ S) (fun i y c => Hf (S i) y c)).
    eapply List.Forall_impl; [| exact IH].
    intros c (y & Hy & HP). exists y. auto. }
  unfold omap in Hrest. destruct (f 0%nat x) eqn:Hx; [| exact Hrest].
  constructor; [| exact Hrest]. exists x. split; [left; reflexivity | eauto].
Qed.

Lemma In_take {A} (n : nat) (l : list A) (x : A) : In x (take n l) -> In x l.
Proof.
  revert n. induction l as [|y l IH]; intros n; destruct n; simpl; try tauto.
  intros [-> | H]; [left; reflexivity | right; eauto].
Qed.

(** The comments of a loop over the first [n] elements, each with the
    element it was taken from. *)
Lemma loop_comments_from {B} (P : Element -> B -> Prop) (n : nat) (l : list Element)
    (f : nat -> Element -> option B) :
  (forall i x c, f i x = Some c -> P x c) ->
  Forall (fun c => exists x, In x l /\ P x c)
         (omap (fun pushed => pushed) (imap f (take n l))).
Proof.
  intros Hf. eapply List.Forall_impl; [| apply (Forall_omap_imap_from P (take n l) f Hf)].
  intros c (x & Hx & HP). exists x. split; [exact (In_take _ _ _ Hx) | exact HP].
Qed.

Section HardCut.

Variable generateCommentId : nat -> jsstring.
Variable extractPostTitle extractPostBody : Document -> jsstring.
Variable isEmoji isMetadataText : jsstring -> bool.

Lemma shreddit_comment_text i el c :
  RedditAdapter.extractShredditComment generateCommentId i el = Some c ->
  text c = BasePlatformAdapter.truncateText (shredditCommentText el) 2000.
Proof.
  unfold RedditAdapter.extractShredditComment. intros H. some_inv H. reflexivity.
Qed.

Lemma reddit_single_comment_text i el c :
  RedditAdapter.extractSingleComment generateCommentId i el 0 = Some c ->
  text c = BasePlatformAdapter.truncateText
             (BasePlatformAdapter.getTextContent
                (BasePlatformAdapter.queryFirstWithin el RedditAdapter.commentText)) 2000.
Proof.
  unfold RedditAdapter.extractSingleComment. intros H. some_inv H. reflexivity.
Qed.

Lemma facebook_comment_text i el c :
  FacebookAdapter.extractSingleComment generateCommentId isEmoji i el = Some c ->
  text c = BasePlatformAdapter.truncateText
             (FacebookAdapter.longestText isEmoji
                (querySelectorAll el
                   (attrSel "div" "dir" "=" "auto" " span, .UFICommentBody"))) 2000.
Proof.
  unfold FacebookAdapter.extractSingleComment. intros H. some_inv H. reflexivity.
Qed.

(** C4, as the code has it. Every text field that an adapter stores is the
    text found on the page, capped the hard way: the title at 500 units,
    the body at 10000, each comment at 2000. A text within its cap is
    stored as it is; a text over its cap is stored as its first cap - 3
    units followed by three dots, whatever boundaries it holds. *)
Theorem adapter_fields_hard_cut k d ctx :
  extractThreadContextOf generateCommentId extractPostTitle extractPostBody
    isEmoji isMetadataText k d = Some ctx ->
  hardCut EXTRACTION_CONFIG.MAX_POST_TITLE_LENGTH (rawTitle extractPostTitle k d)
          (postTitle ctx)
  /\ hardCut EXTRACTION_CONFIG.MAX_POST_BODY_LENGTH
             (rawBody extractPostBody isEmoji isMetadataText k d) (postBody ctx)
  /\ Forall (fun c => exists raw, In raw (rawCommentTexts isEmoji k d)
                                  /\ hardCut 2000 raw (text c))
            (comments ctx).
Proof.
  assert (Hcap : forall raw, hardCut 2000 raw (BasePlatformAdapter.truncateText raw 2000))
    by (intros raw; apply truncateText_hardCut; lia).
  destruct k; cbn [extractThreadContextOf rawTitle rawBody rawCommentTexts].
  - unfold RedditAdapter.extractThreadContext. intros H. some_inv H.
    cbn [postTitle postBody comments].
    split; [apply truncateText_hardCut; vm_compute; discriminate |].
    split; [apply truncateText_hardCut; vm_compute; discriminate |].
    unfold RedditAdapter.extractComments.
    destruct (docQuerySelectorAll d (js "shreddit-comment")) as [|e l].
    + eapply List.Forall_impl;
        [| apply (loop_comments_from
                    (fun el c => text c = BasePlatformAdapter.truncateText
                       (BasePlatformAdapter.getTextContent
                          (BasePlatformAdapter.queryFirstWithin el RedditAdapter.commentText))
                       2000));
           intros i x c; apply reddit_single_comment_text].
      intros c (el & Hel & ->). eexists. split; [| apply Hcap].
      apply in_map_iff. exists el. split; [reflexivity | exact Hel].
    + eapply List.Forall_impl;
        [| apply (loop_comments_from
                    (fun el c => text c = BasePlatformAdapter.truncateText
                                            (shredditCommentText el) 2000));
           intros i x c; apply shreddit_comment_text].
      intros c (el & Hel & ->). eexists. split; [| apply Hcap].
      apply in_map_iff. exists el. split; [reflexivity | exact Hel].
  - unfold TwitterAdapter.extractThreadContext.
    destruct (TwitterAdapter.extractMainTweet d) as [mainTweet postAuthor].
    intros H. some_inv H. cbn [postTitle postBody comments fst].
    split; [apply (truncateText_hardCut [] 500); lia |].
    split; [apply truncateText_hardCut; vm_compute; discriminate |].
    apply List.Forall_forall. intros c Hc. unfold TwitterAdapter.extractReplies in Hc.
    apply repliesLoop_origin in Hc as (j & tweet & Hj & _ & _ & -> & _).
    eexists. split; [| apply Hcap].
    apply in_map_iff. exists tweet. split; [reflexivity |].
    exact (nth_error_In _ _ Hj).
  - unfold FacebookAdapter.extractThreadContext. intros H. some_inv H.
    cbn [postTitle postBody comments].
    split; [apply (truncateText_hardCut [] 500); lia |].
    split; [apply truncateText_hardCut; vm_compute; discriminate |].
    unfold FacebookAdapter.extractComments.
    eapply List.Forall_impl;
      [| apply (loop_comments_from
                  (fun el c => text c = BasePlatformAdapter.truncateText
                     (FacebookAdapter.longestText isEmoji
                        (querySelectorAll el
                           (attrSel "div" "dir" "=" "auto" " span, .UFICommentBody")))
                     2000));
         intros i x c; apply facebook_comment_text].
    intros c (el & Hel & ->). eexists. split; [| apply Hcap].
    apply in_map_iff. exists el. split; [reflexivity | exact Hel].
Qed.

End HardCut.

(** A title of 502 units and a comment of 2003: both are over their caps,
    and what is stored is their first 497 and 1997 units and three dots. *)
Lemma adapter_fields_hard_cut_witness :
  exists ctx,
    extractThreadContextOf Example.ids (fun _ => longTitle) (fun _ => [])
      (fun _ => false) (fun _ => false) Reddit longCommentPage = Some ctx
    /\ hardCut EXTRACTION_CONFIG.MAX_POST_TITLE_LENGTH longTitle (postTitle ctx)
    /\ hardCut EXTRACTION_CONFIG.MAX_POST_BODY_LENGTH [] (postBody ctx)
    /\ Forall (fun c => exists raw, In raw [longComment; js "A short comment"]
                                    /\ hardCut 2000 raw (text c))
              (comments ctx).
Proof.
  eexists. split; [reflexivity |].
  apply (adapter_fields_hard_cut Example.ids (fun _ => longTitle) (fun _ => [])
           (fun _ => false) (fun _ => false) Reddit longCommentPage).
  reflexivity.
Defined.

(** What the example stores. *)
Lemma long_fields_are_cut :
  exists ctx,
    extractThreadContextOf Example.ids (fun _ => longTitle) (fun _ => [])
      (fun _ => false) (fun _ => false) Reddit longCommentPage = Some ctx
    /\ postTitle ctx = repeat 97 497 ++ js "..."
    /\ List.map text (comments ctx) = [repeat 98 1997 ++ js "..."; js "A short comment"].
Proof. eexists. split; [reflexivity |]. split; vm_compute; reflexivity. Qed.

(** ** The cache key and the normalization of a url *)

(** ** The case of a url *)

Module CaseFacts.

Import URL.





















End CaseFacts.

Module StepFacts.

Import URL UrlSteps.





End StepFacts.

Module LowerFacts.

Import URL UrlSteps CaseFacts.











End LowerFacts.

Module QueryFacts.

Import URL UrlSteps CaseFacts LowerFacts.















Section OneParameter.

Variables n v : jsstring.
Hypothesis Hn : existsb (JS.eqb n) Storage.trackingParameters = true.
Hypothesis Hv : plainValue v = true.






End OneParameter.

End QueryFacts.

Module TrackingFacts.

Import URL UrlSteps CaseFacts LowerFacts QueryFacts.











End TrackingFacts.

Module KeyCaseFacts.

Import URL UrlSteps CaseFacts LowerFacts QueryFacts TrackingFacts.






End KeyCaseFacts.



(** The urls of the tests are instances: the tracking parameter
    [utm_source=share], and the host in capitals. *)
Lemma normalization_of_test_urls :
  trackingOnly [(js "utm_source", js "share")] = true
  /\ js "https://reddit.com/r/test/comments/123" ++ js "?"
     ++ queryOf [(js "utm_source", js "share")]
     = js "https://reddit.com/r/test/comments/123?utm_source=share"
  /\ toLowerCase (js "https://REDDIT.com/r/test/comments/123")
     = toLowerCase (js "https://reddit.com/r/test/comments/123").
Proof. split; [| split]; vm_compute; reflexivity. Qed.

